(** * Grafana query helper: a shallow embedding of [query_helper.py]

    The development models [GrafanaQueryHelper] of
    [skills/grafana/references/query_helper.py]: the time-range parsers, the
    three dispatch functions with their retry loop, and the two result
    formatters.  Python values are an inductive type, exceptions are explicit
    results, and the network, the clock and [time.sleep] are threaded through
    a small state-and-error monad.

    Strings are Rocq strings whose characters stand for the code points 0..255
    (the Latin-1 range of Python's [str]).  The built-in and library
    functions behave, and word their errors, as in CPython 3.11 on Linux. *)

From Stdlib Require Import ZArith List String Ascii Bool Lia.
From Stdlib Require Import DecimalString.
From Stdlib Require Import PrimFloat SpecFloat FloatOps.
Import ListNotations.

Local Open Scope string_scope.
Local Open Scope Z_scope.

Local Set Warnings "-register-all".

(* ================================================================== *)
(** * Part I. The Python fragment the helper runs on *)
(* ================================================================== *)

Module Py.

(** ** Characters and strings *)

Definition code (c : ascii) : Z := Z.of_nat (nat_of_ascii c).

Definition chr (z : Z) : ascii := ascii_of_nat (Z.to_nat z).

Definition nl : string := String (chr 10) "".
Definition dquote : ascii := chr 34.
Definition squote : ascii := chr 39.
Definition backslash : ascii := chr 92.

(** [str.isspace] on the code points below 256. *)
Definition isspace (c : ascii) : bool :=
  let n := code c in
  ((9 <=? n) && (n <=? 13)) || ((28 <=? n) && (n <=? 32))
  || (n =? 133) || (n =? 160).

(** The decimal digits [int()] accepts below code point 256. *)
Definition isdecimal (c : ascii) : bool :=
  let n := code c in (48 <=? n) && (n <=? 57).

(** [str.isdigit] on one character: the decimal digits and the superscripts
    two, three and one. *)
Definition isdigit_char (c : ascii) : bool :=
  let n := code c in
  isdecimal c || (n =? 178) || (n =? 179) || (n =? 185).

(** [str.isprintable] on one character. *)
Definition isprintable (c : ascii) : bool :=
  let n := code c in
  ((32 <=? n) && (n <=? 126)) || ((161 <=? n) && negb (n =? 173)).

Definition chars (s : string) : list ascii := list_ascii_of_string s.
Definition str_of (cs : list ascii) : string := string_of_list_ascii cs.

Definition len (s : string) : Z := Z.of_nat (String.length s).

(** [s.isdigit()]: non-empty and every character a digit. *)
Definition isdigit (s : string) : bool :=
  negb (String.eqb s "") && forallb isdigit_char (chars s).

Fixpoint lstrip (s : string) : string :=
  match s with
  | String c s' => if isspace c then lstrip s' else s
  | EmptyString => EmptyString
  end.

Fixpoint rstrip (s : string) : string :=
  match s with
  | String c s' =>
      match rstrip s' with
      | EmptyString => if isspace c then EmptyString else String c EmptyString
      | r => String c r
      end
  | EmptyString => EmptyString
  end.

(** [s.strip()] *)
Definition strip (s : string) : string := rstrip (lstrip s).

(** [s.startswith(p)] *)
Definition startswith (p s : string) : bool := String.prefix p s.

(** [p in s] for two strings: substring search. *)
Fixpoint str_contains (p s : string) : bool :=
  String.prefix p s ||
  match s with
  | String _ s' => str_contains p s'
  | EmptyString => false
  end.

(** [sep.join(parts)] *)
Definition join (sep : string) (parts : list string) : string :=
  String.concat sep parts.

(** ** Indices and slices

    [seq[i]] counts a negative [i] from the end; [seq[lo:hi]] clamps both
    bounds to the sequence and never fails. *)

Definition norm_index (n i : Z) : option nat :=
  let j := if i <? 0 then i + n else i in
  if (0 <=? j) && (j <? n) then Some (Z.to_nat j) else None.

Definition clamp (n i : Z) : Z :=
  let j := if i <? 0 then i + n else i in
  Z.max 0 (Z.min n j).

Definition slice {A : Type} (lo hi : option Z) (l : list A) : list A :=
  let n := Z.of_nat (List.length l) in
  let a := match lo with Some i => clamp n i | None => 0 end in
  let b := match hi with Some i => clamp n i | None => n end in
  firstn (Z.to_nat (b - a)) (skipn (Z.to_nat a) l).

Definition str_slice (lo hi : option Z) (s : string) : string :=
  str_of (slice lo hi (chars s)).

(** [range(n)] *)
Definition range (n : Z) : list Z := map Z.of_nat (seq 0 (Z.to_nat n)).

(** [range(a, b)] *)
Definition range2 (a b : Z) : list Z :=
  map (fun k => a + Z.of_nat k) (seq 0 (Z.to_nat (b - a))).

(** ** Numbers as text *)

(** [str(z)] for an [int]. *)
Definition str_of_int (z : Z) : string := NilZero.string_of_int (Z.to_int z).

Definition hex_digit (z : Z) : ascii :=
  if z <? 10 then chr (48 + z) else chr (87 + z).

Definition hex2 (z : Z) : string :=
  String (hex_digit (z / 16)) (String (hex_digit (z mod 16)) "").

Definition HEX_digit (z : Z) : ascii :=
  if z <? 10 then chr (48 + z) else chr (55 + z).

(** ** [repr] of a string *)

Definition repr_char (q : ascii) (c : ascii) : string :=
  let n := code c in
  if (n =? 92) then String backslash (String backslash "")
  else if Ascii.eqb c q then String backslash (String q "")
  else if n =? 9 then String backslash "t"
  else if n =? 10 then String backslash "n"
  else if n =? 13 then String backslash "r"
  else if isprintable c then String c ""
  else String backslash ("x" ++ hex2 n).

Definition repr_str (s : string) : string :=
  let cs := chars s in
  let q := if existsb (Ascii.eqb squote) cs && negb (existsb (Ascii.eqb dquote) cs)
           then dquote else squote in
  String q (String.concat "" (map (repr_char q) cs) ++ String q "").

(** ** [urllib.parse.quote(s)]

    Letters, digits and [_.-~/] stay; any other character becomes the
    percent-escapes of its UTF-8 bytes. *)

Definition percent (b : Z) : string :=
  String "%" (String (HEX_digit (b / 16)) (String (HEX_digit (b mod 16)) "")).

Definition quote_char (c : ascii) : string :=
  let n := code c in
  if ((48 <=? n) && (n <=? 57)) || ((65 <=? n) && (n <=? 90))
     || ((97 <=? n) && (n <=? 122))
     || (n =? 95) || (n =? 46) || (n =? 45) || (n =? 126) || (n =? 47)
  then String c ""
  else if n <? 128 then percent n
  else percent (192 + n / 64) ++ percent (128 + n mod 64).

Definition quote (s : string) : string :=
  String.concat "" (map quote_char (chars s)).

(** [s.replace('Z', '+00:00')] *)
Fixpoint replace_Z (s : string) : string :=
  match s with
  | String c s' => (if Ascii.eqb c "Z" then "+00:00" else String c "") ++ replace_Z s'
  | EmptyString => EmptyString
  end.

(** [c in s] for a character [c]. *)
Definition has_char (c : ascii) (s : string) : bool :=
  existsb (Ascii.eqb c) (chars s).

End Py.

Module PyFloat.
Import Py.

(** ** Binary64 floats

    A Python [float] is a primitive binary64 float.  Its text forms are
    computed from the exact value [m * 2^e] that [Prim2SF] exposes. *)

Definition of_int (z : Z) : float := SF2Prim (binary_normalize prec emax z 0 false).

Definition is_finite (f : float) : bool :=
  match Prim2SF f with
  | S754_zero _ | S754_finite _ _ _ => true
  | _ => false
  end.

(** [x == 0.0]: true for both zeros, false for NaN. *)
Definition is_zero (f : float) : bool :=
  match Prim2SF f with
  | S754_zero _ => true
  | _ => false
  end.

(** Nearest integer to [p / q] for [0 <= p] and [0 < q], ties to even. *)
Definition round_half_even (p q : Z) : Z :=
  let d := p / q in
  let r := p mod q in
  if 2 * r <? q then d
  else if q <? 2 * r then d + 1
  else if Z.even d then d else d + 1.

Definition signed (s : bool) (z : Z) : Z := if s then - z else z.

(** The integer part, towards zero; [None] for an infinity or a NaN. *)
Definition trunc (f : float) : option Z :=
  match Prim2SF f with
  | S754_zero _ => Some 0
  | S754_finite s m e =>
      Some (signed s (if 0 <=? e then Z.pos m * 2 ^ e else Z.pos m / 2 ^ (- e)))
  | _ => None
  end.

(** The nearest integer, ties to even; [None] for an infinity or a NaN. *)
Definition rint (f : float) : option Z :=
  match Prim2SF f with
  | S754_zero _ => Some 0
  | S754_finite s m e =>
      Some (signed s (if 0 <=? e then Z.pos m * 2 ^ e
                      else round_half_even (Z.pos m) (2 ^ (- e))))
  | _ => None
  end.

Definition pad2 (z : Z) : string :=
  if z <? 10 then "0" ++ str_of_int z else str_of_int z.

(** [format(x, '.2f')] for a float. *)
Definition fixed2 (f : float) : string :=
  match Prim2SF f with
  | S754_zero s => (if s then "-" else "") ++ "0.00"
  | S754_infinity s => if s then "-inf" else "inf"
  | S754_nan => "nan"
  | S754_finite s m e =>
      let n := if 0 <=? e then 100 * Z.pos m * 2 ^ e
               else round_half_even (100 * Z.pos m) (2 ^ (- e)) in
      (if s then "-" else "") ++ str_of_int (n / 100) ++ "." ++ pad2 (n mod 100)
  end.

(** *** [repr(x)]: the shortest decimal that reads back as [x] *)

(** Comparison of [a * 10^k] with [b * 2^e] for non-negative [a], [b]. *)
Definition cmp_dec_bin (a k b e : Z) : comparison :=
  let l := a * (if 0 <=? k then 10 ^ k else 1) * (if 0 <=? e then 1 else 2 ^ (- e)) in
  let r := b * (if 0 <=? e then 2 ^ e else 1) * (if 0 <=? k then 1 else 10 ^ (- k)) in
  l ?= r.

(** Does the decimal [a * 10^k] round to the float [m * 2^e]?  The bounds
    are the midpoints to the neighbouring floats, in units of [2^(e-2)];
    they belong to the interval when [m] is even. *)
Definition reads_back (m e a k : Z) : bool :=
  let lower_gap := if (m =? 2 ^ 52) && (-1074 <? e) then 1 else 2 in
  let lo := cmp_dec_bin a k (4 * m - lower_gap) (e - 2) in
  let hi := cmp_dec_bin a k (4 * m + 2) (e - 2) in
  let even := Z.even m in
  match lo, hi with
  | Gt, Lt => true
  | Eq, Lt => even
  | Gt, Eq => even
  | _, _ => false
  end.

(** Number of decimal digits of a positive integer. *)
Definition ndigits (z : Z) : Z := len (str_of_int z).

(** The position of the decimal point: [10^(d-1) <= m * 2^e < 10^d]. *)
Fixpoint decpt_below (fuel : nat) (m e d : Z) : Z :=
  match fuel with
  | O => d
  | S fuel' =>
      match cmp_dec_bin 1 (d - 1) m e with
      | Gt => decpt_below fuel' m e (d - 1)
      | _ => d
      end
  end.

Definition decpt (m e : Z) : Z :=
  if 0 <=? e then ndigits (m * 2 ^ e)
  else let q := m / 2 ^ (- e) in
       if 0 <? q then ndigits q else decpt_below 400 m e 0.

(** [floor (m * 2^e * 10^s)] *)
Definition scaled_floor (m e s : Z) : Z :=
  (m * (if 0 <=? e then 2 ^ e else 1) * (if 0 <=? s then 10 ^ s else 1))
  / ((if 0 <=? e then 1 else 2 ^ (- e)) * (if 0 <=? s then 1 else 10 ^ (- s))).

(** Is [a * 10^(-s)] at most as far from [m * 2^e] as [(a+1) * 10^(-s)]? *)
Definition lower_is_closer (m e s a : Z) : bool :=
  match cmp_dec_bin (2 * a + 1) (- s) (2 * m) e with
  | Lt => false
  | Gt => true
  | Eq => Z.even a
  end.

Fixpoint shortest (fuel : nat) (m e d p : Z) : Z * Z :=
  let s := p - d in
  let a := scaled_floor m e s in
  let okl := reads_back m e a (- s) in
  let okh := reads_back m e (a + 1) (- s) in
  let pick := if okl && okh then (if lower_is_closer m e s a then Some a else Some (a + 1))
              else if okl then Some a
              else if okh then Some (a + 1) else None in
  match pick, fuel with
  | Some n, _ => (n, s)
  | None, O => (a, s)
  | None, S fuel' => shortest fuel' m e d (p + 1)
  end.

Fixpoint strip_zeros (fuel : nat) (n s : Z) : Z * Z :=
  match fuel with
  | O => (n, s)
  | S fuel' => if (n mod 10 =? 0) && negb (n =? 0) then strip_zeros fuel' (n / 10) (s - 1)
               else (n, s)
  end.

Definition zeros (n : Z) : string := str_of (repeat "0"%char (Z.to_nat n)).

Definition repr_finite (m e : Z) : string :=
  let '(n0, s0) := shortest 17 m e (decpt m e) 1 in
  let '(n, s) := strip_zeros 20 n0 s0 in
  let ds := str_of_int n in
  let k := len ds in
  let d := k - s in
  if (d <=? -4) || (16 <? d) then
    let x := d - 1 in
    str_slice None (Some 1) ds
    ++ (if 1 <? k then "." ++ str_slice (Some 1) None ds else "")
    ++ "e" ++ (if x <? 0 then "-" else "+") ++ pad2 (Z.abs x)
  else if d <=? 0 then "0." ++ zeros (- d) ++ ds
  else if k <=? d then ds ++ zeros (d - k) ++ ".0"
  else str_slice None (Some d) ds ++ "." ++ str_slice (Some d) None ds.

Definition repr (f : float) : string :=
  match Prim2SF f with
  | S754_zero s => if s then "-0.0" else "0.0"
  | S754_infinity s => if s then "-inf" else "inf"
  | S754_nan => "nan"
  | S754_finite s m e => (if s then "-" else "") ++ repr_finite (Z.pos m) e
  end.

End PyFloat.

Module PyVal.
Import Py.

(** ** Values

    What [json.load] and [json.loads] produce, which is all the helper
    handles: a dict is kept as its items in insertion order (keys are
    strings and, in a dict, distinct; lookup takes the first item). *)

Inductive pyval : Type :=
| PNone
| PBool (b : bool)
| PInt (z : Z)
| PFloat (f : float)
| PStr (s : string)
| PList (l : list pyval)
| PDict (items : list (string * pyval)).

Definition type_name (v : pyval) : string :=
  match v with
  | PNone => "NoneType"
  | PBool _ => "bool"
  | PInt _ => "int"
  | PFloat _ => "float"
  | PStr _ => "str"
  | PList _ => "list"
  | PDict _ => "dict"
  end.

Fixpoint lookup {A : Type} (k : string) (items : list (string * A)) : option A :=
  match items with
  | [] => None
  | (k', v) :: rest => if String.eqb k k' then Some v else lookup k rest
  end.

Definition keys {A : Type} (items : list (string * A)) : list string :=
  map fst items.

(** Truth value, as [if v:] and [not v] take it. *)
Definition truthy (v : pyval) : bool :=
  match v with
  | PNone => false
  | PBool b => b
  | PInt z => negb (z =? 0)
  | PFloat f => negb (PyFloat.is_zero f)
  | PStr s => negb (String.eqb s "")
  | PList l => match l with [] => false | _ => true end
  | PDict d => match d with [] => false | _ => true end
  end.

(** [a or b] *)
Definition or_else (a b : pyval) : pyval := if truthy a then a else b.

(** [v == s] for a string literal [s]. *)
Definition eq_str (v : pyval) (s : string) : bool :=
  match v with
  | PStr t => String.eqb t s
  | _ => false
  end.

(** [repr(v)] *)
Fixpoint repr (v : pyval) : string :=
  match v with
  | PNone => "None"
  | PBool b => if b then "True" else "False"
  | PInt z => str_of_int z
  | PFloat f => PyFloat.repr f
  | PStr s => repr_str s
  | PList l => "[" ++ join ", " (map repr l) ++ "]"
  | PDict d =>
      "{" ++ join ", "
               (map (fun kv => match kv with
                               | (k, x) => repr_str k ++ ": " ++ repr x
                               end) d)
          ++ "}"
  end.

(** [str(v)], which is also what an f-string field [{v}] inserts. *)
Definition str (v : pyval) : string :=
  match v with
  | PStr s => s
  | _ => repr v
  end.

(** ** Exceptions *)

Inductive exn_class : Type :=
| KeyError | IndexError | ValueError | TypeError | AttributeError
| OverflowError | UnicodeDecodeError
| Exception (* the plain [Exception] the dispatch functions raise *)
| OtherError (* anything else a transport may raise *).

(** An exception: its class and its argument. *)
Record exn : Type := Exn { exn_class_of : exn_class; exn_arg : pyval }.

(** [str(e)]: a [KeyError] shows the [repr] of the missing key. *)
Definition exn_str (e : exn) : string :=
  match exn_class_of e with
  | KeyError => repr (exn_arg e)
  | _ => str (exn_arg e)
  end.

Inductive result (A : Type) : Type :=
| Return (a : A)
| Raise (e : exn).

Arguments Return {A} a.
Arguments Raise {A} e.

Definition bind {A B : Type} (m : result A) (k : A -> result B) : result B :=
  match m with
  | Return a => k a
  | Raise e => Raise e
  end.

Definition raise {A : Type} (c : exn_class) (msg : string) : result A :=
  Raise (Exn c (PStr msg)).

(** [m] raises an exception of class [c]. *)
Definition raises {A : Type} (c : exn_class) (m : result A) : Prop :=
  exists e, m = Raise e /\ exn_class_of e = c.

Declare Scope py_scope.
Delimit Scope py_scope with py.
Notation "x <- m ;; k" := (bind m (fun x => k))
  (at level 61, m at next level, right associativity) : py_scope.
Notation "' pat <- m ;; k" := (bind m (fun x => match x with pat => k end))
  (at level 61, pat pattern, m at next level, right associativity) : py_scope.
Local Open Scope py_scope.

(** ** Operations that may raise *)

(** [v.get(k, dflt)]: only a dict has the method. *)
Definition get (v : pyval) (k : string) (dflt : pyval) : result pyval :=
  match v with
  | PDict d => Return (match lookup k d with Some x => x | None => dflt end)
  | _ => raise AttributeError
           ("'" ++ type_name v ++ "' object has no attribute 'get'")
  end.

Definition not_subscriptable (v : pyval) : string :=
  "'" ++ type_name v ++ "' object is not subscriptable".

(** [v[k]] for a string [k]. *)
Definition getitem_str (v : pyval) (k : string) : result pyval :=
  match v with
  | PDict d =>
      match lookup k d with
      | Some x => Return x
      | None => Raise (Exn KeyError (PStr k))
      end
  | PList _ => raise TypeError "list indices must be integers or slices, not str"
  | PStr _ => raise TypeError "string indices must be integers, not 'str'"
  | _ => raise TypeError (not_subscriptable v)
  end.

(** [v[i]] for an integer [i]. *)
Definition getitem_int (v : pyval) (i : Z) : result pyval :=
  match v with
  | PList l =>
      match norm_index (Z.of_nat (List.length l)) i with
      | Some n => match nth_error l n with
                  | Some x => Return x
                  | None => raise IndexError "list index out of range"
                  end
      | None => raise IndexError "list index out of range"
      end
  | PStr s =>
      match norm_index (len s) i with
      | Some n => match String.get n s with
                  | Some c => Return (PStr (String c ""))
                  | None => raise IndexError "string index out of range"
                  end
      | None => raise IndexError "string index out of range"
      end
  | PDict _ => Raise (Exn KeyError (PInt i))
  | _ => raise TypeError (not_subscriptable v)
  end.

(** [k in v] for a string [k]. *)
Definition contains (k : string) (v : pyval) : result bool :=
  match v with
  | PDict d => Return (match lookup k d with Some _ => true | None => false end)
  | PList l => Return (existsb (fun x => eq_str x k) l)
  | PStr s => Return (str_contains k s)
  | _ => raise TypeError
           ("argument of type '" ++ type_name v ++ "' is not iterable")
  end.

(** [len(v)] *)
Definition length (v : pyval) : result Z :=
  match v with
  | PList l => Return (Z.of_nat (List.length l))
  | PStr s => Return (len s)
  | PDict d => Return (Z.of_nat (List.length d))
  | _ => raise TypeError
           ("object of type '" ++ type_name v ++ "' has no len()")
  end.

(** [v[lo:hi]]; a dict rejects the slice as a key (an unhashable one up to
    Python 3.11). *)
Definition getslice (lo hi : option Z) (v : pyval) : result pyval :=
  match v with
  | PList l => Return (PList (slice lo hi l))
  | PStr s => Return (PStr (str_slice lo hi s))
  | PDict _ => raise TypeError "unhashable type: 'slice'"
  | _ => raise TypeError (not_subscriptable v)
  end.

(** The items a [for] loop over [v] visits. *)
Definition iter (v : pyval) : result (list pyval) :=
  match v with
  | PList l => Return l
  | PStr s => Return (map (fun c => PStr (String c "")) (chars s))
  | PDict d => Return (map PStr (keys d))
  | _ => raise TypeError ("'" ++ type_name v ++ "' object is not iterable")
  end.

(** [a, b = v] *)
Definition unpack2 (v : pyval) : result (pyval * pyval) :=
  match v with
  | PNone | PBool _ | PInt _ | PFloat _ =>
      raise TypeError ("cannot unpack non-iterable " ++ type_name v ++ " object")
  | _ =>
      xs <- iter v ;;
      match xs with
      | [a; b] => Return (a, b)
      | _ :: _ :: _ :: _ => raise ValueError "too many values to unpack (expected 2)"
      | _ => raise ValueError
               ("not enough values to unpack (expected 2, got "
                ++ str_of_int (Z.of_nat (List.length xs)) ++ ")")
      end
  end.

(** [isinstance(v, (int, float))]; [bool] is a subclass of [int]. *)
Definition is_number (v : pyval) : bool :=
  match v with
  | PBool _ | PInt _ | PFloat _ => true
  | _ => false
  end.

Definition float_of_int (z : Z) (msg : string) : result float :=
  let f := PyFloat.of_int z in
  if PyFloat.is_finite f then Return f else raise OverflowError msg.

(** [f"{v:.2f}"] for a number. *)
Definition format_2f (v : pyval) : result string :=
  match v with
  | PFloat f => Return (PyFloat.fixed2 f)
  | PInt z =>
      f <- float_of_int z "int too large to convert to float" ;;
      Return (PyFloat.fixed2 f)
  | PBool b => Return (if b then "1.00" else "0.00")
  | _ => raise TypeError
           ("unsupported format string passed to " ++ type_name v ++ ".__format__")
  end.

(** [v / 1000].  The quotient of two ints is the float nearest to the exact
    quotient; for an int below 2^53 that is the float division computed
    here. *)
Definition div_1000 (v : pyval) : result float :=
  let int_case (z : Z) :=
    f <- float_of_int z "integer division result too large for a float" ;;
    Return (PrimFloat.div f (PyFloat.of_int 1000)) in
  match v with
  | PFloat f => Return (PrimFloat.div f (PyFloat.of_int 1000))
  | PInt z => int_case z
  | PBool b => int_case (if b then 1 else 0)
  | _ => raise TypeError
           ("unsupported operand type(s) for /: '" ++ type_name v ++ "' and 'int'")
  end.

(** ** [json.dumps] *)

Definition json_char (c : ascii) : string :=
  let n := code c in
  if n =? 34 then String backslash (String dquote "")
  else if n =? 92 then String backslash (String backslash "")
  else if n =? 10 then String backslash "n"
  else if n =? 13 then String backslash "r"
  else if n =? 9 then String backslash "t"
  else if n =? 8 then String backslash "b"
  else if n =? 12 then String backslash "f"
  else if (32 <=? n) && (n <=? 126) then String c ""
  else String backslash ("u00" ++ hex2 n).

Definition json_str (s : string) : string :=
  String dquote (String.concat "" (map json_char (chars s)) ++ String dquote "").

Definition json_float (f : float) : string :=
  match Prim2SF f with
  | S754_nan => "NaN"
  | S754_infinity s => if s then "-Infinity" else "Infinity"
  | _ => PyFloat.repr f
  end.

Definition spaces (n : nat) : string := str_of (repeat " "%char n).

(** [json.dumps(v, indent=2)], at nesting depth [depth]. *)
Fixpoint dumps_indent (depth : nat) (v : pyval) : string :=
  let inner := nl ++ spaces (2 * S depth) in
  let outer := nl ++ spaces (2 * depth) in
  match v with
  | PNone => "null"
  | PBool b => if b then "true" else "false"
  | PInt z => str_of_int z
  | PFloat f => json_float f
  | PStr s => json_str s
  | PList [] => "[]"
  | PList l =>
      "[" ++ inner ++ join ("," ++ inner) (map (dumps_indent (S depth)) l)
          ++ outer ++ "]"
  | PDict [] => "{}"
  | PDict d =>
      "{" ++ inner
          ++ join ("," ++ inner)
               (map (fun kv => match kv with
                               | (k, x) => json_str k ++ ": " ++ dumps_indent (S depth) x
                               end) d)
          ++ outer ++ "}"
  end.

(** [json.dumps(v)] *)
Fixpoint dumps (v : pyval) : string :=
  match v with
  | PNone => "null"
  | PBool b => if b then "true" else "false"
  | PInt z => str_of_int z
  | PFloat f => json_float f
  | PStr s => json_str s
  | PList l => "[" ++ join ", " (map dumps l) ++ "]"
  | PDict d =>
      "{" ++ join ", "
               (map (fun kv => match kv with
                               | (k, x) => json_str k ++ ": " ++ dumps x
                               end) d)
          ++ "}"
  end.

(** [s[i]] for a string [s]. *)
Definition str_getitem (s : string) (i : Z) : result string :=
  match norm_index (len s) i with
  | Some n => match String.get n s with
              | Some c => Return (String c "")
              | None => raise IndexError "string index out of range"
              end
  | None => raise IndexError "string index out of range"
  end.

(** [try: m except (KeyError, IndexError) as e: handler(e)] *)
Definition except_key_index {A : Type} (m : result A) (handler : exn -> result A)
  : result A :=
  match m with
  | Raise e =>
      match exn_class_of e with
      | KeyError | IndexError => handler e
      | _ => Raise e
      end
  | _ => m
  end.

(** A [for] loop whose body extends an accumulator and may raise. *)
Fixpoint for_each {A S : Type} (xs : list A) (body : S -> A -> result S) (acc : S)
  : result S :=
  match xs with
  | [] => Return acc
  | x :: rest => acc' <- body acc x ;; for_each rest body acc'
  end.

End PyVal.

Module PyInt.
Import Py PyVal.
Local Open Scope py_scope.

(** ** [int(s)] for a string, base 10

    Surrounding whitespace is dropped, one sign is allowed, and the digits
    may be grouped by single underscores.  [max_digits] is the interpreter's
    limit on the digit count ([sys.get_int_max_str_digits()], 4300 by
    default, 0 for none); leading zeros count, underscores do not. *)

Definition digit_val (c : ascii) : Z := code c - 48.

(** [need] is set at the start and after an underscore: a digit must
    follow.  The result is the value and the number of digits read. *)
Fixpoint scan_digits (need : bool) (acc : Z) (n : nat) (cs : list ascii)
  : option (Z * nat) :=
  match cs with
  | [] => if need then None else Some (acc, n)
  | c :: cs' =>
      if isdecimal c then scan_digits false (10 * acc + digit_val c) (S n) cs'
      else if Ascii.eqb c "_" && negb need then scan_digits true acc n cs'
      else None
  end.

Definition invalid_literal (s : string) : string :=
  "invalid literal for int() with base 10: " ++ repr_str s.

Definition exceeds_limit (max_digits n : nat) : string :=
  "Exceeds the limit (" ++ str_of_int (Z.of_nat max_digits)
  ++ " digits) for integer string conversion: value has "
  ++ str_of_int (Z.of_nat n)
  ++ " digits; use sys.set_int_max_str_digits() to increase the limit".

Definition int_of_str (max_digits : nat) (s : string) : result Z :=
  let t := strip s in
  let '(neg, body) :=
    match t with
    | String c r => if Ascii.eqb c "-" then (true, r)
                    else if Ascii.eqb c "+" then (false, r)
                    else (false, t)
    | EmptyString => (false, t)
    end in
  match scan_digits true 0 0 (chars body) with
  | None => raise ValueError (invalid_literal s)
  | Some (v, n) =>
      if negb (Nat.eqb max_digits 0) && Nat.ltb max_digits n
      then raise ValueError (exceeds_limit max_digits n)
      else Return (if neg then - v else v)
  end.

(** [int(v)] for any value. *)
Definition int_of (max_digits : nat) (v : pyval) : result Z :=
  match v with
  | PInt z => Return z
  | PBool b => Return (if b then 1 else 0)
  | PFloat f =>
      match PyFloat.trunc f with
      | Some z => Return z
      | None =>
          match Prim2SF f with
          | S754_nan => raise ValueError "cannot convert float NaN to integer"
          | _ => raise OverflowError "cannot convert float infinity to integer"
          end
      end
  | PStr s => int_of_str max_digits s
  | _ => raise TypeError
           ("int() argument must be a string, a bytes-like object or a real number, not '"
            ++ type_name v ++ "'")
  end.

End PyInt.


Module PyTime.
Import Py PyVal.
Local Open Scope py_scope.

(** ** [datetime.fromtimestamp(t).strftime(fmt)]

    The machine's time zone is the function [utcoffset], which gives the
    offset of local time from UTC, in seconds, at an instant.  Local years
    outside 1..9999 are out of [datetime]'s range; an instant beyond a 64-bit
    [time_t] overflows.  (Where exactly the C library gives up, and with which
    of the two exceptions, depends on the platform; the formatters catch
    neither.) *)

Record datetime : Type := Datetime {
  year : Z; month : Z; day : Z; hour : Z; minute : Z; second : Z
}.

(** Proleptic Gregorian date of a day count from 1970-01-01. *)
Definition civil_from_days (days : Z) : Z * Z * Z :=
  let z := days + 719468 in
  let era := z / 146097 in
  let doe := z - era * 146097 in
  let yoe := (doe - doe / 1460 + doe / 36524 - doe / 146096) / 365 in
  let doy := doe - (365 * yoe + yoe / 4 - yoe / 100) in
  let mp := (5 * doy + 2) / 153 in
  let d := doy - (153 * mp + 2) / 5 + 1 in
  let m := if mp <? 10 then mp + 3 else mp - 9 in
  let y := yoe + era * 400 + (if m <=? 2 then 1 else 0) in
  (y, m, d).

Section Zone.

Variable utcoffset : Z -> Z.

Definition fromtimestamp_seconds (t : Z) : result datetime :=
  if (t <? - 2 ^ 63) || (2 ^ 63 <=? t)
  then raise OverflowError "timestamp out of range for platform time_t"
  else
    let l := t + utcoffset t in
    let '(y, m, d) := civil_from_days (l / 86400) in
    let r := l mod 86400 in
    if (y <? 1) || (9999 <? y)
    then raise ValueError ("year " ++ str_of_int y ++ " is out of range")
    else Return (Datetime y m d (r / 3600) (r mod 3600 / 60) (r mod 60)).

(** A float is split into whole seconds and microseconds, the latter
    rounded half to even, before the date is computed. *)
Definition float_seconds (x : float) : result Z :=
  match Prim2SF x with
  | S754_nan => raise ValueError "Invalid value NaN (not a number)"
  | S754_infinity _ =>
      raise OverflowError "timestamp out of range for platform time_t"
  | _ =>
      match PyFloat.trunc x with
      | None => raise OverflowError "timestamp out of range for platform time_t"
      | Some intpart =>
          let frac := PrimFloat.sub x (PyFloat.of_int intpart) in
          let us := match PyFloat.rint (PrimFloat.mul frac (PyFloat.of_int 1000000)) with
                    | Some u => u
                    | None => 0
                    end in
          Return (if 1000000 <=? us then intpart + 1
                  else if us <? 0 then intpart - 1
                  else intpart)
      end
  end.

(** [datetime.fromtimestamp(v)] *)
Definition fromtimestamp (v : pyval) : result datetime :=
  match v with
  | PInt z => fromtimestamp_seconds z
  | PBool b => fromtimestamp_seconds (if b then 1 else 0)
  | PFloat x => t <- float_seconds x ;; fromtimestamp_seconds t
  | _ => raise TypeError
           ("'" ++ type_name v ++ "' object cannot be interpreted as an integer")
  end.

End Zone.

(** [dt.strftime("%H:%M:%S")] *)
Definition strftime_HMS (dt : datetime) : string :=
  PyFloat.pad2 (hour dt) ++ ":" ++ PyFloat.pad2 (minute dt) ++ ":"
  ++ PyFloat.pad2 (second dt).

(** [dt.strftime("%Y-%m-%d %H:%M:%S")]; the C library prints the year
    without padding. *)
Definition strftime_Ymd_HMS (dt : datetime) : string :=
  str_of_int (year dt) ++ "-" ++ PyFloat.pad2 (month dt) ++ "-"
  ++ PyFloat.pad2 (day dt) ++ " " ++ strftime_HMS dt.

End PyTime.

(* ================================================================== *)
(** * Part II. The helper *)
(* ================================================================== *)

Module Net.
Import Py PyVal.

(** ** The world outside: [urllib], [time.sleep] and the clock *)

Inductive Request : Type :=
| GET (url : string) (headers : list (string * string))
| POST (url : string) (data : string) (headers : list (string * string)).

(** The body attached to an [HTTPError]: bytes that decode as UTF-8 text,
    or bytes that do not. *)
Inductive payload : Type :=
| Utf8 (text : string)
| NotUtf8.

(** What [urlopen] does with one request. *)
Inductive Response : Type :=
| Ok2xx (loaded : result pyval)
    (* a 2xx answer; [loaded] is what [json.loads(response.read())] gives *)
| HTTPError (code : Z) (reason : string) (fp : option payload)
    (* any other status *)
| URLError (reason : string)
    (* the connection could not be made *)
| Failure (e : exn)
    (* an exception of another class *).

Record World : Type := mkWorld {
  server : nat -> Request -> Response; (* answer to the n-th call of urlopen *)
  clock : Z;                           (* seconds since the epoch *)
  sent : list Request;                 (* the calls of urlopen so far *)
  slept : list Z                       (* the calls of time.sleep so far *)
}.

Definition IO (A : Type) : Type := World -> result A * World.

Definition ret {A : Type} (a : A) : IO A := fun w => (Return a, w).

Definition throw {A : Type} (e : exn) : IO A := fun w => (Raise e, w).

Definition lift {A : Type} (r : result A) : IO A := fun w => (r, w).

Definition io_bind {A B : Type} (m : IO A) (k : A -> IO B) : IO B :=
  fun w =>
    match m w with
    | (Return a, w') => k a w'
    | (Raise e, w') => (Raise e, w')
    end.

Definition urlopen (req : Request) : IO Response :=
  fun w =>
    (Return (server w (List.length (sent w)) req),
     mkWorld (server w) (clock w) (sent w ++ [req])%list (slept w)).

(** [time.sleep(d)] *)
Definition sleep (d : Z) : IO unit :=
  fun w =>
    (Return tt, mkWorld (server w) (clock w + d) (sent w) (slept w ++ [d])%list).

(** [int(datetime.now().timestamp())] *)
Definition now : IO Z := fun w => (Return (clock w), w).

(** [body.decode('utf-8')]; the message of the error, which names the
    offending byte, is cut short. *)
Definition decode (b : payload) : result string :=
  match b with
  | Utf8 text => Return text
  | NotUtf8 => raise UnicodeDecodeError "'utf-8' codec can't decode bytes"
  end.

Notation "x <~ m ;; k" := (io_bind m (fun x => k))
  (at level 61, m at next level, right associativity) : py_scope.

End Net.

Module GrafanaQueryHelper.
Import Py PyVal PyInt PyTime Net.
Local Open Scope py_scope.

(** The state [__init__] leaves in [self]: the three entries it reads from
    the config file; [datasources] is the dict from names to entries. *)
Record helper : Type := Helper {
  grafana_url : string;
  api_token : string;
  datasources : list (string * pyval)
}.

(** [self.datasources[datasource_name]] *)
Definition datasources_getitem (self : helper) (datasource_name : string)
  : result pyval :=
  match lookup datasource_name (datasources self) with
  | Some entry => Return entry
  | None => Raise (Exn KeyError (PStr datasource_name))
  end.

Definition get_datasource_uid (self : helper) (datasource_name : string)
  : result pyval :=
  match lookup datasource_name (datasources self) with
  | None =>
      let available := join ", " (keys (datasources self)) in
      raise KeyError
        ("Datasource '" ++ datasource_name ++ "' not found." ++ nl
         ++ "Available datasources: " ++ available)
  | Some entry => getitem_str entry "uid"
  end.

(** [list(self.datasources.keys())] *)
Definition list_datasources (self : helper) : list string :=
  keys (datasources self).

Definition _parse_time_range (time_range : string) : result (string * string) :=
  (* If already in Grafana format (starts with "now") *)
  if startswith "now" time_range then
    Return ("now-" ++ str_slice (Some 3) None time_range, "now")
  else
    (* Parse simple duration format (e.g., "1h", "24h", "7d") *)
    let units := [("s", "seconds"); ("m", "minutes"); ("h", "hours");
                  ("d", "days"); ("w", "weeks")] in
    let time_range := strip time_range in
    last <- str_getitem time_range (-1) ;;
    match lookup last units with
    | Some _ => Return ("now-" ++ time_range, "now")
    | None =>
        (* Default to 1 hour *)
        Return ("now-1h", "now")
    end.

Definition duration_units : list (string * Z) :=
  [("s", 1); ("m", 60); ("h", 3600); ("d", 86400); ("w", 604800)].

Section Interpreter.

(** [sys.get_int_max_str_digits()] *)
Variable int_max_str_digits : nat.

Definition _parse_duration_to_seconds (duration : string) : result Z :=
  let units := duration_units in
  let duration := strip duration in
  last <- str_getitem duration (-1) ;;
  match lookup last units with
  | Some seconds =>
      value <- int_of_str int_max_str_digits (str_slice None (Some (-1)) duration) ;;
      Return (value * seconds)
  | None =>
      (* Default to seconds if no unit *)
      int_of_str int_max_str_digits duration
  end.

(** [int(datetime.fromisoformat(s).timestamp())] and
    [int(datetime.strptime(s, "%Y-%m-%d %H:%M:%S").timestamp())], with
    [None] where the library raises [ValueError]. *)
Variable fromisoformat_timestamp : string -> option Z.
Variable strptime_timestamp : string -> option Z.

Definition _parse_absolute_time (time_str : string) : result Z :=
  (* Check if already a Unix timestamp *)
  if isdigit time_str then int_of_str int_max_str_digits time_str
  else
    let parsed :=
      if has_char "T" time_str || has_char "+" time_str || has_char "Z" time_str
      then fromisoformat_timestamp (replace_Z time_str)
      else strptime_timestamp time_str in
    match parsed with
    | Some ts => Return ts
    | None =>
        raise ValueError
          ("Cannot parse time string: " ++ time_str ++ nl
           ++ "Supported formats: Unix timestamp, 'YYYY-MM-DD HH:MM:SS', or ISO format")
    end.

(** ** The retry loop

    The three dispatch functions end in the same [for attempt in
    range(max_retries)] loop around [urlopen]; they differ in the request
    only.  [attempts] is what is left of [range(max_retries)]; running out
    of it is falling off the end of the function, which returns [None]. *)

Definition http_error_message (code : Z) (reason error_body : string) : string :=
  "Query failed: HTTP " ++ str_of_int code ++ " - " ++ reason ++ nl
  ++ "Response: " ++ error_body.

Definition connection_error_message (reason : string) : string :=
  "Connection failed: " ++ reason.

Fixpoint attempt_loop (req : Request) (max_retries : Z) (attempts : list Z)
  : IO pyval :=
  match attempts with
  | [] => ret PNone
  | attempt :: rest =>
      response <~ urlopen req ;;
      match response with
      | Ok2xx loaded => lift loaded
      | HTTPError code reason fp =>
          if attempt =? max_retries - 1 then
            error_body <~ lift (match fp with
                                | Some b => decode b
                                | None => Return ""
                                end) ;;
            throw (Exn Exception (PStr (http_error_message code reason error_body)))
          else
            _ <~ sleep (1 * (attempt + 1)) ;;
            attempt_loop req max_retries rest
      | URLError reason =>
          if attempt =? max_retries - 1 then
            throw (Exn Exception (PStr (connection_error_message reason)))
          else
            _ <~ sleep (1 * (attempt + 1)) ;;
            attempt_loop req max_retries rest
      | Failure e => throw e
      end
  end.

Definition direct_request (self : helper) (datasource_id : pyval) (query : string)
  (start_timestamp end_timestamp step : Z) : Request :=
  let params := ["query=" ++ quote query;
                 "start=" ++ str_of_int start_timestamp;
                 "end=" ++ str_of_int end_timestamp;
                 "step=" ++ str_of_int step] in
  let url := grafana_url self ++ "/api/datasources/proxy/" ++ str datasource_id
             ++ "/api/v1/query_range?" ++ join "&" params in
  GET url [("Authorization", "Bearer " ++ api_token self);
           ("Accept", "application/json")].

Definition query_prometheus_direct (self : helper) (datasource_name query : string)
  (start_timestamp end_timestamp step max_retries : Z) : IO pyval :=
  entry <~ lift (datasources_getitem self datasource_name) ;;
  datasource_id <~ lift (get entry "id" PNone) ;;
  attempt_loop
    (direct_request self datasource_id query start_timestamp end_timestamp step)
    max_retries (range max_retries).

(** The body of the POST to [/api/ds/query]; [from_] and [to] are already
    strings. *)
Definition gateway_request (self : helper) (datasource_uid datasource_id : pyval)
  (query interval legend_format from_ to : string) : Request :=
  let datasource_obj :=
    ([("uid", datasource_uid); ("type", PStr "prometheus")]
     ++ match datasource_id with
        | PNone => []
        | _ => [("id", datasource_id)]
        end)%list in
  let payload :=
    PDict [("queries",
            PList [PDict [("refId", PStr "A");
                          ("datasource", PDict datasource_obj);
                          ("datasourceId", datasource_id);
                          ("expr", PStr query);
                          ("interval", PStr interval);
                          ("legendFormat", PStr legend_format);
                          ("range", PBool true)]]);
           ("from", PStr from_);
           ("to", PStr to)] in
  POST (grafana_url self ++ "/api/ds/query") (dumps payload)
       [("Authorization", "Bearer " ++ api_token self);
        ("Content-Type", "application/json")].

Definition query_prometheus_absolute (self : helper) (datasource_name query : string)
  (from_timestamp to_timestamp : Z) (interval legend_format : string)
  (max_retries : Z) : IO pyval :=
  datasource_uid <~ lift (get_datasource_uid self datasource_name) ;;
  entry <~ lift (datasources_getitem self datasource_name) ;;
  datasource_id <~ lift (get entry "id" PNone) ;;
  attempt_loop
    (gateway_request self datasource_uid datasource_id query interval legend_format
       (str_of_int from_timestamp) (str_of_int to_timestamp))
    max_retries (range max_retries).

Definition query_prometheus (self : helper) (datasource_name query time_range : string)
  (interval legend_format : string) (max_retries : Z) : IO pyval :=
  datasource_uid <~ lift (get_datasource_uid self datasource_name) ;;
  entry <~ lift (datasources_getitem self datasource_name) ;;
  datasource_id <~ lift (get entry "id" PNone) ;;
  range_ <~ lift (_parse_time_range time_range) ;;
  let '(from_time, to_time) := range_ in
  attempt_loop
    (gateway_request self datasource_uid datasource_id query interval legend_format
       from_time to_time)
    max_retries (range max_retries).

(** An optional string argument is used when it is given and not empty. *)
Definition given (s : option string) : option string :=
  match s with
  | Some t => if String.eqb t "" then None else Some t
  | None => None
  end.

Definition query (self : helper) (datasource_name query : string)
  (time_range : string) (start_time end_time : option string)
  (step max_retries : Z) : IO pyval :=
  match given start_time, given end_time with
  | Some start_time, Some end_time =>
      (* If absolute time specified, use direct API *)
      start_ts <~ lift (_parse_absolute_time start_time) ;;
      end_ts <~ lift (_parse_absolute_time end_time) ;;
      query_prometheus_direct self datasource_name query start_ts end_ts step
        max_retries
  | _, _ =>
      now_ <~ now ;;
      (* Parse relative time range *)
      duration_seconds <~ lift (_parse_duration_to_seconds time_range) ;;
      let start_ts := now_ - duration_seconds in
      let end_ts := now_ in
      query_prometheus_direct self datasource_name query start_ts end_ts step
        max_retries
  end.

End Interpreter.

(** ** Formatting *)

(** [lines.append(x)] *)
Definition append (lines : list string) (x : string) : list string :=
  (lines ++ [x])%list.

Section Formatting.

Variable int_max_str_digits : nat.
Variable utcoffset : Z -> Z.

Definition more_series_line (n : Z) : string :=
  "... and " ++ str_of_int n ++ " more series".

Definition more_series_row (n : Z) : string :=
  "| ... | (" ++ str_of_int n ++ " more series) | ... |".

Definition row (time_str name value : string) : string :=
  "| " ++ time_str ++ " | " ++ name ++ " | " ++ value ++ " |".

(** [f"{v:.2f}" if isinstance(v, (int, float)) else str(v)] *)
Definition format_value (v : pyval) : result string :=
  if is_number v then format_2f v else Return (str v).

(** [datetime.fromtimestamp(v / 1000).strftime("%Y-%m-%d %H:%M:%S")] *)
Definition format_millis (v : pyval) : result string :=
  q <- div_1000 v ;;
  dt <- fromtimestamp utcoffset (PFloat q) ;;
  Return (strftime_Ymd_HMS dt).

(** One turn of the loop of the simple format over a native series. *)
Definition native_simple_step (lines : list string) (series : pyval)
  : result (list string) :=
  metric <- get series "metric" (PDict []) ;;
  values <- get series "values" (PList []) ;;
  (* Get instance or first useful label *)
  by_instance <- get metric "instance" PNone ;;
  instance <- (if truthy by_instance then Return by_instance
               else by_job <- get metric "job" PNone ;;
                    Return (or_else by_job (PStr "Series"))) ;;
  if truthy values then
    (* Show latest value *)
    last <- getitem_int values (-1) ;;
    '(_, latest_val) <- unpack2 last ;;
    Return (append lines (str instance ++ ": " ++ str latest_val))
  else Return lines.

(** [datetime.fromtimestamp(int(ts)).strftime("%H:%M:%S")] *)
Definition format_seconds (ts : pyval) : result string :=
  t <- int_of int_max_str_digits ts ;;
  dt <- fromtimestamp_seconds utcoffset t ;;
  Return (strftime_HMS dt).

(** The body of [for ts, val in values[-max_points:]]. *)
Definition native_table_point (metric_name : string) (lines : list string)
  (point : pyval) : result (list string) :=
  '(ts, val) <- unpack2 point ;;
  time_str <- format_seconds ts ;;
  Return (append lines (row time_str (str_slice None (Some 30) metric_name)
                            (str val))).

(** [f"{job}/{instance}" if job and instance else str(metric)] *)
Definition native_metric_name (metric instance job : pyval) : string :=
  if truthy job && truthy instance then str job ++ "/" ++ str instance
  else str metric.

(** One turn of the loop of the table format over a native series. *)
Definition native_table_step (max_points : Z) (lines : list string) (series : pyval)
  : result (list string) :=
  metric <- get series "metric" (PDict []) ;;
  values <- get series "values" (PList []) ;;
  (* Format metric name *)
  instance <- get metric "instance" (PStr "") ;;
  job <- get metric "job" (PStr "") ;;
  let metric_name := native_metric_name metric instance job in
  (* Show last N points *)
  tail <- getslice (Some (- max_points)) None values ;;
  points <- iter tail ;;
  for_each points (native_table_point metric_name) lines.

Definition frame_name_and_values (frame : pyval) : result (pyval * pyval) :=
  schema <- get frame "schema" (PDict []) ;;
  name <- get schema "name" (PStr "Series") ;;
  data <- get frame "data" (PDict []) ;;
  values <- get data "values" (PList []) ;;
  Return (name, values).

Definition frames_simple_step (lines : list string) (frame : pyval)
  : result (list string) :=
  '(name, values) <- frame_name_and_values frame ;;
  n <- length values ;;
  if 2 <=? n then
    vals <- getitem_int values 1 ;;
    if truthy vals then
      latest <- getitem_int vals (-1) ;;
      Return (append lines (str name ++ ": " ++ str latest))
    else Return lines
  else Return lines.

(** The body of [for i in range(max(0, len(times) - 10), len(times))]. *)
Definition frames_table_index (name times vals : pyval) (lines : list string)
  (i : Z) : result (list string) :=
  t <- getitem_int times i ;;
  timestamp <- format_millis t ;;
  v <- getitem_int vals i ;;
  value <- format_value v ;;
  Return (append lines (row timestamp (str name) value)).

Definition frames_table_step (lines : list string) (frame : pyval)
  : result (list string) :=
  '(name, values) <- frame_name_and_values frame ;;
  n <- length values ;;
  if 2 <=? n then
    times <- getitem_int values 0 ;;
    vals <- getitem_int values 1 ;;
    len_times <- length times ;;
    for_each (range2 (Z.max 0 (len_times - 10)) len_times)
      (frames_table_index name times vals) lines
  else Return lines.

Definition series_simple_step (lines : list string) (series : pyval)
  : result (list string) :=
  name <- get series "name" (PStr "Series") ;;
  points <- get series "points" (PList []) ;;
  if truthy points then
    (* Points are [value, timestamp] pairs *)
    latest_point <- getitem_int points (-1) ;;
    latest_value <- (if truthy latest_point then getitem_int latest_point 0
                     else Return (PStr "N/A")) ;;
    Return (append lines (str name ++ ": " ++ str latest_value))
  else Return lines.

(** The body of [for point in points[-5:]]. *)
Definition series_table_point (name : pyval) (lines : list string) (point : pyval)
  : result (list string) :=
  n <- length point ;;
  if 2 <=? n then
    value <- getitem_int point 0 ;;
    timestamp <- getitem_int point 1 ;;
    time_str <- format_millis timestamp ;;
    value_str <- format_value value ;;
    short <- getslice None (Some 40) name ;;
    Return (append lines (row time_str (str short ++ "...") value_str))
  else Return lines.

Definition series_table_step (lines : list string) (series : pyval)
  : result (list string) :=
  name <- get series "name" (PStr "Series") ;;
  points <- get series "points" (PList []) ;;
  (* Show last 5 points of each series *)
  tail <- getslice (Some (-5)) None points ;;
  last_points <- iter tail ;;
  for_each last_points (series_table_point name) lines.

Definition series_header : list string :=
  ["| Time | Series | Value |"; "|------|--------|-------|"].

Definition format_series_data (result : pyval) (format_type : string)
  : PyVal.result string :=
  if negb (truthy result) then Return "No data"
  else
    has_results <- contains "results" result ;;
    if negb has_results then Return "No data"
    else if String.eqb format_type "json" then Return (dumps_indent 0 result)
    else
      (* Extract series data - support both frames (v8+) and series (v7.5) format *)
      except_key_index
        (results <- getitem_str result "results" ;;
         result_data <- getitem_str results "A" ;;
         (* Try frames format first (v8+) *)
         has_frames <- contains "frames" result_data ;;
         if has_frames then
           frames <- getitem_str result_data "frames" ;;
           if negb (truthy frames) then Return "No data points"
           else if String.eqb format_type "simple" then
             each <- iter frames ;;
             lines <- for_each each frames_simple_step [] ;;
             Return (join nl lines)
           else
             (* Table format *)
             each <- iter frames ;;
             lines <- for_each each frames_table_step series_header ;;
             Return (join nl lines)
         else
           (* Try series format (v7.5) *)
           has_series <- contains "series" result_data ;;
           if has_series then
             series_list <- getitem_str result_data "series" ;;
             if negb (truthy series_list) then Return "No data points"
             else if String.eqb format_type "simple" then
               first <- getslice None (Some 20) series_list ;; (* Limit to first 20 series *)
               each <- iter first ;;
               lines <- for_each each series_simple_step [] ;;
               n <- length series_list ;;
               Return (join nl (if 20 <? n then append lines (more_series_line (n - 20))
                                else lines))
             else
               (* Table format *)
               first <- getslice None (Some 10) series_list ;; (* Limit to first 10 series *)
               each <- iter first ;;
               lines <- for_each each series_table_step series_header ;;
               n <- length series_list ;;
               Return (join nl (if 10 <? n then append lines (more_series_row (n - 10))
                                else lines))
           else Return "Unknown response format")
        (fun e =>
           Return ("Error formatting data: " ++ exn_str e ++ nl
                   ++ dumps_indent 0 result)).

Definition native_header : list string :=
  ["| Time | Metric | Value |"; "|------|--------|-------|"].

Definition format_prometheus_result (result : pyval) (format_type : string)
  (max_series max_points : Z) : PyVal.result string :=
  if negb (truthy result) then Return "No data"
  else
    (* Check for Prometheus native format *)
    status <- get result "status" PNone ;;
    if eq_str status "success" then
      data <- get result "data" (PDict []) ;;
      results <- get data "result" (PList []) ;;
      if negb (truthy results) then Return "No data points"
      else if String.eqb format_type "json" then Return (dumps_indent 0 result)
      else if String.eqb format_type "simple" then
        first <- getslice None (Some max_series) results ;;
        each <- iter first ;;
        lines <- for_each each native_simple_step [] ;;
        n <- length results ;;
        Return (join nl (if max_series <? n
                         then append lines (more_series_line (n - max_series))
                         else lines))
      else
        (* Table format *)
        first <- getslice None (Some max_series) results ;;
        each <- iter first ;;
        lines <- for_each each (native_table_step max_points) native_header ;;
        n <- length results ;;
        Return (join nl (if max_series <? n
                         then append lines (more_series_row (n - max_series))
                         else lines))
    else
      (* Fall back to Grafana format *)
      format_series_data result format_type.

End Formatting.

(** The defaults of the keyword arguments. *)
Definition default_time_range : string := "1h".
Definition default_step : Z := 15.
Definition default_max_retries : Z := 3.
Definition default_format_type : string := "table".
Definition default_max_series : Z := 20.
Definition default_max_points : Z := 10.

End GrafanaQueryHelper.

(** ** The command line: [main]

    [main] prints to the two streams and may leave through [sys.exit]; it
    builds its helper from the config file, which is outside this model, so
    what the constructor gives is an argument here. *)

Module Cli.
Import Py PyVal PyInt PyTime Net GrafanaQueryHelper.
Local Open Scope py_scope.

(** How the process ends: [main] returns, [sys.exit(code)] is called, or an
    exception leaves [main]. *)
Inductive exit_status : Type :=
| Returned
| Exited (code : Z)
| Uncaught (e : exn).

(** What a run leaves behind: the arguments of the calls of [print], one
    entry per call, on each stream. *)
Record process : Type := Process {
  stdout : list string;
  stderr : list string;
  status : exit_status
}.

Definition quoted (s : string) : string := String dquote (s ++ String dquote "").

Definition usage : list string :=
  ["Usage: python3 query_helper.py <datasource> <query> [options]";
   nl ++ "Options:";
   "  Relative time:";
   "    python3 query_helper.py " ++ quoted "Datasource" ++ " " ++ quoted "up"
     ++ " " ++ quoted "1h";
   nl ++ "  Absolute time:";
   "    python3 query_helper.py " ++ quoted "Datasource" ++ " " ++ quoted "up"
     ++ " " ++ quoted "2026-01-28 19:00:00" ++ " " ++ quoted "2026-01-28 19:30:00";
   nl ++ "  Unix timestamps:";
   "    python3 query_helper.py " ++ quoted "Datasource" ++ " " ++ quoted "up"
     ++ " 1769598000 1769599800"].

Section Main.

Variable int_max_str_digits : nat.
Variable utcoffset : Z -> Z.
Variable fromisoformat_timestamp : string -> option Z.
Variable strptime_timestamp : string -> option Z.

(** [argv] is [sys.argv]; [construct] is what [GrafanaQueryHelper()] gives. *)
Definition main (argv : list string) (construct : result helper)
  : World -> process * World :=
  fun w =>
    match argv with
    | _ :: datasource :: query_ :: options =>
        match construct with
        | Raise e => (Process [] [] (Uncaught e), w)
        | Return helper =>
            let '(printed, asked) :=
              match options with
              | start_time :: end_time :: _ =>
                  (* Check if absolute time range provided *)
                  (["Query: " ++ query_;
                    "Datasource: " ++ datasource;
                    "Time range: " ++ start_time ++ " to " ++ end_time;
                    ""],
                   query int_max_str_digits fromisoformat_timestamp
                     strptime_timestamp helper datasource query_
                     default_time_range (Some start_time) (Some end_time)
                     default_step default_max_retries)
              | _ =>
                  (* Relative time range *)
                  let time_range :=
                    match options with t :: _ => t | [] => "1h" end in
                  (["Query: " ++ query_;
                    "Datasource: " ++ datasource;
                    "Time range: " ++ time_range;
                    ""],
                   query int_max_str_digits fromisoformat_timestamp
                     strptime_timestamp helper datasource query_
                     time_range None None default_step default_max_retries)
              end in
            match asked w with
            | (Return result, w') =>
                (* Format and display result *)
                match format_prometheus_result int_max_str_digits utcoffset result
                        "table" default_max_series default_max_points with
                | Return text => (Process (printed ++ [text]) [] Returned, w')
                | Raise e =>
                    (Process printed ["Error: " ++ exn_str e] (Exited 1), w')
                end
            | (Raise e, w') =>
                (Process printed ["Error: " ++ exn_str e] (Exited 1), w')
            end
        end
    | _ => (Process usage [] (Exited 1), w)
    end.

End Main.

End Cli.

(* ================================================================== *)
(** * Part III. Properties *)
(* ================================================================== *)

Module StringFacts.
Import Py.

(** ** Strings as lists of characters *)

Lemma chars_app (a b : string) : chars (a ++ b) = (chars a ++ chars b)%list.
Proof.
  induction a as [|c a IH]; simpl; [reflexivity|].
  unfold chars in *. simpl. now rewrite IH.
Qed.

Lemma str_of_chars (s : string) : str_of (chars s) = s.
Proof. apply string_of_list_ascii_of_string. Qed.

Lemma length_chars (s : string) : List.length (chars s) = String.length s.
Proof.
  induction s as [|c s IH]; simpl; [reflexivity|].
  unfold chars in *. simpl. now rewrite IH.
Qed.

Lemma str_length_app (a b : string) :
  String.length (a ++ b) = (String.length a + String.length b)%nat.
Proof. induction a as [|c a IH]; simpl; [reflexivity | now rewrite IH]. Qed.

Lemma str_app_assoc (a b c : string) : (a ++ b) ++ c = a ++ b ++ c.
Proof. induction a as [|x a IH]; simpl; [reflexivity | now rewrite IH]. Qed.

Lemma nonempty_snoc (s : string) :
  s <> "" -> exists p c, s = p ++ String c "".
Proof.
  induction s as [|a s IH]; intros H; [congruence|].
  destruct s as [|b s].
  - exists "", a. reflexivity.
  - destruct IH as (p & c & E); [discriminate|].
    exists (String a p), c. simpl. now rewrite E.
Qed.

Lemma snoc_nonempty (p : string) (c : ascii) : p ++ String c "" <> "".
Proof. destruct p; discriminate. Qed.

Lemma get_snoc (p : string) (c : ascii) :
  String.get (String.length p) (p ++ String c "") = Some c.
Proof. induction p as [|a p IH]; simpl; [reflexivity | exact IH]. Qed.

(** ** Whitespace *)

Lemma lstrip_nonspace (c : ascii) (s : string) :
  isspace c = false -> lstrip (String c s) = String c s.
Proof. intros H. simpl. now rewrite H. Qed.

Lemma rstrip_snoc (p : string) (c : ascii) :
  isspace c = false -> rstrip (p ++ String c "") = p ++ String c "".
Proof.
  intros H. induction p as [|a p IH]; simpl.
  - now rewrite H.
  - rewrite IH. destruct (p ++ String c "") eqn:E; [|reflexivity].
    now apply snoc_nonempty in E.
Qed.

Lemma strip_all_nonspace (s : string) :
  forallb (fun c => negb (isspace c)) (chars s) = true -> strip s = s.
Proof.
  intros H. unfold strip.
  assert (L : lstrip s = s).
  { destruct s as [|c s]; [reflexivity|].
    apply lstrip_nonspace. unfold chars in H. simpl in H.
    apply andb_true_iff in H. destruct H as [H _].
    now apply negb_true_iff in H. }
  rewrite L. clear L.
  induction s as [|c s IH]; [reflexivity|].
  unfold chars in H. simpl in H. apply andb_true_iff in H. destruct H as [Hc Hs].
  simpl. rewrite (IH Hs). apply negb_true_iff in Hc. rewrite Hc.
  destruct s; reflexivity.
Qed.

(** ** The last character and what precedes it *)

Lemma len_snoc (p : string) (c : ascii) :
  len (p ++ String c "") = len p + 1.
Proof. unfold len. rewrite str_length_app. simpl. lia. Qed.

Lemma len_nonneg (s : string) : 0 <= len s.
Proof. unfold len. lia. Qed.

Lemma norm_index_last (n : Z) : 0 < n -> norm_index n (-1) = Some (Z.to_nat (n - 1)).
Proof.
  intros H. unfold norm_index.
  change (-1 <? 0) with true. cbv iota.
  replace (0 <=? -1 + n) with true by (symmetry; apply Z.leb_le; lia).
  replace (-1 + n <? n) with true by (symmetry; apply Z.ltb_lt; lia).
  cbn [andb]. do 2 f_equal. lia.
Qed.

Lemma slice_butlast {A : Type} (l : list A) (x : A) :
  slice None (Some (-1)) (l ++ [x])%list = l.
Proof.
  unfold slice, clamp. rewrite List.length_app.
  change (-1 <? 0) with true. cbv iota. cbn [List.length].
  set (n := Z.of_nat (List.length l + 1)).
  assert (Hn : n = Z.of_nat (List.length l) + 1) by (unfold n; lia).
  replace (Z.max 0 (Z.min n (-1 + n))) with (Z.of_nat (List.length l)) by lia.
  rewrite Z.sub_0_r, Nat2Z.id. cbn [Z.to_nat skipn].
  rewrite firstn_app, firstn_all, Nat.sub_diag. cbn [firstn]. apply app_nil_r.
Qed.

Lemma str_slice_butlast (p : string) (c : ascii) :
  str_slice None (Some (-1)) (p ++ String c "") = p.
Proof.
  unfold str_slice. rewrite chars_app.
  change (chars (String c "")) with [c].
  rewrite slice_butlast. apply str_of_chars.
Qed.

Lemma slice_from {A : Type} (n : nat) (l : list A) :
  slice (Some (Z.of_nat n)) None l = skipn n l.
Proof.
  unfold slice, clamp.
  replace (Z.of_nat n <? 0) with false by (symmetry; apply Z.ltb_ge; lia).
  set (k := Z.of_nat (List.length l)).
  destruct (Nat.le_gt_cases n (List.length l)) as [H|H].
  - replace (Z.max 0 (Z.min k (Z.of_nat n))) with (Z.of_nat n) by lia.
    rewrite Nat2Z.id.
    replace (Z.to_nat (k - Z.of_nat n)) with (List.length (skipn n l))
      by (rewrite length_skipn; lia).
    apply firstn_all.
  - replace (Z.max 0 (Z.min k (Z.of_nat n))) with k by lia.
    unfold k. rewrite Nat2Z.id, Z.sub_diag. cbn [Z.to_nat firstn].
    symmetry. apply skipn_all2. lia.
Qed.

End StringFacts.

Module IntFacts.
Import Py PyVal PyInt StringFacts.

(** ** [int()] on digit strings *)

(** The number a digit string denotes, most significant digit first. *)
Definition decimal_value (ds : string) : Z :=
  fold_left (fun acc c => 10 * acc + (code c - 48)) (chars ds) 0.

(** A non-empty string of decimal digits. *)
Definition is_digits (ds : string) : bool :=
  negb (String.eqb ds "") && forallb isdecimal (chars ds).

(** The digit count is within the interpreter's limit. *)
Definition within_limit (max_digits : nat) (ds : string) : Prop :=
  max_digits = 0%nat \/ (String.length ds <= max_digits)%nat.

(** A character [int()] has no use for. *)
Definition foreign (c : ascii) : bool :=
  negb (isdecimal c || isspace c || Ascii.eqb c "+" || Ascii.eqb c "-"
        || Ascii.eqb c "_").

Lemma decimal_not_space (c : ascii) : isdecimal c = true -> isspace c = false.
Proof.
  unfold isdecimal, isspace. intros H.
  apply andb_true_iff in H. destruct H as [H1 H2].
  apply Z.leb_le in H1. apply Z.leb_le in H2.
  repeat match goal with
         | |- context [?a <=? ?b] => replace (a <=? b) with false
             by (symmetry; apply Z.leb_gt; lia)
         | |- context [?a =? ?b] => replace (a =? b) with false
             by (symmetry; apply Z.eqb_neq; lia)
         | |- context [?a <=? ?b] => replace (a <=? b) with true
             by (symmetry; apply Z.leb_le; lia)
         end; reflexivity.
Qed.

Lemma decimal_not_char (c d : ascii) :
  isdecimal c = true -> isdecimal d = false -> Ascii.eqb c d = false.
Proof.
  intros Hc Hd. destruct (Ascii.eqb c d) eqn:E; [|reflexivity].
  apply Ascii.eqb_eq in E. congruence.
Qed.

Lemma scan_digits_all (cs : list ascii) :
  forallb isdecimal cs = true ->
  forall need acc n, (cs <> [] \/ need = false) ->
    scan_digits need acc n cs
    = Some (fold_left (fun a c => 10 * a + (code c - 48)) cs acc,
            (n + List.length cs)%nat).
Proof.
  induction cs as [|c cs IH]; intros H need acc n Hne.
  - destruct Hne as [Hne|Hne]; [congruence|]. subst. simpl.
    now rewrite Nat.add_0_r.
  - simpl in H. apply andb_true_iff in H. destruct H as [Hc Hcs].
    simpl. rewrite Hc. rewrite (IH Hcs false); [|now right].
    unfold digit_val. do 2 f_equal. lia.
Qed.

Lemma scan_digits_foreign (cs : list ascii) :
  existsb (fun c => negb (isdecimal c || Ascii.eqb c "_")) cs = true ->
  forall need acc n, scan_digits need acc n cs = None.
Proof.
  induction cs as [|c cs IH]; intros H need acc n; [discriminate|].
  simpl in H. simpl.
  destruct (isdecimal c) eqn:Hd.
  - simpl in H. auto.
  - destruct (Ascii.eqb c "_") eqn:Hu.
    + simpl in H. destruct need; simpl; auto.
    + reflexivity.
Qed.

Lemma is_digits_inv (ds : string) :
  is_digits ds = true ->
  ds <> "" /\ forallb isdecimal (chars ds) = true.
Proof.
  unfold is_digits. intros H. apply andb_true_iff in H. destruct H as [H1 H2].
  split; [|exact H2]. intros ->. discriminate.
Qed.

Lemma digits_strip (ds : string) :
  forallb isdecimal (chars ds) = true -> strip ds = ds.
Proof.
  intros H. apply strip_all_nonspace.
  apply forallb_forall. intros c Hc.
  rewrite forallb_forall in H. now rewrite (decimal_not_space c (H c Hc)).
Qed.

(** [int(ds)] for a digit string within the limit. *)
Lemma int_of_str_digits (max_digits : nat) (ds : string) :
  is_digits ds = true -> within_limit max_digits ds ->
  int_of_str max_digits ds = Return (decimal_value ds).
Proof.
  intros H L. destruct (is_digits_inv ds H) as [Hne Hall].
  unfold int_of_str. rewrite (digits_strip ds Hall).
  destruct ds as [|c r]; [congruence|].
  assert (Hc : isdecimal c = true).
  { unfold chars in Hall. simpl in Hall. now apply andb_true_iff in Hall. }
  rewrite !(decimal_not_char c) by (exact Hc || reflexivity).
  rewrite (scan_digits_all _ Hall) by (left; unfold chars; simpl; discriminate).
  rewrite length_chars. cbn [Nat.add].
  fold (decimal_value (String c r)).
  destruct L as [L|L].
  - rewrite L. reflexivity.
  - replace (Nat.ltb max_digits (String.length (String c r))) with false
      by (symmetry; apply Nat.ltb_ge; exact L).
    now rewrite andb_false_r.
Qed.

(** ** [int()] on strings with a foreign character *)

Lemma in_lstrip (c : ascii) (s : string) :
  In c (chars s) -> isspace c = false -> In c (chars (lstrip s)).
Proof.
  induction s as [|a s IH]; intros Hin Hc; [exact Hin|].
  simpl. destruct (isspace a) eqn:Ha.
  - destruct Hin as [->|Hin]; [congruence|]. now apply IH.
  - exact Hin.
Qed.

Lemma in_rstrip (c : ascii) (s : string) :
  In c (chars s) -> isspace c = false -> In c (chars (rstrip s)).
Proof.
  induction s as [|a s IH]; intros Hin Hc; [exact Hin|].
  simpl. destruct Hin as [->|Hin].
  - destruct (rstrip s); [rewrite Hc|]; now left.
  - specialize (IH Hin Hc).
    destruct (rstrip s) as [|b r]; [destruct IH|]. now right.
Qed.

Lemma in_strip (c : ascii) (s : string) :
  In c (chars s) -> isspace c = false -> In c (chars (strip s)).
Proof.
  intros H1 H2. unfold strip. apply in_rstrip; [|exact H2].
  now apply in_lstrip.
Qed.

Lemma foreign_inv (c : ascii) :
  foreign c = true ->
  isdecimal c = false /\ isspace c = false /\ Ascii.eqb c "+" = false
  /\ Ascii.eqb c "-" = false /\ Ascii.eqb c "_" = false.
Proof.
  unfold foreign. intros H. apply negb_true_iff in H.
  repeat (apply orb_false_iff in H; destruct H as [H ?]). auto.
Qed.

(** [int(s)] raises [ValueError] when [s] has a foreign character. *)
Lemma int_of_str_foreign (max_digits : nat) (s : string) :
  existsb foreign (chars s) = true ->
  int_of_str max_digits s = raise ValueError (invalid_literal s).
Proof.
  intros H. apply existsb_exists in H. destruct H as (c & Hin & Hf).
  destruct (foreign_inv c Hf) as (Hd & Hs & Hp & Hm & Hu).
  pose proof (in_strip c s Hin Hs) as Hin'.
  unfold int_of_str.
  assert (E : forall body, In c (chars body) ->
              scan_digits true 0 0 (chars body) = None).
  { intros body Hb. apply scan_digits_foreign. apply existsb_exists.
    exists c. split; [exact Hb|]. now rewrite Hd, Hu. }
  destruct (strip s) as [|a r] eqn:Et; [destruct Hin'|].
  destruct (Ascii.eqb a "-") eqn:Ea.
  - apply Ascii.eqb_eq in Ea. subst a.
    destruct Hin' as [<-|Hin']; [discriminate|]. now rewrite (E r Hin').
  - destruct (Ascii.eqb a "+") eqn:Eb.
    + apply Ascii.eqb_eq in Eb. subst a.
      destruct Hin' as [<-|Hin']; [discriminate|]. now rewrite (E r Hin').
    + now rewrite (E (String a r) Hin').
Qed.

End IntFacts.

Module TimeRanges.
Import Py PyVal PyInt Net GrafanaQueryHelper StringFacts IntFacts.
Local Open Scope py_scope.

(** ** The unit letters, as the specification lists them *)

Definition unit_seconds (u : ascii) : option Z :=
  if Ascii.eqb u "s" then Some 1
  else if Ascii.eqb u "m" then Some 60
  else if Ascii.eqb u "h" then Some 3600
  else if Ascii.eqb u "d" then Some 86400
  else if Ascii.eqb u "w" then Some 604800
  else None.

Definition is_unit (u : ascii) : bool :=
  match unit_seconds u with Some _ => true | None => false end.

Lemma eqb_single (u c : ascii) :
  String.eqb (String u "") (String c "") = Ascii.eqb u c.
Proof. simpl. now destruct (Ascii.eqb u c). Qed.

Lemma lookup_duration_units (u : ascii) :
  lookup (String u "") duration_units = unit_seconds u.
Proof.
  unfold duration_units, unit_seconds. cbn [lookup].
  rewrite !eqb_single.
  repeat match goal with |- context [Ascii.eqb u ?c] => destruct (Ascii.eqb u c) end;
    reflexivity.
Qed.

Lemma unit_cases (u : ascii) (secs : Z) :
  unit_seconds u = Some secs ->
  u = "s"%char \/ u = "m"%char \/ u = "h"%char \/ u = "d"%char \/ u = "w"%char.
Proof.
  unfold unit_seconds.
  repeat match goal with
         | |- context [Ascii.eqb u ?c] =>
             let E := fresh "E" in
             destruct (Ascii.eqb u c) eqn:E;
             [apply Ascii.eqb_eq in E; intros _; tauto|]
         end.
  discriminate.
Qed.

Lemma unit_not_space (u : ascii) (secs : Z) :
  unit_seconds u = Some secs -> isspace u = false.
Proof.
  intros H. destruct (unit_cases u secs H) as [->|[->|[->|[->| ->]]]]; reflexivity.
Qed.

Lemma decimal_not_unit (c : ascii) : isdecimal c = true -> unit_seconds c = None.
Proof.
  intros H. destruct (unit_seconds c) as [secs|] eqn:E; [|reflexivity].
  destruct (unit_cases c secs E) as [->|[->|[->|[->| ->]]]]; discriminate.
Qed.

Lemma str_getitem_last (p : string) (c : ascii) :
  str_getitem (p ++ String c "") (-1) = Return (String c "").
Proof.
  unfold str_getitem. rewrite norm_index_last.
  - rewrite len_snoc. replace (len p + 1 - 1) with (len p) by lia.
    unfold len. rewrite Nat2Z.id, get_snoc. reflexivity.
  - rewrite len_snoc. pose proof (len_nonneg p). lia.
Qed.

(** A string that starts with a digit and ends with [c], not a space, is
    its own [strip]. *)
Lemma strip_digits_snoc (ds : string) (c : ascii) :
  is_digits ds = true -> isspace c = false ->
  strip (ds ++ String c "") = ds ++ String c "".
Proof.
  intros H Hc. destruct (is_digits_inv ds H) as [Hne Hall].
  unfold strip. destruct ds as [|a r]; [congruence|].
  assert (Ha : isspace a = false).
  { apply decimal_not_space. unfold chars in Hall. simpl in Hall.
    now apply andb_true_iff in Hall. }
  change (String a r ++ String c "") with (String a (r ++ String c "")).
  rewrite lstrip_nonspace by exact Ha.
  change (String a (r ++ String c "")) with (String a r ++ String c "").
  now apply rstrip_snoc.
Qed.

Section Durations.

Variable max_digits : nat.

Lemma parse_duration_digits_unit (ds : string) (u : ascii) (secs : Z) :
  is_digits ds = true -> within_limit max_digits ds ->
  unit_seconds u = Some secs ->
  _parse_duration_to_seconds max_digits (ds ++ String u "")
  = Return (decimal_value ds * secs).
Proof.
  intros Hd Hl Hu. unfold _parse_duration_to_seconds.
  rewrite (strip_digits_snoc ds u Hd (unit_not_space u secs Hu)).
  rewrite str_getitem_last. cbn [bind].
  rewrite lookup_duration_units, Hu, str_slice_butlast.
  now rewrite (int_of_str_digits max_digits ds Hd Hl).
Qed.

Lemma parse_duration_digits (ds : string) :
  is_digits ds = true -> within_limit max_digits ds ->
  _parse_duration_to_seconds max_digits ds = Return (decimal_value ds).
Proof.
  intros Hd Hl. destruct (is_digits_inv ds Hd) as [Hne Hall].
  unfold _parse_duration_to_seconds. rewrite (digits_strip ds Hall).
  destruct (nonempty_snoc ds Hne) as (p & c & E).
  assert (Hc : isdecimal c = true).
  { rewrite forallb_forall in Hall. apply Hall. rewrite E, chars_app.
    apply in_or_app. right. now left. }
  rewrite E at 1. rewrite str_getitem_last. cbn [bind].
  rewrite lookup_duration_units, (decimal_not_unit c Hc).
  now apply int_of_str_digits.
Qed.

Lemma parse_duration_blank (s : string) :
  strip s = "" ->
  _parse_duration_to_seconds max_digits s
  = raise IndexError "string index out of range".
Proof. intros H. unfold _parse_duration_to_seconds. now rewrite H. Qed.

Lemma parse_duration_foreign (s p : string) (c : ascii) :
  strip s = p ++ String c "" ->
  existsb foreign (chars (if is_unit c then p else p ++ String c "")) = true ->
  raises ValueError (_parse_duration_to_seconds max_digits s).
Proof.
  intros Hs Hf. unfold _parse_duration_to_seconds.
  rewrite Hs, str_getitem_last. cbn [bind].
  rewrite lookup_duration_units. unfold is_unit in Hf.
  destruct (unit_seconds c) as [secs|].
  - rewrite str_slice_butlast, (int_of_str_foreign max_digits p Hf).
    eexists. split; reflexivity.
  - rewrite (int_of_str_foreign max_digits _ Hf). eexists. split; reflexivity.
Qed.

End Durations.

(** C4, as amended.  With [n] a non-empty string of decimal digits within
    the interpreter's digit limit: [<n><unit>] for a unit letter of
    s, m, h, d, w gives [n] times the unit's seconds (1, 60, 3600, 86400,
    604800), and [<n>] alone gives [n].  The empty or blank string raises
    [IndexError], and a string whose numeric part (what precedes a final unit
    letter, or all of it) holds a character that is no digit, sign,
    underscore or whitespace raises [ValueError]. *)
Theorem parse_duration_to_seconds_spec (max_digits : nat) :
  (forall ds u secs,
      is_digits ds = true -> within_limit max_digits ds ->
      unit_seconds u = Some secs ->
      _parse_duration_to_seconds max_digits (ds ++ String u "")
      = Return (decimal_value ds * secs))
  /\ (forall ds,
         is_digits ds = true -> within_limit max_digits ds ->
         _parse_duration_to_seconds max_digits ds = Return (decimal_value ds))
  /\ (forall s,
         strip s = "" ->
         raises IndexError (_parse_duration_to_seconds max_digits s))
  /\ (forall s p c,
         strip s = p ++ String c "" ->
         existsb foreign (chars (if is_unit c then p else p ++ String c "")) = true ->
         raises ValueError (_parse_duration_to_seconds max_digits s)).
Proof.
  repeat split.
  - apply parse_duration_digits_unit.
  - apply parse_duration_digits.
  - intros s H. rewrite (parse_duration_blank max_digits s H).
    eexists. split; reflexivity.
  - apply parse_duration_foreign.
Qed.

Lemma parse_duration_to_seconds_spec_witness :
  _parse_duration_to_seconds 4300 "90m" = Return 5400
  /\ _parse_duration_to_seconds 4300 "90" = Return 90
  /\ raises IndexError (_parse_duration_to_seconds 4300 "  ")
  /\ raises ValueError (_parse_duration_to_seconds 4300 "1.5h")
  /\ raises ValueError (_parse_duration_to_seconds 4300 "5x").
Proof.
  destruct (parse_duration_to_seconds_spec 4300) as (A & B & C & D).
  split; [|split; [|split; [|split]]].
  - apply (A "90" "m"%char 60); [reflexivity | right; simpl; lia | reflexivity].
  - apply (B "90"); [reflexivity | right; simpl; lia].
  - apply (C "  "). reflexivity.
  - apply (D "1.5h" "1.5" "h"%char); reflexivity.
  - apply (D "5x" "5" "x"%char); reflexivity.
Defined.

(** C4 as stated fails: ["-5h"] is not digits followed by a unit letter, and
    is no digit string either, yet it parses, to a negative duration. *)
Lemma parse_duration_accepts_negative :
  is_digits "-5" = false /\ is_digits "-5h" = false
  /\ _parse_duration_to_seconds 4300 "-5h" = Return (-18000).
Proof. repeat split. Qed.

(** ** [_parse_time_range] *)

Lemma lookup_range_units (c : ascii) :
  lookup (String c "")
    [("s", "seconds"); ("m", "minutes"); ("h", "hours"); ("d", "days");
     ("w", "weeks")]
  = if is_unit c then lookup (String c "")
                        [("s", "seconds"); ("m", "minutes"); ("h", "hours");
                         ("d", "days"); ("w", "weeks")]
    else None.
Proof.
  unfold is_unit, unit_seconds. cbn [lookup]. rewrite !eqb_single.
  repeat match goal with |- context [Ascii.eqb c ?d] => destruct (Ascii.eqb c d) end;
    reflexivity.
Qed.

Lemma parse_time_range_default (time_range p : string) (c : ascii) :
  startswith "now" time_range = false ->
  strip time_range = p ++ String c "" -> is_unit c = false ->
  _parse_time_range time_range = Return ("now-1h", "now").
Proof.
  intros Hn Hs Hu. unfold _parse_time_range.
  rewrite Hn, Hs, str_getitem_last. cbn [bind].
  now rewrite lookup_range_units, Hu.
Qed.

Lemma parse_time_range_returns (time_range : string) :
  startswith "now" time_range = true \/ strip time_range <> "" ->
  exists r, _parse_time_range time_range = Return r.
Proof.
  intros H. unfold _parse_time_range.
  destruct (startswith "now" time_range); [eexists; reflexivity|].
  destruct H as [H|H]; [discriminate|].
  destruct (nonempty_snoc _ H) as (p & c & E).
  rewrite E, str_getitem_last. cbn [bind].
  match goal with |- context [lookup ?k ?d] => destruct (lookup k d) end;
    eexists; reflexivity.
Qed.

(** C10, as amended.  [_parse_time_range] returns, without raising, on every
    string that starts with "now" or is not blank (not empty once stripped of
    whitespace).  When the string does not start with "now" and its last
    character after stripping is not one of s, m, h, d, w, the result is the
    default window ("now-1h", "now"), and [query_prometheus] on a configured
    datasource goes on to its retry loop with that window. *)
Theorem parse_time_range_total_on_nonblank (time_range : string) :
  startswith "now" time_range = true \/ strip time_range <> "" ->
  (exists r, _parse_time_range time_range = Return r)
  /\ (forall p c,
         startswith "now" time_range = false ->
         strip time_range = p ++ String c "" -> is_unit c = false ->
         _parse_time_range time_range = Return ("now-1h", "now")
         /\ forall self name entry uid q interval legend max_retries w,
             lookup name (datasources self) = Some (PDict entry) ->
             lookup "uid" entry = Some uid ->
             query_prometheus self name q time_range interval legend max_retries w
             = attempt_loop
                 (gateway_request self uid
                    (match lookup "id" entry with Some i => i | None => PNone end)
                    q interval legend "now-1h" "now")
                 max_retries (range max_retries) w).
Proof.
  intros H. split; [now apply parse_time_range_returns|].
  intros p c Hn Hs Hu.
  pose proof (parse_time_range_default time_range p c Hn Hs Hu) as E.
  split; [exact E|].
  intros self name entry uid q interval legend max_retries w Hl Hi.
  unfold query_prometheus, get_datasource_uid, datasources_getitem, io_bind, lift.
  rewrite Hl. cbn [getitem_str get]. rewrite Hi, E. reflexivity.
Qed.

Lemma parse_time_range_total_on_nonblank_witness :
  _parse_time_range "yesterday" = Return ("now-1h", "now")
  /\ exists r, _parse_time_range " 15m " = Return r.
Proof.
  split.
  - assert (H : startswith "now" "yesterday" = true \/ strip "yesterday" <> "")
      by (right; discriminate).
    destruct (parse_time_range_total_on_nonblank "yesterday" H) as [_ D].
    apply (D "yesterda" "y"%char); reflexivity.
  - apply (parse_time_range_total_on_nonblank " 15m ").
    right. discriminate.
Defined.

(** C10 as stated fails: a string of one space is not empty, and
    [_parse_time_range] raises [IndexError] on it. *)
Lemma parse_time_range_raises_on_blank :
  " " <> ""
  /\ _parse_time_range " "
     = Raise (Exn IndexError (PStr "string index out of range")).
Proof. split; [discriminate | reflexivity]. Qed.

(** C3: the code rewrites a range that starts with "now" instead of passing
    it on: the text after the first three characters is prefixed with
    "now-", so the result differs from the input ("now-6h" becomes
    "now--6h"). *)
Theorem parse_time_range_rewrites_now (rest : string) :
  _parse_time_range ("now" ++ rest) = Return ("now-" ++ rest, "now")
  /\ "now-" ++ rest <> "now" ++ rest.
Proof.
  split.
  - unfold _parse_time_range.
    assert (P : startswith "now" ("now" ++ rest) = true)
      by (destruct rest; reflexivity).
    rewrite P. unfold str_slice. rewrite (slice_from 3).
    change (skipn 3 (chars ("now" ++ rest))) with (chars rest).
    now rewrite str_of_chars.
  - intros E. apply (f_equal String.length) in E. simpl in E. lia.
Qed.

Example parse_time_range_now_6h :
  _parse_time_range "now-6h" = Return ("now--6h", "now").
Proof. reflexivity. Qed.

(** The direct path never sees a range in Grafana's own format: [query]
    takes a range that starts with "now" for a duration, and [int()] rejects
    it before any request is made. *)
Lemma rstrip_cons_nonspace (c : ascii) (s : string) :
  isspace c = false -> rstrip (String c s) = String c (rstrip s).
Proof. intros H. simpl. destruct (rstrip s); [now rewrite H | reflexivity]. Qed.

Lemma parse_duration_rejects_now (max_digits : nat) (rest : string) :
  raises ValueError (_parse_duration_to_seconds max_digits ("now" ++ rest)).
Proof.
  assert (S : strip ("now" ++ rest) = "now" ++ rstrip rest).
  { unfold strip. cbn [String.append]. rewrite lstrip_nonspace by reflexivity.
    now rewrite !rstrip_cons_nonspace by reflexivity. }
  destruct (nonempty_snoc ("now" ++ rstrip rest)) as (p & c & E);
    [discriminate|].
  apply (parse_duration_foreign max_digits _ p c); [now rewrite S|].
  destruct p as [|a p]; [cbn in E; inversion E; discriminate|].
  cbn in E. inversion E. subst a.
  destruct (is_unit c); reflexivity.
Qed.

Lemma query_rejects_now_ranges (max_digits : nat)
  (fromisoformat_timestamp strptime_timestamp : string -> option Z)
  (self : helper) (name q rest : string) (step max_retries : Z) (w : World) :
  exists e,
    query max_digits fromisoformat_timestamp strptime_timestamp self name q
      ("now" ++ rest) None None step max_retries w = (Raise e, w)
    /\ exn_class_of e = ValueError.
Proof.
  destruct (parse_duration_rejects_now max_digits rest) as (e & E & C).
  exists e. split; [|exact C].
  unfold query, given, io_bind, now, lift. now rewrite E.
Qed.

End TimeRanges.

Module Dispatch.
Import Py PyVal PyInt Net GrafanaQueryHelper.
Local Open Scope py_scope.

(** ** The retry loop, run against a scripted server *)

(** A failed attempt: a non-2xx status or a connection that was not made. *)
Definition is_failure (r : Response) : bool :=
  match r with
  | HTTPError _ _ _ | URLError _ => true
  | _ => false
  end.


(** The delay after the failed attempt of index [attempt]. *)
Definition delay (attempt : nat) : Z := 1 * (Z.of_nat attempt + 1).

(** The sleeps after [j] failed attempts: 1, 2, ..., j seconds. *)
Definition backoff (j : nat) : list Z := map delay (seq 0 j).

Definition total (delays : list Z) : Z := fold_right Z.add 0 delays.

(** The world after [n] more calls of [urlopen], all with [req], and the
    sleeps [delays]. *)
Definition after (w : World) (req : Request) (n : nat) (delays : list Z) : World :=
  mkWorld (server w) (clock w + total delays)
          (sent w ++ repeat req n)%list (slept w ++ delays)%list.

(** The server's answer to the [k]-th call from [w] on. *)
Definition answer (w : World) (req : Request) (k : nat) : Response :=
  server w (List.length (sent w) + k)%nat req.

Lemma after_step (w : World) (req : Request) (d : Z) (n : nat) (delays : list Z) :
  after (mkWorld (server w) (clock w + d) (sent w ++ [req])%list
                 (slept w ++ [d])%list) req n delays
  = after w req (S n) (d :: delays).
Proof.
  unfold after, total. simpl. rewrite <- !app_assoc. simpl.
  f_equal. lia.
Qed.

Lemma answer_step (w : World) (req : Request) (d : Z) (k : nat) :
  answer (mkWorld (server w) (clock w + d) (sent w ++ [req])%list
                  (slept w ++ [d])%list) req k
  = answer w req (S k).
Proof.
  unfold answer. simpl. rewrite length_app. simpl. f_equal. lia.
Qed.

Lemma attempt_loop_cons (req : Request) (M attempt : Z) (rest : list Z) (w : World) :
  attempt_loop req M (attempt :: rest) w
  = let w1 := mkWorld (server w) (clock w) (sent w ++ [req])%list (slept w) in
    let w2 := mkWorld (server w) (clock w + 1 * (attempt + 1))
                      (sent w ++ [req])%list
                      (slept w ++ [1 * (attempt + 1)])%list in
    match answer w req 0 with
    | Ok2xx loaded => (loaded, w1)
    | HTTPError code reason fp =>
        if attempt =? M - 1 then
          match fp with
          | Some NotUtf8 =>
              (raise UnicodeDecodeError "'utf-8' codec can't decode bytes", w1)
          | Some (Utf8 body) =>
              (Raise (Exn Exception (PStr (http_error_message code reason body))), w1)
          | None =>
              (Raise (Exn Exception (PStr (http_error_message code reason ""))), w1)
          end
        else attempt_loop req M rest w2
    | URLError reason =>
        if attempt =? M - 1 then
          (Raise (Exn Exception (PStr (connection_error_message reason))), w1)
        else attempt_loop req M rest w2
    | Failure e => (Raise e, w1)
    end.
Proof.
  unfold answer. rewrite Nat.add_0_r. cbn [attempt_loop].
  unfold io_bind at 1. unfold urlopen at 1.
  destruct (server w (List.length (sent w)) req) as [loaded|code reason fp|reason|e];
    cbn zeta.
  - unfold lift. now destruct loaded.
  - destruct (attempt =? M - 1).
    + destruct fp as [[body|]|]; reflexivity.
    + reflexivity.
  - destruct (attempt =? M - 1); reflexivity.
  - reflexivity.
Qed.



Lemma range_nonpositive (n : Z) : n <= 0 -> range n = [].
Proof.
  intros H. unfold range. now replace (Z.to_nat n) with 0%nat by lia.
Qed.

(** ** The three dispatch functions *)

(** [entry.get("id")] *)
Definition entry_id (entry : list (string * pyval)) : pyval :=
  match lookup "id" entry with Some i => i | None => PNone end.

Lemma query_prometheus_direct_configured
  (self : helper) (name : string) (entry : list (string * pyval))
  (q : string) (s e step M : Z) (w : World) :
  lookup name (datasources self) = Some (PDict entry) ->
  query_prometheus_direct self name q s e step M w
  = attempt_loop (direct_request self (entry_id entry) q s e step) M (range M) w.
Proof.
  intros H. unfold query_prometheus_direct, datasources_getitem, io_bind, lift.
  now rewrite H.
Qed.

Lemma query_prometheus_absolute_configured
  (self : helper) (name : string) (entry : list (string * pyval)) (uid : pyval)
  (q : string) (from_ to : Z) (interval legend : string) (M : Z) (w : World) :
  lookup name (datasources self) = Some (PDict entry) ->
  lookup "uid" entry = Some uid ->
  query_prometheus_absolute self name q from_ to interval legend M w
  = attempt_loop
      (gateway_request self uid (entry_id entry) q interval legend
         (str_of_int from_) (str_of_int to))
      M (range M) w.
Proof.
  intros H U.
  unfold query_prometheus_absolute, get_datasource_uid, datasources_getitem,
    io_bind, lift.
  rewrite H. cbn [getitem_str get]. now rewrite U.
Qed.

Lemma query_prometheus_configured
  (self : helper) (name : string) (entry : list (string * pyval)) (uid : pyval)
  (q time_range from_ to interval legend : string) (M : Z) (w : World) :
  lookup name (datasources self) = Some (PDict entry) ->
  lookup "uid" entry = Some uid ->
  _parse_time_range time_range = Return (from_, to) ->
  query_prometheus self name q time_range interval legend M w
  = attempt_loop
      (gateway_request self uid (entry_id entry) q interval legend from_ to)
      M (range M) w.
Proof.
  intros H U T.
  unfold query_prometheus, get_datasource_uid, datasources_getitem, io_bind, lift.
  rewrite H. cbn [getitem_str get]. now rewrite U, T.
Qed.





(** A helper with one datasource, and two servers: one that refuses the
    connection, answers 502, and then answers well; one that always answers
    503. *)
Definition one_datasource : helper :=
  Helper "http://grafana" "token"
    [("Prometheus 1", PDict [("uid", PStr "abc"); ("id", PInt 7)])].

Definition up_result : pyval :=
  PDict [("status", PStr "success");
         ("data", PDict [("resultType", PStr "matrix"); ("result", PList [])])].

Definition third_time_lucky (n : nat) (_ : Request) : Response :=
  match n with
  | 0%nat => URLError "Connection refused"
  | 1%nat => HTTPError 502 "Bad Gateway" None
  | _ => Ok2xx (Return up_result)
  end.

Definition always_unavailable (_ : nat) (_ : Request) : Response :=
  HTTPError 503 "Service Unavailable" (Some (Utf8 "try later")).

Definition fresh (srv : nat -> Request -> Response) : World :=
  mkWorld srv 1700000000 [] [].


(** ** A datasource that is not configured *)

Definition not_found_message (self : helper) (name : string) : string :=
  "Datasource '" ++ name ++ "' not found." ++ nl
  ++ "Available datasources: " ++ join ", " (keys (datasources self)).

(** The gateway functions raise the [KeyError] of [get_datasource_uid], which
    lists the configured names; the world is untouched. *)
Lemma gateway_paths_unknown_datasource
  (self : helper) (name q time_range interval legend : string)
  (from_ to M : Z) (w : World) :
  lookup name (datasources self) = None ->
  query_prometheus self name q time_range interval legend M w
  = (Raise (Exn KeyError (PStr (not_found_message self name))), w)
  /\ query_prometheus_absolute self name q from_ to interval legend M w
     = (Raise (Exn KeyError (PStr (not_found_message self name))), w).
Proof.
  intros H.
  unfold query_prometheus, query_prometheus_absolute, get_datasource_uid,
    io_bind, lift.
  rewrite H. split; reflexivity.
Qed.

(** The direct function raises the [KeyError] of the dict lookup, whose only
    argument is the requested name; the world is untouched. *)
Lemma direct_path_unknown_datasource
  (self : helper) (name q : string) (s e step M : Z) (w : World) :
  lookup name (datasources self) = None ->
  query_prometheus_direct self name q s e step M w
  = (Raise (Exn KeyError (PStr name)), w).
Proof.
  intros H. unfold query_prometheus_direct, datasources_getitem, io_bind, lift.
  now rewrite H.
Qed.

(** C6: on the direct path the failure does not list the available names.
    For a name the configuration does not have, every dispatch function
    stops before any request, with the world as it was; the gateway ones
    raise the [KeyError] that names the configured datasources, but the
    direct one raises the [KeyError] of the dict lookup, whose text is the
    [repr] of the requested name and nothing else. *)
Theorem unknown_datasource_on_both_paths (self : helper) (name : string) :
  lookup name (datasources self) = None ->
  (forall q s e step M w,
      query_prometheus_direct self name q s e step M w
      = (Raise (Exn KeyError (PStr name)), w))
  /\ exn_str (Exn KeyError (PStr name)) = repr_str name
  /\ (forall q time_range interval legend M w,
         query_prometheus self name q time_range interval legend M w
         = (Raise (Exn KeyError (PStr (not_found_message self name))), w))
  /\ (forall q from_ to interval legend M w,
         query_prometheus_absolute self name q from_ to interval legend M w
         = (Raise (Exn KeyError (PStr (not_found_message self name))), w)).
Proof.
  intros H. split; [|split; [|split]].
  - intros. now apply direct_path_unknown_datasource.
  - reflexivity.
  - intros q time_range interval legend M w.
    now apply (gateway_paths_unknown_datasource self name q time_range interval
                 legend 0 0 M w).
  - intros q from_ to interval legend M w.
    now apply (gateway_paths_unknown_datasource self name q "" interval legend
                 from_ to M w).
Qed.

Lemma unknown_datasource_on_both_paths_witness :
  query_prometheus_direct one_datasource "Missing" "up" 0 60 15 3
    (fresh always_unavailable)
  = (Raise (Exn KeyError (PStr "Missing")), fresh always_unavailable)
  /\ exn_str (Exn KeyError (PStr "Missing")) = "'Missing'"
  /\ query_prometheus one_datasource "Missing" "up" "1h" "" "" 3
       (fresh always_unavailable)
     = (Raise (Exn KeyError
                 (PStr ("Datasource 'Missing' not found." ++ nl
                        ++ "Available datasources: Prometheus 1"))),
        fresh always_unavailable).
Proof.
  destruct (unknown_datasource_on_both_paths one_datasource "Missing" eq_refl)
    as (D & S & G & _).
  split; [apply D | split; [exact S | apply G]].
Defined.

(** ** No attempts at all *)

Lemma attempt_loop_no_attempts (req : Request) (M : Z) (w : World) :
  M <= 0 -> attempt_loop req M (range M) w = (Return PNone, w).
Proof. intros H. now rewrite (range_nonpositive M H). Qed.

(** C9, as amended.  With [max_retries <= 0] and a configured datasource,
    each of the three dispatch functions returns [None] and leaves the world
    as it was: no request, no sleep.  The gateway functions also need the
    entry's "uid", and [query_prometheus] a time range that
    [_parse_time_range] accepts. *)
Theorem no_retries_returns_none
  (self : helper) (name : string) (entry : list (string * pyval))
  (max_retries : Z) (w : World) :
  max_retries <= 0 ->
  lookup name (datasources self) = Some (PDict entry) ->
  (forall q s e step,
      query_prometheus_direct self name q s e step max_retries w
      = (Return PNone, w))
  /\ (forall uid q from_ to interval legend,
         lookup "uid" entry = Some uid ->
         query_prometheus_absolute self name q from_ to interval legend
           max_retries w
         = (Return PNone, w))
  /\ (forall uid q time_range interval legend,
         lookup "uid" entry = Some uid ->
         startswith "now" time_range = true \/ strip time_range <> "" ->
         query_prometheus self name q time_range interval legend max_retries w
         = (Return PNone, w)).
Proof.
  intros HM H. repeat split.
  - intros q s e step.
    rewrite (query_prometheus_direct_configured self name entry q s e step _ w H).
    now apply attempt_loop_no_attempts.
  - intros uid q from_ to interval legend U.
    rewrite (query_prometheus_absolute_configured self name entry uid q from_ to
               interval legend _ w H U).
    now apply attempt_loop_no_attempts.
  - intros uid q time_range interval legend U T.
    destruct (TimeRanges.parse_time_range_returns time_range T) as [[from_ to] E].
    rewrite (query_prometheus_configured self name entry uid q time_range from_ to
               interval legend _ w H U E).
    now apply attempt_loop_no_attempts.
Qed.

Lemma no_retries_returns_none_witness :
  query_prometheus_direct one_datasource "Prometheus 1" "up" 0 60 15 0
    (fresh always_unavailable)
  = (Return PNone, fresh always_unavailable)
  /\ query_prometheus one_datasource "Prometheus 1" "up" "1h" "" "" (-1)
       (fresh always_unavailable)
     = (Return PNone, fresh always_unavailable).
Proof.
  split.
  - apply (no_retries_returns_none one_datasource "Prometheus 1"
             [("uid", PStr "abc"); ("id", PInt 7)] 0 (fresh always_unavailable));
      [lia | reflexivity].
  - apply (no_retries_returns_none one_datasource "Prometheus 1"
             [("uid", PStr "abc"); ("id", PInt 7)] (-1) (fresh always_unavailable)
             ltac:(lia) eq_refl) with (uid := PStr "abc");
      [reflexivity | right; discriminate].
Defined.

(** C9 as stated fails: with [max_retries = 0] a call that names a
    datasource the configuration does not have raises [KeyError], on each of
    the three functions. *)
Lemma no_retries_unknown_datasource_raises :
  fst (query_prometheus_direct one_datasource "Missing" "up" 0 60 15 0
         (fresh always_unavailable))
  = Raise (Exn KeyError (PStr "Missing"))
  /\ fst (query_prometheus_absolute one_datasource "Missing" "up" 0 60000 "" "" 0
            (fresh always_unavailable))
     = Raise (Exn KeyError (PStr (not_found_message one_datasource "Missing")))
  /\ fst (query_prometheus one_datasource "Missing" "up" "1h" "" "" 0
            (fresh always_unavailable))
     = Raise (Exn KeyError (PStr (not_found_message one_datasource "Missing"))).
Proof. repeat split. Qed.

End Dispatch.

Module FormatFacts.
Import Py PyVal PyInt PyTime GrafanaQueryHelper StringFacts.
Local Open Scope py_scope.

(** ** Slices and loops *)

(** The last [n] items of a list. *)
Definition lastn {A : Type} (n : nat) (l : list A) : list A :=
  skipn (List.length l - n) l.

Lemma slice_first {A : Type} (n : Z) (l : list A) :
  0 <= n -> slice None (Some n) l = firstn (Z.to_nat n) l.
Proof.
  intros H. unfold slice, clamp.
  replace (n <? 0) with false by (symmetry; apply Z.ltb_ge; lia).
  rewrite Z.sub_0_r. cbn [Z.to_nat skipn].
  set (k := Z.of_nat (List.length l)).
  destruct (Z.le_gt_cases n k) as [L|L].
  - now replace (Z.max 0 (Z.min k n)) with n by lia.
  - replace (Z.max 0 (Z.min k n)) with k by lia.
    unfold k. rewrite Nat2Z.id, firstn_all. symmetry. apply firstn_all2. lia.
Qed.

Lemma slice_last {A : Type} (n : Z) (l : list A) :
  0 < n -> slice (Some (- n)) None l = lastn (Z.to_nat n) l.
Proof.
  intros H. unfold slice, clamp, lastn.
  replace (- n <? 0) with true by (symmetry; apply Z.ltb_lt; lia).
  set (k := Z.of_nat (List.length l)).
  replace (Z.to_nat (Z.max 0 (Z.min k (- n + k))))
    with (List.length l - Z.to_nat n)%nat by lia.
  replace (Z.to_nat (k - Z.max 0 (Z.min k (- n + k))))
    with (List.length (skipn (List.length l - Z.to_nat n) l))
    by (rewrite length_skipn; lia).
  apply firstn_all.
Qed.

Lemma getitem_last (l : list pyval) (x : pyval) :
  getitem_int (PList (l ++ [x])) (-1) = Return x.
Proof.
  unfold getitem_int. rewrite norm_index_last.
  - rewrite List.length_app. cbn [List.length].
    replace (Z.to_nat (Z.of_nat (List.length l + 1) - 1)) with (List.length l) by lia.
    rewrite nth_error_app2, Nat.sub_diag by lia. reflexivity.
  - rewrite List.length_app. cbn [List.length]. lia.
Qed.

Lemma truthy_list_snoc (l : list pyval) (x : pyval) :
  truthy (PList (l ++ [x])) = true.
Proof. now destruct l. Qed.

(** A loop whose every turn appends the lines [f d] of the description [d]
    of its item. *)
Lemma for_each_described {A D : Type} (R : A -> D -> Prop)
  (step : list string -> A -> result (list string)) (f : D -> list string) :
  (forall acc x d, R x d -> step acc x = Return (acc ++ f d)%list) ->
  forall xs ds, Forall2 R xs ds ->
  forall acc, for_each xs step acc = Return (acc ++ List.concat (map f ds))%list.
Proof.
  intros H xs ds F. induction F as [|x d xs ds Hx F IH]; intros acc;
    cbn [for_each map List.concat].
  - now rewrite app_nil_r.
  - rewrite (H acc x d Hx). cbn [bind]. rewrite IH. now rewrite app_assoc.
Qed.

Lemma Forall2_firstn {A B : Type} (R : A -> B -> Prop) (n : nat) :
  forall xs ys, Forall2 R xs ys -> Forall2 R (firstn n xs) (firstn n ys).
Proof.
  induction n as [|n IH]; intros xs ys F; [constructor|].
  destruct F; cbn [firstn]; constructor; auto.
Qed.

Lemma Forall2_length_eq {A B : Type} (R : A -> B -> Prop) (xs : list A) (ys : list B) :
  Forall2 R xs ys -> List.length xs = List.length ys.
Proof. induction 1; simpl; congruence. Qed.

(** ** The native envelope *)

(** A series of the native envelope: its labels and its points, each a
    (timestamp, value) pair. *)
Record native_series : Type := NativeSeries {
  ns_labels : list (string * pyval);
  ns_points : list (pyval * pyval)
}.

Definition point_pair (p : pyval * pyval) : pyval := PList [fst p; snd p].

(** [s] is the dict of the series [d]: "metric" holds the labels and
    "values" the points. *)
Definition encodes_native (s : pyval) (d : native_series) : Prop :=
  exists items,
    s = PDict items
    /\ lookup "metric" items = Some (PDict (ns_labels d))
    /\ lookup "values" items = Some (PList (map point_pair (ns_points d))).

(** [result] is a native envelope with the series [series]. *)
Definition native_envelope (result : pyval) (series : list pyval) : Prop :=
  exists top data,
    result = PDict top
    /\ lookup "status" top = Some (PStr "success")
    /\ lookup "data" top = Some (PDict data)
    /\ lookup "result" data = Some (PList series).

Definition label (k : string) (labels : list (string * pyval)) (dflt : pyval) : pyval :=
  match lookup k labels with Some v => v | None => dflt end.

(** The name of the simple format: the instance label, else the job label,
    else the placeholder. *)
Definition simple_name (labels : list (string * pyval)) : string :=
  str (or_else (label "instance" labels PNone)
         (or_else (label "job" labels PNone) (PStr "Series"))).

(** The line of the simple format for a series with at least one point:
    its name and the value of its last point. *)
Definition simple_line (d : native_series) : list string :=
  match rev (ns_points d) with
  | (_, latest) :: _ => [simple_name (ns_labels d) ++ ": " ++ str latest]
  | [] => []
  end.

Lemma native_simple_step_encoded (lines : list string) (s : pyval) (d : native_series) :
  encodes_native s d ->
  native_simple_step lines s = Return (lines ++ simple_line d)%list.
Proof.
  intros (items & -> & Hm & Hv). unfold native_simple_step.
  cbn [get bind]. rewrite Hm, Hv. cbn [get bind].
  assert (P : forall name : pyval,
             (if truthy (PList (map point_pair (ns_points d)))
              then last <- getitem_int (PList (map point_pair (ns_points d))) (-1) ;;
                   x <- unpack2 last ;;
                   (let (_, latest_val) := x in
                    Return (append lines (str name ++ ": " ++ str latest_val)))
              else Return lines)
             = Return (app lines match rev (ns_points d) with
                                 | (_, latest) :: _ => [str name ++ ": " ++ str latest]
                                 | [] => []
                                 end)).
  { intros name. destruct (ns_points d) as [|p ps _] using rev_ind.
    - cbn [map truthy rev]. now rewrite app_nil_r.
    - rewrite map_app, rev_app_distr. cbn [map rev app].
      rewrite truthy_list_snoc, getitem_last. cbn [bind].
      destruct p as [ts latest]. reflexivity. }
  unfold simple_line, simple_name, or_else, label.
  destruct (truthy match lookup "instance" (ns_labels d) with
                   | Some x => x
                   | None => PNone
                   end); cbn [bind]; apply P.
Qed.

(** The value of the last point. *)
Definition latest_value (d : native_series) : pyval :=
  snd (last (ns_points d) (PNone, PNone)).

(** [<name>: <latest value>] *)
Definition line_of (d : native_series) : string :=
  simple_name (ns_labels d) ++ ": " ++ str (latest_value d).

Lemma simple_line_with_points (d : native_series) :
  ns_points d <> [] -> simple_line d = [line_of d].
Proof.
  intros H. unfold simple_line, line_of, latest_value.
  destruct (ns_points d) as [|p ps _] using rev_ind; [congruence|].
  rewrite rev_app_distr, last_last. cbn [rev app]. now destruct p.
Qed.

Lemma simple_lines_with_points (ds : list native_series) :
  Forall (fun d => ns_points d <> []) ds ->
  List.concat (map simple_line ds) = map line_of ds.
Proof.
  induction 1 as [|d ds Hd _ IH]; [reflexivity|].
  cbn [map List.concat]. now rewrite simple_line_with_points, IH.
Qed.

Lemma Forall_firstn {A : Type} (P : A -> Prop) (n : nat) (l : list A) :
  Forall P l -> Forall P (firstn n l).
Proof.
  intros H. revert n. induction H as [|x l Hx _ IH]; intros n.
  - rewrite firstn_nil. constructor.
  - destruct n; cbn [firstn]; constructor; auto.
Qed.

Lemma truthy_dict (k : string) (items : list (string * pyval)) (v : pyval) :
  lookup k items = Some v -> truthy (PDict items) = true.
Proof. intros H. destruct items; [discriminate | reflexivity]. Qed.

Section Native.

Variable max_digits : nat.
Variable utcoffset : Z -> Z.

(** The simple format of a native envelope with at least one series. *)
Lemma native_simple_output
  (result : pyval) (series : list pyval) (descs : list native_series)
  (max_series max_points : Z) :
  native_envelope result series ->
  Forall2 encodes_native series descs ->
  series <> [] -> 0 <= max_series ->
  format_prometheus_result max_digits utcoffset result "simple" max_series max_points
  = Return
      (join nl
         (List.concat (map simple_line (firstn (Z.to_nat max_series) descs))
          ++ (if max_series <? Z.of_nat (List.length series)
              then [more_series_line (Z.of_nat (List.length series) - max_series)]
              else []))%list).
Proof.
  intros (top & data & -> & Hs & Hd & Hr) F Hne Hm.
  unfold format_prometheus_result.
  rewrite (truthy_dict "status" top _ Hs). cbn [negb get bind].
  rewrite Hs. cbn [eq_str]. cbn [String.eqb Ascii.eqb Bool.eqb].
  rewrite Hd. cbn [get bind]. rewrite Hr.
  assert (T : truthy (PList series) = true) by (destruct series; [congruence | reflexivity]).
  rewrite T. cbn [negb getslice bind iter PyVal.length].
  change (String.eqb "simple" "json") with false.
  change (String.eqb "simple" "simple") with true. cbv iota.
  rewrite slice_first by exact Hm.
  rewrite (for_each_described encodes_native native_simple_step simple_line
             native_simple_step_encoded _ _
             (Forall2_firstn _ (Z.to_nat max_series) _ _ F)).
  cbn [bind app]. unfold append.
  destruct (max_series <? Z.of_nat (List.length series)); [reflexivity|].
  now rewrite app_nil_r.
Qed.

End Native.

(** C8.  For a native envelope of 25 series, each with at least one point,
    and [max_series = 20], the simple format is 20 lines
    [<name>: <latest value>], one per series of the first 20 and in their
    order, the latest value being that of the series' last point, followed by
    the one line "... and 5 more series". *)
Theorem simple_format_25_series_max_20
  (max_digits : nat) (utcoffset : Z -> Z)
  (result : pyval) (series : list pyval) (descs : list native_series)
  (max_points : Z) :
  native_envelope result series ->
  Forall2 encodes_native series descs ->
  List.length series = 25%nat ->
  Forall (fun d => ns_points d <> []) descs ->
  format_prometheus_result max_digits utcoffset result "simple" 20 max_points
  = Return (join nl (map line_of (firstn 20 descs) ++ ["... and 5 more series"])%list)
  /\ List.length (map line_of (firstn 20 descs)) = 20%nat.
Proof.
  intros E F L P. split.
  - rewrite (native_simple_output max_digits utcoffset result series descs 20
               max_points E F) by (try lia; intros ->; discriminate).
    rewrite L. change (Z.to_nat 20) with 20%nat.
    rewrite simple_lines_with_points by now apply Forall_firstn.
    reflexivity.
  - rewrite length_map, length_firstn.
    rewrite <- (Forall2_length_eq _ _ _ F), L. reflexivity.
Qed.

(** The dict of a described series, and the envelope of a list of series. *)
Definition encode_native (d : native_series) : pyval :=
  PDict [("metric", PDict (ns_labels d));
         ("values", PList (map point_pair (ns_points d)))].

Definition envelope (series : list pyval) : pyval :=
  PDict [("status", PStr "success");
         ("data", PDict [("resultType", PStr "matrix"); ("result", PList series)])].

Lemma encode_native_encodes (ds : list native_series) :
  Forall2 encodes_native (map encode_native ds) ds.
Proof.
  induction ds as [|d ds IH]; cbn [map]; constructor; [|exact IH].
  eexists. repeat split.
Qed.

Lemma envelope_is_native (series : list pyval) :
  native_envelope (envelope series) series.
Proof. do 2 eexists. repeat split. Qed.

(** Twenty-five nodes, each with two points. *)
Definition node (i : Z) : native_series :=
  NativeSeries
    [("__name__", PStr "up"); ("instance", PStr ("node" ++ str_of_int i ++ ":9100"));
     ("job", PStr "node")]
    [(PInt 1700000000, PStr "0"); (PInt 1700000015, PStr (str_of_int (i mod 2)))].

Definition nodes25 : list native_series := map node (range 25).

Lemma simple_format_25_series_max_20_witness :
  format_prometheus_result 4300 (fun _ => 0)
    (envelope (map encode_native nodes25)) "simple" 20 10
  = Return (join nl (map line_of (firstn 20 nodes25)
                     ++ ["... and 5 more series"])%list)
  /\ List.length (map line_of (firstn 20 nodes25)) = 20%nat.
Proof.
  apply (simple_format_25_series_max_20 4300 (fun _ => 0)
           (envelope (map encode_native nodes25)) (map encode_native nodes25)
           nodes25 10).
  - apply envelope_is_native.
  - apply encode_native_encodes.
  - reflexivity.
  - unfold nodes25. apply Forall_forall. intros d Hd.
    apply in_map_iff in Hd. destruct Hd as (i & <- & _). discriminate.
Defined.

(** ** The table format of the native envelope *)

Lemma lastn_map {A B : Type} (f : A -> B) (n : nat) (l : list A) :
  lastn n (map f l) = map f (lastn n l).
Proof. unfold lastn. now rewrite length_map, skipn_map. Qed.

Lemma concat_map_singleton {A B : Type} (f : A -> B) (l : list A) :
  List.concat (map (fun x => [f x]) l) = map f l.
Proof.
  induction l as [|x l IH]; [reflexivity|].
  cbn [map List.concat app]. now rewrite IH.
Qed.

Lemma Forall2_map_described {A D : Type} (enc : D -> A) (P : D -> Prop) (ds : list D) :
  Forall P ds -> Forall2 (fun x d => x = enc d /\ P d) (map enc ds) ds.
Proof. induction 1; cbn [map]; constructor; auto. Qed.

Lemma Forall2_and_right {A D : Type} (R : A -> D -> Prop) (P : D -> Prop)
  (xs : list A) (ds : list D) :
  Forall2 R xs ds -> Forall P ds -> Forall2 (fun x d => R x d /\ P d) xs ds.
Proof.
  induction 1 as [|x d xs ds Hx _ IH]; intros H; constructor;
    inversion H; subst; auto.
Qed.

(** The name of the table format: job and instance when both are set, else
    the labels as Python prints a dict. *)
Definition table_name (labels : list (string * pyval)) : string :=
  native_metric_name (PDict labels) (label "instance" labels (PStr ""))
    (label "job" labels (PStr "")).

Section NativeTable.

Variable max_digits : nat.
Variable utcoffset : Z -> Z.

(** [hms] is the clock time the formatter prints for a timestamp. *)
Variable hms : pyval -> string.

Definition renders_seconds (p : pyval * pyval) : Prop :=
  format_seconds max_digits utcoffset (fst p) = Return (hms (fst p)).

(** The rows of one series: its last [max_points] points in their order,
    each with the name cut to 30 characters and the value as it is. *)
Definition native_rows (max_points : nat) (d : native_series) : list string :=
  map (fun p => row (hms (fst p)) (str_slice None (Some 30) (table_name (ns_labels d)))
                    (str (snd p)))
      (lastn max_points (ns_points d)).

Lemma native_table_point_pair (name : string) (acc : list string) (x : pyval)
  (p : pyval * pyval) :
  x = point_pair p /\ renders_seconds p ->
  native_table_point max_digits utcoffset name acc x
  = Return (acc ++ [row (hms (fst p)) (str_slice None (Some 30) name)
                        (str (snd p))])%list.
Proof.
  intros [-> E]. unfold native_table_point, point_pair.
  cbn [unpack2 iter bind]. unfold renders_seconds in E. now rewrite E.
Qed.

Lemma native_table_step_encoded (max_points : Z) (lines : list string)
  (s : pyval) (d : native_series) :
  0 < max_points ->
  encodes_native s d
  /\ Forall renders_seconds (lastn (Z.to_nat max_points) (ns_points d)) ->
  native_table_step max_digits utcoffset max_points lines s
  = Return (lines ++ native_rows (Z.to_nat max_points) d)%list.
Proof.
  intros Hp ((items & -> & Hm & Hv) & R). unfold native_table_step.
  cbn [get bind]. rewrite Hm, Hv. cbn [get bind getslice iter].
  rewrite slice_last by exact Hp. rewrite lastn_map.
  fold (label "instance" (ns_labels d) (PStr "")).
  fold (label "job" (ns_labels d) (PStr "")).
  fold (table_name (ns_labels d)).
  rewrite (for_each_described
             (fun x p => x = point_pair p /\ renders_seconds p)
             (native_table_point max_digits utcoffset (table_name (ns_labels d)))
             (fun p => [row (hms (fst p))
                            (str_slice None (Some 30) (table_name (ns_labels d)))
                            (str (snd p))])
             (native_table_point_pair (table_name (ns_labels d)))
             _ _ (Forall2_map_described point_pair renders_seconds _ R)).
  now rewrite concat_map_singleton.
Qed.

(** The table format of a native envelope with at least one series. *)
Lemma native_table_output
  (result : pyval) (series : list pyval) (descs : list native_series)
  (format_type : string) (max_series max_points : Z) :
  native_envelope result series ->
  Forall2 encodes_native series descs ->
  series <> [] -> 0 <= max_series -> 0 < max_points ->
  String.eqb format_type "json" = false ->
  String.eqb format_type "simple" = false ->
  Forall (fun d => Forall renders_seconds
                     (lastn (Z.to_nat max_points) (ns_points d)))
         (firstn (Z.to_nat max_series) descs) ->
  format_prometheus_result max_digits utcoffset result format_type max_series
    max_points
  = Return
      (join nl
         (native_header
          ++ List.concat (map (native_rows (Z.to_nat max_points))
                            (firstn (Z.to_nat max_series) descs))
          ++ (if max_series <? Z.of_nat (List.length series)
              then [more_series_row (Z.of_nat (List.length series) - max_series)]
              else []))%list).
Proof.
  intros (top & data & -> & Hs & Hd & Hr) F Hne Hm Hp Hj Hsi R.
  unfold format_prometheus_result.
  rewrite (truthy_dict "status" top _ Hs). cbn [negb get bind].
  rewrite Hs. cbn [eq_str]. cbn [String.eqb Ascii.eqb Bool.eqb].
  rewrite Hd. cbn [get bind]. rewrite Hr.
  assert (T : truthy (PList series) = true)
    by (destruct series; [congruence | reflexivity]).
  rewrite T, Hj, Hsi. cbn [negb getslice bind iter PyVal.length].
  rewrite slice_first by exact Hm.
  rewrite (for_each_described
             (fun s d => encodes_native s d
                         /\ Forall renders_seconds
                              (lastn (Z.to_nat max_points) (ns_points d)))
             (native_table_step max_digits utcoffset max_points)
             (native_rows (Z.to_nat max_points))
             (fun acc x d H => native_table_step_encoded max_points acc x d Hp H)
             _ _
             (Forall2_and_right _ _ _ _
                (Forall2_firstn _ (Z.to_nat max_series) _ _ F) R)).
  cbn [bind]. unfold append.
  destruct (max_series <? Z.of_nat (List.length series)).
  - now rewrite <- app_assoc.
  - now rewrite app_nil_r.
Qed.

End NativeTable.

(** ** Gateway payloads *)

Lemma for_each_app {A S : Type} (xs ys : list A) (step : S -> A -> result S) (acc : S) :
  for_each (xs ++ ys) step acc
  = (acc' <- for_each xs step acc ;; for_each ys step acc').
Proof.
  revert acc. induction xs as [|x xs IH]; intros acc; [reflexivity|].
  cbn [app for_each]. destruct (step acc x); cbn [bind]; [apply IH | reflexivity].
Qed.

Lemma getitem_nth (l : list pyval) (i : nat) (x : pyval) :
  nth_error l i = Some x -> getitem_int (PList l) (Z.of_nat i) = Return x.
Proof.
  intros H. unfold getitem_int, norm_index.
  assert (i < List.length l)%nat by (apply nth_error_Some; congruence).
  replace (Z.of_nat i <? 0) with false by (symmetry; apply Z.ltb_ge; lia).
  replace (0 <=? Z.of_nat i) with true by (symmetry; apply Z.leb_le; lia).
  replace (Z.of_nat i <? Z.of_nat (List.length l)) with true
    by (symmetry; apply Z.ltb_lt; lia).
  cbn [andb]. now rewrite Nat2Z.id, H.
Qed.

Lemma getitem_0 (x : pyval) (l : list pyval) :
  getitem_int (PList (x :: l)) 0 = Return x.
Proof. now apply (getitem_nth (x :: l) 0 x). Qed.

Lemma getitem_1 (x y : pyval) (l : list pyval) :
  getitem_int (PList (x :: y :: l)) 1 = Return y.
Proof. now apply (getitem_nth (x :: y :: l) 1 y). Qed.

Lemma getitem_beyond (l : list pyval) (i : nat) :
  (List.length l <= i)%nat ->
  getitem_int (PList l) (Z.of_nat i) = raise IndexError "list index out of range".
Proof.
  intros H. unfold getitem_int, norm_index.
  replace (Z.of_nat i <? 0) with false by (symmetry; apply Z.ltb_ge; lia).
  replace (Z.of_nat i <? Z.of_nat (List.length l)) with false
    by (symmetry; apply Z.ltb_ge; lia).
  now rewrite andb_false_r.
Qed.

Lemma skipn_nth {A : Type} (l : list A) (i : nat) (x : A) :
  nth_error l i = Some x -> skipn i l = x :: skipn (S i) l.
Proof.
  revert i. induction l as [|y l IH]; intros [|i] H; try discriminate.
  - now inversion H.
  - cbn [skipn]. now apply IH.
Qed.

Lemma nth_error_combine {A B : Type} (l : list A) (l' : list B) (i : nat) (x : A) (y : B) :
  nth_error l i = Some x -> nth_error l' i = Some y ->
  nth_error (combine l l') i = Some (x, y).
Proof.
  revert l' i. induction l as [|a l IH]; intros [|b l'] [|i] H1 H2;
    try discriminate; cbn in *.
  - congruence.
  - now apply IH.
Qed.

Lemma nth_error_below {A : Type} (l : list A) (i : nat) :
  (i < List.length l)%nat -> exists x, nth_error l i = Some x.
Proof.
  intros H. destruct (nth_error l i) eqn:E; [eauto|].
  apply nth_error_None in E. lia.
Qed.

Lemma range2_nat (a b : nat) :
  range2 (Z.of_nat a) (Z.of_nat b) = map Z.of_nat (seq a (b - a)).
Proof.
  unfold range2.
  replace (Z.to_nat (Z.of_nat b - Z.of_nat a)) with (b - a)%nat by lia.
  assert (G : forall n k,
             map (fun i => Z.of_nat a + Z.of_nat i) (seq k n)
             = map Z.of_nat (seq (a + k) n)).
  { induction n as [|n IH]; intros k; [reflexivity|].
    cbn [seq map]. rewrite IH, Nat.add_succ_r. f_equal. lia. }
  rewrite G. now rewrite Nat.add_0_r.
Qed.

(** A frame: the schema it declares, if any, its column of timestamps and
    its column of values. *)
Record frame : Type := Frame {
  fr_schema : option (list (string * pyval));
  fr_times : list pyval;
  fr_vals : list pyval
}.

(** The name the formatter prints: the schema's "name", else "Series". *)
Definition frame_name (d : frame) : pyval :=
  match fr_schema d with
  | Some schema => label "name" schema (PStr "Series")
  | None => PStr "Series"
  end.

(** [f] is the dict of the frame [d]: the first two entries of
    [data.values] are the two columns. *)
Definition encodes_frame (f : pyval) (d : frame) : Prop :=
  exists items data more,
    f = PDict items
    /\ lookup "schema" items = option_map PDict (fr_schema d)
    /\ lookup "data" items = Some (PDict data)
    /\ lookup "values" data
       = Some (PList (PList (fr_times d) :: PList (fr_vals d) :: more)).

Lemma frame_name_and_values_encoded (f : pyval) (d : frame) :
  encodes_frame f d ->
  exists more,
    frame_name_and_values f
    = Return (frame_name d, PList (PList (fr_times d) :: PList (fr_vals d) :: more)).
Proof.
  intros (items & data & more & -> & Hs & Hd & Hv). exists more.
  unfold frame_name_and_values, frame_name. cbn [get bind].
  rewrite Hs, Hd. destruct (fr_schema d) as [schema|]; cbn [option_map get bind];
    now rewrite Hv.
Qed.

(** [result] is a gateway payload whose [results.A] is the dict [a]. *)
Definition gateway_payload (result : pyval) (a : list (string * pyval)) : Prop :=
  exists top res,
    result = PDict top
    /\ lookup "results" top = Some (PDict res)
    /\ lookup "A" res = Some (PDict a).

Section GatewayTable.

Variable utcoffset : Z -> Z.

(** [ymd] is the date and time the formatter prints for a timestamp in
    milliseconds, [shown] the text it prints for a value. *)
Variable ymd : pyval -> string.
Variable shown : pyval -> string.

Definition renders (t v : pyval) : Prop :=
  format_millis utcoffset t = Return (ymd t) /\ format_value v = Return (shown v).

(** *** Frames *)

Definition frame_row (name : pyval) (tv : pyval * pyval) : string :=
  row (ymd (fst tv)) (str name) (shown (snd tv)).

(** The rows of one frame: the two columns paired by position, as far as
    the shorter one goes, and of these pairs the last 10. *)
Definition frame_rows (d : frame) : list string :=
  map (frame_row (frame_name d)) (lastn 10 (combine (fr_times d) (fr_vals d))).

Lemma frames_index_loop (name : pyval) (times vals : list pyval) :
  (List.length times <= List.length vals)%nat ->
  forall n a acc,
    (a + n = List.length times)%nat ->
    Forall (fun tv => renders (fst tv) (snd tv)) (skipn a (combine times vals)) ->
    for_each (map Z.of_nat (seq a n))
      (frames_table_index utcoffset name (PList times) (PList vals)) acc
    = Return (acc ++ map (frame_row name) (skipn a (combine times vals)))%list.
Proof.
  intros L. induction n as [|n IH]; intros a acc Ha R.
  - cbn [seq map for_each].
    rewrite skipn_all2 by (rewrite length_combine; lia).
    now rewrite app_nil_r.
  - destruct (nth_error_below times a ltac:(lia)) as [t Ht].
    destruct (nth_error_below vals a ltac:(lia)) as [v Hv].
    rewrite (skipn_nth _ a (t, v) (nth_error_combine _ _ _ _ _ Ht Hv)) in R |- *.
    inversion R as [|? ? [Rt Rv] R']; subst. cbn [fst snd] in Rt, Rv.
    cbn [seq map for_each]. unfold frames_table_index at 1.
    rewrite (getitem_nth _ _ _ Ht). cbn [bind]. rewrite Rt. cbn [bind].
    rewrite (getitem_nth _ _ _ Hv). cbn [bind]. rewrite Rv. cbn [bind].
    rewrite (IH (S a)) by (lia || exact R').
    unfold append. cbn [map]. now rewrite <- app_assoc.
Qed.

Lemma frames_table_step_encoded (lines : list string) (f : pyval) (d : frame) :
  encodes_frame f d
  /\ (List.length (fr_times d) <= List.length (fr_vals d))%nat
  /\ Forall (fun tv => renders (fst tv) (snd tv))
            (lastn 10 (combine (fr_times d) (fr_vals d))) ->
  frames_table_step utcoffset lines f = Return (lines ++ frame_rows d)%list.
Proof.
  intros (E & L & R). destruct (frame_name_and_values_encoded f d E) as [more Hn].
  unfold frames_table_step. rewrite Hn. cbn [bind PyVal.length List.length].
  replace (2 <=? Z.of_nat (S (S (List.length more)))) with true
    by (symmetry; apply Z.leb_le; lia).
  rewrite getitem_0. cbn [bind]. rewrite getitem_1. cbn [bind PyVal.length].
  set (lt := List.length (fr_times d)).
  replace (Z.max 0 (Z.of_nat lt - 10)) with (Z.of_nat (lt - 10)) by lia.
  rewrite range2_nat.
  unfold lastn in R. rewrite length_combine, Nat.min_l in R by exact L.
  rewrite (frames_index_loop _ _ _ L) by (fold lt; lia || exact R).
  unfold frame_rows, lastn. now rewrite length_combine, Nat.min_l by exact L.
Qed.

(** When the values column is the shorter one, the loop over the indices of
    the timestamps runs into the end of it. *)
Lemma frames_index_loop_short (name : pyval) (times vals : list pyval) :
  (List.length vals < List.length times)%nat ->
  Forall (fun t => exists s, format_millis utcoffset t = Return s) times ->
  Forall (fun v => exists s, format_value v = Return s) vals ->
  forall n a acc,
    (a + S n = List.length times)%nat ->
    for_each (map Z.of_nat (seq a (S n)))
      (frames_table_index utcoffset name (PList times) (PList vals)) acc
    = raise IndexError "list index out of range".
Proof.
  intros L Rt Rv. induction n as [|n IH]; intros a acc Ha.
  - destruct (nth_error_below times a ltac:(lia)) as [t Ht].
    rewrite Forall_forall in Rt.
    destruct (Rt t (nth_error_In _ _ Ht)) as [s Hs].
    cbn [seq map for_each]. unfold frames_table_index.
    rewrite (getitem_nth _ _ _ Ht). cbn [bind]. rewrite Hs. cbn [bind].
    now rewrite getitem_beyond by lia.
  - destruct (nth_error_below times a ltac:(lia)) as [t Ht].
    rewrite Forall_forall in Rt.
    destruct (Rt t (nth_error_In _ _ Ht)) as [s Hs].
    change (seq a (S (S n))) with (a :: seq (S a) (S n)).
    cbn [map for_each]. unfold frames_table_index at 1.
    rewrite (getitem_nth _ _ _ Ht). cbn [bind]. rewrite Hs. cbn [bind].
    destruct (Nat.lt_ge_cases a (List.length vals)) as [Hlt|Hge].
    + destruct (nth_error_below vals a Hlt) as [v Hv].
      rewrite Forall_forall in Rv.
      destruct (Rv v (nth_error_In _ _ Hv)) as [sv Hsv].
      rewrite (getitem_nth _ _ _ Hv). cbn [bind]. rewrite Hsv. cbn [bind].
      apply IH. lia.
    + now rewrite getitem_beyond by lia.
Qed.

Lemma frames_table_step_short (lines : list string) (f : pyval) (d : frame) :
  encodes_frame f d ->
  (List.length (fr_vals d) < List.length (fr_times d))%nat ->
  Forall (fun t => exists s, format_millis utcoffset t = Return s) (fr_times d) ->
  Forall (fun v => exists s, format_value v = Return s) (fr_vals d) ->
  frames_table_step utcoffset lines f = raise IndexError "list index out of range".
Proof.
  intros E L Rt Rv. destruct (frame_name_and_values_encoded f d E) as [more Hn].
  unfold frames_table_step. rewrite Hn. cbn [bind PyVal.length List.length].
  replace (2 <=? Z.of_nat (S (S (List.length more)))) with true
    by (symmetry; apply Z.leb_le; lia).
  rewrite getitem_0. cbn [bind]. rewrite getitem_1. cbn [bind PyVal.length].
  set (lt := List.length (fr_times d)).
  replace (Z.max 0 (Z.of_nat lt - 10)) with (Z.of_nat (lt - 10)) by lia.
  rewrite range2_nat.
  destruct (lt - (lt - 10))%nat as [|n] eqn:En; [unfold lt in *; lia|].
  apply frames_index_loop_short; try assumption. fold lt. lia.
Qed.

Lemma gateway_payload_truthy (result : pyval) (a : list (string * pyval)) :
  gateway_payload result a ->
  truthy result = true /\ contains "results" result = Return true.
Proof.
  intros (top & res & -> & Hr & _). split.
  - exact (truthy_dict "results" top _ Hr).
  - cbn [contains]. now rewrite Hr.
Qed.

(** The table format of a frames payload whose every frame has at least as
    many values as timestamps. *)
Lemma frames_table_output
  (result : pyval) (a : list (string * pyval)) (frames : list pyval)
  (descs : list frame) (format_type : string) :
  gateway_payload result a ->
  lookup "frames" a = Some (PList frames) -> frames <> [] ->
  String.eqb format_type "json" = false ->
  String.eqb format_type "simple" = false ->
  Forall2 (fun f d =>
             encodes_frame f d
             /\ (List.length (fr_times d) <= List.length (fr_vals d))%nat
             /\ Forall (fun tv => renders (fst tv) (snd tv))
                       (lastn 10 (combine (fr_times d) (fr_vals d))))
          frames descs ->
  format_series_data utcoffset result format_type
  = Return (join nl (series_header ++ List.concat (map frame_rows descs))%list).
Proof.
  intros P Hf Hne Hj Hs F.
  destruct (gateway_payload_truthy result a P) as [T C].
  destruct P as (top & res & -> & Hr & Ha).
  unfold format_series_data. rewrite T, C, Hj. cbn [negb bind getitem_str].
  rewrite Hr. cbn [bind getitem_str]. rewrite Ha. cbn [bind contains getitem_str].
  rewrite Hf. cbn [bind].
  assert (Tf : truthy (PList frames) = true)
    by (destruct frames; [congruence | reflexivity]).
  rewrite Tf, Hs. cbn [negb iter bind].
  rewrite (for_each_described _ (frames_table_step utcoffset) frame_rows
             (fun acc x d H => frames_table_step_encoded acc x d H) _ _ F).
  reflexivity.
Qed.

(** The same payload with, after any number of such frames, a frame whose
    values run out before its timestamps: the formatter reports the
    [IndexError] and prints the raw payload. *)
Lemma frames_table_error
  (result : pyval) (a : list (string * pyval)) (good rest : list pyval)
  (bad : pyval) (descs : list frame) (d : frame) (format_type : string) :
  gateway_payload result a ->
  lookup "frames" a = Some (PList (good ++ bad :: rest)) ->
  String.eqb format_type "json" = false ->
  String.eqb format_type "simple" = false ->
  Forall2 (fun f d =>
             encodes_frame f d
             /\ (List.length (fr_times d) <= List.length (fr_vals d))%nat
             /\ Forall (fun tv => renders (fst tv) (snd tv))
                       (lastn 10 (combine (fr_times d) (fr_vals d))))
          good descs ->
  encodes_frame bad d ->
  (List.length (fr_vals d) < List.length (fr_times d))%nat ->
  Forall (fun t => exists s, format_millis utcoffset t = Return s) (fr_times d) ->
  Forall (fun v => exists s, format_value v = Return s) (fr_vals d) ->
  format_series_data utcoffset result format_type
  = Return ("Error formatting data: list index out of range" ++ nl
            ++ dumps_indent 0 result).
Proof.
  intros P Hf Hj Hs F E L Rt Rv.
  destruct (gateway_payload_truthy result a P) as [T C].
  destruct P as (top & res & -> & Hr & Ha).
  unfold format_series_data. rewrite T, C, Hj. cbn [negb bind getitem_str].
  rewrite Hr. cbn [bind getitem_str]. rewrite Ha. cbn [bind contains getitem_str].
  rewrite Hf. cbn [bind].
  assert (Tf : truthy (PList (good ++ bad :: rest)) = true) by now destruct good.
  rewrite Tf, Hs. cbn [negb iter bind].
  rewrite for_each_app.
  rewrite (for_each_described _ (frames_table_step utcoffset) frame_rows
             (fun acc x d H => frames_table_step_encoded acc x d H) _ _ F).
  cbn [bind for_each].
  rewrite (frames_table_step_short _ bad d E L Rt Rv).
  reflexivity.
Qed.

(** *** Legacy series *)

(** A legacy series: the name the formatter reads (the dict's "name", else
    "Series") and its points, each a (value, timestamp) pair. *)
Record legacy_series : Type := LegacySeries {
  ls_name : string;
  ls_points : list (pyval * pyval)
}.

Definition encodes_legacy (s : pyval) (d : legacy_series) : Prop :=
  exists items,
    s = PDict items
    /\ label "name" items (PStr "Series") = PStr (ls_name d)
    /\ label "points" items (PList []) = PList (map point_pair (ls_points d)).

Definition legacy_row (name : string) (vt : pyval * pyval) : string :=
  row (ymd (snd vt)) (str_slice None (Some 40) name ++ "...") (shown (fst vt)).

(** The rows of one series: its last 5 points in their order. *)
Definition legacy_rows (d : legacy_series) : list string :=
  map (legacy_row (ls_name d)) (lastn 5 (ls_points d)).

Lemma series_table_point_pair (name : string) (acc : list string) (x : pyval)
  (vt : pyval * pyval) :
  x = point_pair vt /\ renders (snd vt) (fst vt) ->
  series_table_point utcoffset (PStr name) acc x
  = Return (acc ++ [legacy_row name vt])%list.
Proof.
  intros [-> [Rt Rv]]. unfold series_table_point, point_pair.
  cbn [PyVal.length List.length Z.of_nat Pos.of_succ_nat Pos.succ bind].
  change (2 <=? 2) with true. cbv iota.
  rewrite getitem_0. cbn [bind]. rewrite getitem_1. cbn [bind].
  rewrite Rt. cbn [bind]. rewrite Rv. reflexivity.
Qed.

Lemma series_table_step_encoded (lines : list string) (s : pyval) (d : legacy_series) :
  encodes_legacy s d
  /\ Forall (fun vt => renders (snd vt) (fst vt)) (lastn 5 (ls_points d)) ->
  series_table_step utcoffset lines s = Return (lines ++ legacy_rows d)%list.
Proof.
  intros ((items & -> & Hn & Hp) & R). unfold series_table_step.
  cbn [get bind]. unfold label in Hn, Hp. rewrite Hn, Hp.
  cbn [getslice bind iter].
  rewrite (slice_last 5) by lia. change (Z.to_nat 5) with 5%nat.
  rewrite lastn_map.
  rewrite (for_each_described
             (fun x vt => x = point_pair vt /\ renders (snd vt) (fst vt))
             (series_table_point utcoffset (PStr (ls_name d)))
             (fun vt => [legacy_row (ls_name d) vt])
             (series_table_point_pair (ls_name d))
             _ _ (Forall2_map_described point_pair
                    (fun vt => renders (snd vt) (fst vt)) _ R)).
  now rewrite concat_map_singleton.
Qed.

(** The table format of a legacy series payload. *)
Lemma series_table_output
  (result : pyval) (a : list (string * pyval)) (series : list pyval)
  (descs : list legacy_series) (format_type : string) :
  gateway_payload result a ->
  lookup "frames" a = None ->
  lookup "series" a = Some (PList series) -> series <> [] ->
  String.eqb format_type "json" = false ->
  String.eqb format_type "simple" = false ->
  Forall2 encodes_legacy series descs ->
  Forall (fun d => Forall (fun vt => renders (snd vt) (fst vt))
                          (lastn 5 (ls_points d)))
         (firstn 10 descs) ->
  format_series_data utcoffset result format_type
  = Return
      (join nl
         (series_header
          ++ List.concat (map legacy_rows (firstn 10 descs))
          ++ (if 10 <? Z.of_nat (List.length series)
              then [more_series_row (Z.of_nat (List.length series) - 10)]
              else []))%list).
Proof.
  intros P Hf Hse Hne Hj Hs F R.
  destruct (gateway_payload_truthy result a P) as [T C].
  destruct P as (top & res & -> & Hr & Ha).
  unfold format_series_data. rewrite T, C, Hj. cbn [negb bind getitem_str].
  rewrite Hr. cbn [bind getitem_str]. rewrite Ha. cbn [bind contains getitem_str].
  rewrite Hf, Hse. cbn [bind].
  assert (Ts : truthy (PList series) = true)
    by (destruct series; [congruence | reflexivity]).
  rewrite Ts, Hs. cbn [negb getslice iter bind PyVal.length].
  rewrite (slice_first 10) by lia. change (Z.to_nat 10) with 10%nat.
  rewrite (for_each_described _ (series_table_step utcoffset) legacy_rows
             (fun acc x d H => series_table_step_encoded acc x d H) _ _
             (Forall2_and_right _ _ _ _ (Forall2_firstn _ 10 _ _ F) R)).
  cbn [bind]. unfold append.
  destruct (10 <? Z.of_nat (List.length series)).
  - now rewrite <- app_assoc.
  - now rewrite app_nil_r.
Qed.

End GatewayTable.

(** ** How a value is printed in the gateway tables *)

(** [s] ends in a point and exactly two decimal digits. *)
Definition two_decimals (s : string) : Prop :=
  exists whole d1 d2,
    s = whole ++ "." ++ String d1 (String d2 "")
    /\ isdecimal d1 = true /\ isdecimal d2 = true.

(** An [int], a [bool], or a float other than an infinity or a NaN. *)
Definition finite_number (v : pyval) : bool :=
  match v with
  | PInt _ | PBool _ => true
  | PFloat f => PyFloat.is_finite f
  | _ => false
  end.

Lemma pad2_digits (z : Z) :
  0 <= z < 100 ->
  exists d1 d2, PyFloat.pad2 z = String d1 (String d2 "")
                /\ isdecimal d1 = true /\ isdecimal d2 = true.
Proof.
  intros H. assert (E : exists k, (k < 100)%nat /\ z = Z.of_nat k)
    by (exists (Z.to_nat z); lia).
  destruct E as (k & Hk & ->). clear H.
  do 100 (destruct k as [|k]; [do 2 eexists; repeat split|]).
  lia.
Qed.

Lemma fixed2_two_decimals (f : float) :
  PyFloat.is_finite f = true -> two_decimals (PyFloat.fixed2 f).
Proof.
  unfold PyFloat.is_finite, PyFloat.fixed2.
  destruct (Prim2SF f) as [s|s| |s m e]; try discriminate; intros _.
  - exists ((if s then "-" else "") ++ "0"), "0"%char, "0"%char.
    split; [|split; reflexivity]. now rewrite str_app_assoc.
  - set (n := if 0 <=? e then 100 * Z.pos m * 2 ^ e
              else PyFloat.round_half_even (100 * Z.pos m) (2 ^ (- e))).
    destruct (pad2_digits (n mod 100)) as (d1 & d2 & E & H1 & H2);
      [apply Z.mod_pos_bound; lia|].
    exists ((if s then "-" else "") ++ str_of_int (n / 100)), d1, d2.
    split; [|split; assumption]. now rewrite E, str_app_assoc.
Qed.

(** A finite number is printed with two decimals; what is not a number is
    printed as [str] gives it. *)
Lemma format_value_cases (v : pyval) (s : string) :
  format_value v = Return s ->
  (finite_number v = true -> two_decimals s)
  /\ (is_number v = false -> s = str v).
Proof.
  unfold format_value. intros H. split.
  - intros Fin. destruct v as [|b|z|f|t|l|d]; try discriminate; cbn [is_number] in H.
    + cbn [format_2f] in H. inversion H.
      destruct b; [exists "1" | exists "0"]; exists "0"%char, "0"%char; repeat split.
    + cbn [format_2f] in H. unfold float_of_int in H.
      destruct (PyFloat.is_finite (PyFloat.of_int z)) eqn:E; [|discriminate].
      cbn [bind] in H. inversion H. now apply fixed2_two_decimals.
    + cbn [format_2f] in H. inversion H. now apply fixed2_two_decimals.
  - intros N. rewrite N in H. now inversion H.
Qed.

End FormatFacts.

Module TableFormat.
Import Py PyVal PyInt PyTime GrafanaQueryHelper StringFacts FormatFacts.
Local Open Scope py_scope.

(** ** Sample payloads, on a machine whose local time is UTC *)

Definition utc (_ : Z) : Z := 0.

Definition long_name : string :=
  "node-exporter-eu-west-1a-0123456789.internal.example:9100".

Definition gateway (a : list (string * pyval)) : pyval :=
  PDict [("results", PDict [("A", PDict a)])].

Definition encode_frame (d : frame) : pyval :=
  PDict (match fr_schema d with
         | Some schema => [("schema", PDict schema)]
         | None => []
         end
         ++ [("data", PDict [("values", PList [PList (fr_times d);
                                                PList (fr_vals d)])])])%list.

Definition encode_legacy (d : legacy_series) : pyval :=
  PDict [("name", PStr (ls_name d));
         ("points", PList (map point_pair (ls_points d)))].

Lemma encode_frame_encodes (d : frame) : encodes_frame (encode_frame d) d.
Proof.
  unfold encodes_frame, encode_frame.
  destruct (fr_schema d); do 3 eexists; repeat split.
Qed.

Lemma encode_legacy_encodes (ds : list legacy_series) :
  Forall2 encodes_legacy (map encode_legacy ds) ds.
Proof.
  induction ds as [|d ds IH]; cbn [map]; constructor; [|exact IH].
  eexists. repeat split.
Qed.

Lemma gateway_is_payload (a : list (string * pyval)) :
  gateway_payload (gateway a) a.
Proof. do 2 eexists. repeat split. Qed.

(** One series, three points, under each of the three shapes. *)
Definition long_native : native_series :=
  NativeSeries [("instance", PStr long_name); ("job", PStr "node")]
    [(PInt 1700000000, PStr "0.5"); (PInt 1700000015, PStr "2");
     (PInt 1700000030, PFloat 1.5)].

Definition long_frame : frame :=
  Frame (Some [("name", PStr long_name)])
    [PInt 1700000000000; PInt 1700000015000; PInt 1700000030000]
    [PFloat 0.5; PInt 2; PStr "n/a"].

Definition long_legacy : legacy_series :=
  LegacySeries long_name
    [(PFloat 0.5, PInt 1700000000000); (PInt 2, PInt 1700000015000);
     (PStr "n/a", PInt 1700000030000)].

(** What the formatter prints for a timestamp and for a value, or the empty
    string where it raises. *)
Definition text_of (r : result string) : string :=
  match r with Return s => s | Raise _ => "" end.

Definition hms_utc (ts : pyval) : string := text_of (format_seconds 4300 utc ts).
Definition ymd_utc (t : pyval) : string := text_of (format_millis utc t).
Definition shown_value (v : pyval) : string := text_of (format_value v).

(** C5, as amended.  In table mode each shape has its own rules.  Native
    envelope: for each of the first [max_series] series, its last
    [max_points] points ([max_points >= 1]) in the order of the payload, the
    value printed as it is and the name cut to 30 characters, with no
    ellipsis.  Frames: for each frame its last 10 points, in order, the name
    in full.  Legacy series: for each of the first 10 series its last 5
    points, in order, a name longer than 40 characters cut to 40 and
    followed by "...".  In the two gateway shapes a finite number is printed
    with exactly two decimals and a value that is no number as it is. *)
Theorem table_format_per_shape (max_digits : nat) (utcoffset : Z -> Z) :
  (forall hms result series descs format_type max_series max_points,
      native_envelope result series ->
      Forall2 encodes_native series descs ->
      series <> [] -> 0 <= max_series -> 0 < max_points ->
      String.eqb format_type "json" = false ->
      String.eqb format_type "simple" = false ->
      Forall (fun d => Forall (renders_seconds max_digits utcoffset hms)
                         (lastn (Z.to_nat max_points) (ns_points d)))
             (firstn (Z.to_nat max_series) descs) ->
      format_prometheus_result max_digits utcoffset result format_type
        max_series max_points
      = Return
          (join nl
             (native_header
              ++ List.concat (map (native_rows hms (Z.to_nat max_points))
                                (firstn (Z.to_nat max_series) descs))
              ++ (if max_series <? Z.of_nat (List.length series)
                  then [more_series_row
                          (Z.of_nat (List.length series) - max_series)]
                  else []))%list))
  /\ (forall ymd shown result a frames descs format_type,
         gateway_payload result a ->
         lookup "frames" a = Some (PList frames) -> frames <> [] ->
         String.eqb format_type "json" = false ->
         String.eqb format_type "simple" = false ->
         Forall2 (fun f d =>
                    encodes_frame f d
                    /\ (List.length (fr_times d) <= List.length (fr_vals d))%nat
                    /\ Forall (fun tv => renders utcoffset ymd shown (fst tv) (snd tv))
                              (lastn 10 (combine (fr_times d) (fr_vals d))))
                 frames descs ->
         format_series_data utcoffset result format_type
         = Return (join nl (series_header
                            ++ List.concat (map (frame_rows ymd shown) descs))%list))
  /\ (forall ymd shown result a series descs format_type,
         gateway_payload result a ->
         lookup "frames" a = None ->
         lookup "series" a = Some (PList series) -> series <> [] ->
         String.eqb format_type "json" = false ->
         String.eqb format_type "simple" = false ->
         Forall2 encodes_legacy series descs ->
         Forall (fun d => (40 < String.length (ls_name d))%nat) (firstn 10 descs) ->
         Forall (fun d => Forall (fun vt => renders utcoffset ymd shown (snd vt) (fst vt))
                                 (lastn 5 (ls_points d)))
                (firstn 10 descs) ->
         format_series_data utcoffset result format_type
         = Return
             (join nl
                (series_header
                 ++ List.concat (map (legacy_rows ymd shown) (firstn 10 descs))
                 ++ (if 10 <? Z.of_nat (List.length series)
                     then [more_series_row (Z.of_nat (List.length series) - 10)]
                     else []))%list))
  /\ (forall v s,
         format_value v = Return s ->
         (finite_number v = true -> two_decimals s)
         /\ (is_number v = false -> s = str v)).
Proof.
  split; [|split; [|split]].
  - intros. now apply native_table_output.
  - intros ymd shown r a frames descs format_type P Hf Hne Hj Hsi F.
    now apply (frames_table_output utcoffset ymd shown r a frames).
  - intros ymd shown r a series descs format_type P Hf Hs Hne Hj Hsi F _ R.
    now apply (series_table_output utcoffset ymd shown r a series).
  - apply format_value_cases.
Qed.

Lemma table_format_per_shape_witness :
  format_prometheus_result 4300 utc (envelope [encode_native long_native])
    "table" 20 2
  = Return ("| Time | Metric | Value |" ++ nl
            ++ "|------|--------|-------|" ++ nl
            ++ "| 22:13:35 | node/node-exporter-eu-west-1a- | 2 |" ++ nl
            ++ "| 22:13:50 | node/node-exporter-eu-west-1a- | 1.5 |")
  /\ format_series_data utc (gateway [("frames", PList [encode_frame long_frame])])
       "table"
     = Return ("| Time | Series | Value |" ++ nl
               ++ "|------|--------|-------|" ++ nl
               ++ "| 2023-11-14 22:13:20 | " ++ long_name ++ " | 0.50 |" ++ nl
               ++ "| 2023-11-14 22:13:35 | " ++ long_name ++ " | 2.00 |" ++ nl
               ++ "| 2023-11-14 22:13:50 | " ++ long_name ++ " | n/a |")
  /\ format_series_data utc (gateway [("series", PList [encode_legacy long_legacy])])
       "table"
     = Return ("| Time | Series | Value |" ++ nl
               ++ "|------|--------|-------|" ++ nl
               ++ "| 2023-11-14 22:13:20 | node-exporter-eu-west-1a-0123456789.inte... | 0.50 |"
               ++ nl
               ++ "| 2023-11-14 22:13:35 | node-exporter-eu-west-1a-0123456789.inte... | 2.00 |"
               ++ nl
               ++ "| 2023-11-14 22:13:50 | node-exporter-eu-west-1a-0123456789.inte... | n/a |")
  /\ two_decimals (shown_value (PFloat 0.5)).
Proof.
  destruct (table_format_per_shape 4300 utc) as (N & F & S & V).
  split; [|split; [|split]].
  - rewrite (N hms_utc (envelope [encode_native long_native])
               [encode_native long_native] [long_native] "table" 20 2).
    + reflexivity.
    + apply envelope_is_native.
    + apply (encode_native_encodes [long_native]).
    + discriminate.
    + lia.
    + lia.
    + reflexivity.
    + reflexivity.
    + repeat constructor.
  - rewrite (F ymd_utc shown_value
               (gateway [("frames", PList [encode_frame long_frame])])
               [("frames", PList [encode_frame long_frame])]
               [encode_frame long_frame] [long_frame] "table").
    + reflexivity.
    + apply gateway_is_payload.
    + reflexivity.
    + discriminate.
    + reflexivity.
    + reflexivity.
    + constructor; [|constructor]. split; [apply encode_frame_encodes|].
      split; [simpl; lia|]. repeat constructor.
  - rewrite (S ymd_utc shown_value
               (gateway [("series", PList [encode_legacy long_legacy])])
               [("series", PList [encode_legacy long_legacy])]
               [encode_legacy long_legacy] [long_legacy] "table").
    + reflexivity.
    + apply gateway_is_payload.
    + reflexivity.
    + reflexivity.
    + discriminate.
    + reflexivity.
    + reflexivity.
    + apply (encode_legacy_encodes [long_legacy]).
    + constructor; [simpl; lia | constructor].
    + repeat constructor.
  - apply (V (PFloat 0.5) (shown_value (PFloat 0.5))); reflexivity.
Defined.

(** C5 as stated fails: the three shapes are not formatted alike.  A frame's
    name of 57 characters is printed in full; the native name is cut to 30
    characters with no ellipsis and a numeric native value is printed as it
    is; the frames of a payload are given their last 10 points whatever
    [max_points] is; and with [max_points = 0] every point of a native
    series is printed. *)
Lemma table_format_differs_by_shape :
  format_series_data utc (gateway [("frames", PList [encode_frame long_frame])])
    "table"
  = Return ("| Time | Series | Value |" ++ nl
            ++ "|------|--------|-------|" ++ nl
            ++ "| 2023-11-14 22:13:20 | " ++ long_name ++ " | 0.50 |" ++ nl
            ++ "| 2023-11-14 22:13:35 | " ++ long_name ++ " | 2.00 |" ++ nl
            ++ "| 2023-11-14 22:13:50 | " ++ long_name ++ " | n/a |")
  /\ format_prometheus_result 4300 utc (envelope [encode_native long_native])
       "table" 20 1
     = Return ("| Time | Metric | Value |" ++ nl
               ++ "|------|--------|-------|" ++ nl
               ++ "| 22:13:50 | node/node-exporter-eu-west-1a- | 1.5 |")
  /\ format_prometheus_result 4300 utc
       (gateway [("frames", PList [encode_frame long_frame])]) "table" 20 1
     = format_series_data utc (gateway [("frames", PList [encode_frame long_frame])])
         "table"
  /\ format_prometheus_result 4300 utc (envelope [encode_native long_native])
       "table" 20 0
     = Return ("| Time | Metric | Value |" ++ nl
               ++ "|------|--------|-------|" ++ nl
               ++ "| 22:13:20 | node/node-exporter-eu-west-1a- | 0.5 |" ++ nl
               ++ "| 22:13:35 | node/node-exporter-eu-west-1a- | 2 |" ++ nl
               ++ "| 22:13:50 | node/node-exporter-eu-west-1a- | 1.5 |").
Proof. repeat split. Qed.

(** ** Frames whose two columns differ in length *)

(** Two timestamps and three values; two timestamps and one value. *)
Definition long_values : frame :=
  Frame None [PInt 1700000000000; PInt 1700000015000]
    [PFloat 0.5; PInt 2; PInt 7].

Definition short_values : frame :=
  Frame None [PInt 1700000000000; PInt 1700000015000] [PFloat 0.5].

(** C7, as amended.  In table mode a frame's rows pair timestamps and values
    by position over the indices of the timestamps.  When the values column
    is at least as long as the timestamps column, the values beyond it are
    left out and nothing fails.  When the values column is the shorter one,
    the formatter does not raise, and prints no row: it returns the text
    "Error formatting data: list index out of range" followed by the raw
    payload.  A frame with no schema, or whose schema declares no name, is
    given the name "Series". *)
Theorem frames_columns_of_different_lengths (utcoffset : Z -> Z) :
  (forall ymd shown r a frames descs format_type,
      gateway_payload r a ->
      lookup "frames" a = Some (PList frames) -> frames <> [] ->
      String.eqb format_type "json" = false ->
      String.eqb format_type "simple" = false ->
      Forall2 (fun f d =>
                 encodes_frame f d
                 /\ (List.length (fr_times d) <= List.length (fr_vals d))%nat
                 /\ Forall (fun tv => renders utcoffset ymd shown (fst tv) (snd tv))
                           (lastn 10 (combine (fr_times d) (fr_vals d))))
              frames descs ->
      format_series_data utcoffset r format_type
      = Return (join nl (series_header
                         ++ List.concat (map (frame_rows ymd shown) descs))%list))
  /\ (forall ymd shown r a good rest bad descs d format_type,
         gateway_payload r a ->
         lookup "frames" a = Some (PList (good ++ bad :: rest)) ->
         String.eqb format_type "json" = false ->
         String.eqb format_type "simple" = false ->
         Forall2 (fun f d =>
                    encodes_frame f d
                    /\ (List.length (fr_times d) <= List.length (fr_vals d))%nat
                    /\ Forall (fun tv => renders utcoffset ymd shown (fst tv) (snd tv))
                              (lastn 10 (combine (fr_times d) (fr_vals d))))
                 good descs ->
         encodes_frame bad d ->
         (List.length (fr_vals d) < List.length (fr_times d))%nat ->
         Forall (fun t => exists s, format_millis utcoffset t = Return s) (fr_times d) ->
         Forall (fun v => exists s, format_value v = Return s) (fr_vals d) ->
         format_series_data utcoffset r format_type
         = Return ("Error formatting data: list index out of range" ++ nl
                   ++ dumps_indent 0 r))
  /\ (forall d,
         fr_schema d = None
         \/ (exists schema, fr_schema d = Some schema /\ lookup "name" schema = None) ->
         frame_name d = PStr "Series").
Proof.
  split; [|split].
  - intros ymd shown r a frames descs format_type P Hf Hne Hj Hsi F.
    now apply (frames_table_output utcoffset ymd shown r a frames).
  - intros ymd shown r a good rest bad descs d format_type P Hf Hj Hsi F E L Rt Rv.
    now apply (frames_table_error utcoffset ymd shown r a good rest bad descs d).
  - intros d [H|(schema & H & N)]; unfold frame_name, label; rewrite H;
      [reflexivity | now rewrite N].
Qed.

Lemma frames_columns_of_different_lengths_witness :
  format_series_data utc (gateway [("frames", PList [encode_frame long_values])])
    "table"
  = Return ("| Time | Series | Value |" ++ nl
            ++ "|------|--------|-------|" ++ nl
            ++ "| 2023-11-14 22:13:20 | Series | 0.50 |" ++ nl
            ++ "| 2023-11-14 22:13:35 | Series | 2.00 |")
  /\ format_series_data utc
       (gateway [("frames", PList [encode_frame long_values;
                                   encode_frame short_values])]) "table"
     = Return ("Error formatting data: list index out of range" ++ nl
               ++ dumps_indent 0
                    (gateway [("frames", PList [encode_frame long_values;
                                                encode_frame short_values])]))
  /\ frame_name short_values = PStr "Series".
Proof.
  destruct (frames_columns_of_different_lengths utc) as (A & B & C).
  assert (G : encodes_frame (encode_frame long_values) long_values
              /\ (List.length (fr_times long_values)
                  <= List.length (fr_vals long_values))%nat
              /\ Forall (fun tv => renders utc ymd_utc shown_value (fst tv) (snd tv))
                        (lastn 10 (combine (fr_times long_values)
                                     (fr_vals long_values)))).
  { split; [apply encode_frame_encodes|]. split; [simpl; lia|].
    repeat constructor. }
  split; [|split].
  - rewrite (A ymd_utc shown_value
               (gateway [("frames", PList [encode_frame long_values])])
               [("frames", PList [encode_frame long_values])]
               [encode_frame long_values] [long_values] "table").
    + reflexivity.
    + apply gateway_is_payload.
    + reflexivity.
    + discriminate.
    + reflexivity.
    + reflexivity.
    + constructor; [exact G | constructor].
  - apply (B ymd_utc shown_value _
             [("frames", PList [encode_frame long_values; encode_frame short_values])]
             [encode_frame long_values] [] (encode_frame short_values)
             [long_values] short_values "table").
    + apply gateway_is_payload.
    + reflexivity.
    + reflexivity.
    + reflexivity.
    + constructor; [exact G | constructor].
    + apply encode_frame_encodes.
    + simpl. lia.
    + repeat (apply Forall_cons; [eexists; vm_compute; reflexivity|]).
      apply Forall_nil.
    + repeat (apply Forall_cons; [eexists; vm_compute; reflexivity|]).
      apply Forall_nil.
  - apply C. now left.
Defined.

(** C7 as stated fails: for a frame with two timestamps and one value the
    formatter pairs nothing; it returns the error text and the raw
    payload. *)
Lemma frames_short_values_column_fails :
  format_series_data utc (gateway [("frames", PList [encode_frame short_values])])
    "table"
  = Return ("Error formatting data: list index out of range" ++ nl
            ++ "{" ++ nl
            ++ "  " ++ json_str "results" ++ ": {" ++ nl
            ++ "    " ++ json_str "A" ++ ": {" ++ nl
            ++ "      " ++ json_str "frames" ++ ": [" ++ nl
            ++ "        {" ++ nl
            ++ "          " ++ json_str "data" ++ ": {" ++ nl
            ++ "            " ++ json_str "values" ++ ": [" ++ nl
            ++ "              [" ++ nl
            ++ "                1700000000000," ++ nl
            ++ "                1700000015000" ++ nl
            ++ "              ]," ++ nl
            ++ "              [" ++ nl
            ++ "                0.5" ++ nl
            ++ "              ]" ++ nl
            ++ "            ]" ++ nl
            ++ "          }" ++ nl
            ++ "        }" ++ nl
            ++ "      ]" ++ nl
            ++ "    }" ++ nl
            ++ "  }" ++ nl
            ++ "}").
Proof. reflexivity. Qed.

End TableFormat.

Module Shapes.
Import Py PyVal PyInt PyTime GrafanaQueryHelper StringFacts FormatFacts TableFormat.
Local Open Scope py_scope.

(** ** Payloads of no recognised shape *)







Section Unrecognised.

Variable max_digits : nat.
Variable utcoffset : Z -> Z.




End Unrecognised.




End Shapes.

(** * Part IV: further properties of the helper *)

(** ** The configured names *)

Module Catalogue.
Import Py PyVal Net GrafanaQueryHelper.

Lemma lookup_none_iff {A : Type} (k : string) (items : list (string * A)) :
  lookup k items = None <-> ~ In k (keys items).
Proof.
  induction items as [|[k' v] rest IH]; cbn.
  - tauto.
  - destruct (String.eqb k k') eqn:E.
    + apply String.eqb_eq in E. subst k'.
      split; [discriminate | intros H; exfalso; apply H; now left].
    + apply String.eqb_neq in E. rewrite IH.
      split; intros H; [intros [H1 | H1]; [congruence | tauto] | tauto].
Qed.

Lemma lookup_some_iff {A : Type} (k : string) (items : list (string * A)) :
  In k (keys items) <-> exists v, lookup k items = Some v.
Proof.
  destruct (lookup k items) as [v|] eqn:E.
  - split; [intros _; now exists v|].
    intros _. destruct (in_dec string_dec k (keys items)) as [H | H]; [exact H|].
    apply lookup_none_iff in H. congruence.
  - split; [|intros [v H]; discriminate].
    intros H. apply lookup_none_iff in E. contradiction.
Qed.

(** X1. [list_datasources] returns exactly the names [get_datasource_uid]
    accepts: for a name it does not list, [get_datasource_uid] raises the
    [KeyError] whose text names the datasource and lists, in the order of
    [list_datasources], the names there are; for a name it lists, the result
    is the lookup of ["uid"] in that name's entry, never the not-found
    error. *)
Theorem list_datasources_are_the_known_names (self : helper) (name : string) :
  (~ In name (list_datasources self) <->
     get_datasource_uid self name
     = raise KeyError
         ("Datasource '" ++ name ++ "' not found." ++ nl
          ++ "Available datasources: " ++ join ", " (list_datasources self)))
  /\ (In name (list_datasources self) <->
        exists entry,
          lookup name (datasources self) = Some entry
          /\ get_datasource_uid self name = getitem_str entry "uid").
Proof.
  unfold list_datasources, get_datasource_uid. split.
  - split.
    + intros H. apply lookup_none_iff in H. now rewrite H.
    + intros H. apply lookup_none_iff.
      destruct (lookup name (datasources self)) as [entry|]; [|reflexivity].
      exfalso. unfold getitem_str, raise in H.
      destruct entry as [| | | | |l|d]; try discriminate.
      destruct (lookup "uid" d); discriminate.
  - rewrite lookup_some_iff. split.
    + intros [entry H]. exists entry. now rewrite H.
    + intros [entry [H _]]. now exists entry.
Qed.

End Catalogue.

(** ** Durations and ranges *)

Module RangeFacts.
Import Py PyVal PyInt Net GrafanaQueryHelper StringFacts IntFacts TimeRanges.
Local Open Scope py_scope.

Lemma lstrip_head (s : string) :
  lstrip s = "" \/ exists c t, lstrip s = String c t /\ isspace c = false.
Proof.
  induction s as [|c s IH]; cbn; [now left|].
  destruct (isspace c) eqn:E; [exact IH|].
  right. now exists c, s.
Qed.

Lemma rstrip_idempotent (s : string) : rstrip (rstrip s) = rstrip s.
Proof.
  induction s as [|c s IH]; cbn; [reflexivity|].
  destruct (rstrip s) as [|d r] eqn:E.
  - destruct (isspace c) eqn:Ec; cbn; [reflexivity|]. now rewrite Ec.
  - change (rstrip (String c (String d r)))
      with (match rstrip (String d r) with
            | EmptyString => if isspace c then EmptyString else String c EmptyString
            | r' => String c r'
            end).
    now rewrite IH.
Qed.

Lemma strip_idempotent (s : string) : strip (strip s) = strip s.
Proof.
  unfold strip at 2 3.
  destruct (lstrip_head s) as [H | [c [t [H Hc]]]]; rewrite H; [reflexivity|].
  rewrite (rstrip_cons_nonspace c t Hc).
  unfold strip. rewrite (lstrip_nonspace c (rstrip t) Hc).
  rewrite (rstrip_cons_nonspace c (rstrip t) Hc).
  now rewrite rstrip_idempotent.
Qed.

(** X2. Leading and trailing whitespace never changes what
    [_parse_duration_to_seconds] does: on every string it gives the value,
    or raises the exception, it gives on the stripped string. *)
Theorem parse_duration_ignores_outer_whitespace (max_digits : nat) (duration : string) :
  _parse_duration_to_seconds max_digits (strip duration)
  = _parse_duration_to_seconds max_digits duration.
Proof.
  unfold _parse_duration_to_seconds. now rewrite strip_idempotent.
Qed.

Lemma int_of_str_signed (max_digits : nat) (sign : ascii) (ds : string) :
  sign = "-"%char \/ sign = "+"%char ->
  is_digits ds = true -> within_limit max_digits ds ->
  int_of_str max_digits (String sign ds)
  = Return (if Ascii.eqb sign "-" then - decimal_value ds else decimal_value ds).
Proof.
  intros Hs Hd Hl. destruct (is_digits_inv ds Hd) as [Hne Hall].
  unfold int_of_str.
  assert (St : strip (String sign ds) = String sign ds).
  { apply strip_all_nonspace. cbn.
    assert (isspace sign = false) as -> by (destruct Hs; subst; reflexivity).
    cbn. rewrite forallb_forall in *. intros c Hc.
    now rewrite (decimal_not_space c (Hall c Hc)). }
  rewrite St.
  assert (Sc : scan_digits true 0 0 (chars ds)
               = Some (decimal_value ds, String.length ds)).
  { rewrite (scan_digits_all (chars ds) Hall true 0 0%nat).
    - now rewrite length_chars.
    - left. destruct ds; [now elim Hne | discriminate]. }
  assert (Lim : negb (Nat.eqb max_digits 0) && Nat.ltb max_digits (String.length ds)
                = false).
  { destruct Hl as [-> | Hl]; [reflexivity|].
    apply andb_false_iff. right. apply Nat.ltb_ge. exact Hl. }
  destruct Hs; subst sign; cbn [Ascii.eqb Bool.eqb]; cbv iota;
    rewrite Sc, Lim; reflexivity.
Qed.

(** X3. The count of a duration may carry a sign: for a non-empty string of
    decimal digits [ds] (within the interpreter's digit limit) and a unit
    letter, ["-" ++ ds ++ unit] is the negated product and
    ["+" ++ ds ++ unit] the product; negative durations are not rejected. *)
Theorem parse_duration_signed (max_digits : nat) (ds : string) (u : ascii) (secs : Z) :
  is_digits ds = true -> within_limit max_digits ds ->
  unit_seconds u = Some secs ->
  _parse_duration_to_seconds max_digits (String "-" (ds ++ String u ""))
  = Return (- decimal_value ds * secs)
  /\ _parse_duration_to_seconds max_digits (String "+" (ds ++ String u ""))
     = Return (decimal_value ds * secs).
Proof.
  intros Hd Hl Hu.
  assert (G : forall sign, sign = "-"%char \/ sign = "+"%char ->
            _parse_duration_to_seconds max_digits (String sign (ds ++ String u ""))
            = Return ((if Ascii.eqb sign "-" then - decimal_value ds
                       else decimal_value ds) * secs)).
  { intros sign Hs. unfold _parse_duration_to_seconds.
    destruct (is_digits_inv ds Hd) as [_ Hall].
    assert (St : strip (String sign (ds ++ String u ""))
                 = String sign (ds ++ String u "")).
    { apply strip_all_nonspace. cbn.
      assert (isspace sign = false) as -> by (destruct Hs; subst; reflexivity).
      cbn. rewrite chars_app, forallb_app. apply andb_true_iff. split.
      - rewrite forallb_forall in *. intros c Hc.
        now rewrite (decimal_not_space c (Hall c Hc)).
      - cbn. now rewrite (unit_not_space u secs Hu). }
    rewrite St.
    change (String sign (ds ++ String u "")) with (String sign ds ++ String u "").
    rewrite str_getitem_last. cbn [bind].
    rewrite lookup_duration_units, Hu, str_slice_butlast.
    now rewrite (int_of_str_signed max_digits sign ds Hs Hd Hl). }
  split.
  - now rewrite (G "-"%char (or_introl eq_refl)).
  - now rewrite (G "+"%char (or_intror eq_refl)).
Qed.

Lemma parse_duration_signed_witness :
  _parse_duration_to_seconds 4300 "-15m" = Return (-900)
  /\ _parse_duration_to_seconds 4300 "+15m" = Return 900.
Proof.
  apply (parse_duration_signed 4300 "15" "m" 60); [reflexivity | | reflexivity].
  right. cbn. lia.
Defined.

(** X4. Whatever [_parse_time_range] returns has ["now"] as its end and a
    start that begins with ["now-"]: the function only ever produces ranges
    relative to the present. *)
Theorem parse_time_range_is_relative_to_now (time_range from_ to : string) :
  _parse_time_range time_range = Return (from_, to) ->
  to = "now" /\ startswith "now-" from_ = true.
Proof.
  unfold _parse_time_range.
  destruct (startswith "now" time_range).
  - intros H. injection H as <- <-. split; [reflexivity|].
    cbn. now destruct (str_slice (Some 3) None time_range).
  - destruct (str_getitem (strip time_range) (-1)) as [last|e]; cbn [bind];
      [|discriminate].
    match goal with |- context [lookup last ?units] => destruct (lookup last units) end;
      intros H; injection H as <- <-; split; try reflexivity.
    cbn. now destruct (strip time_range).
Qed.

Lemma parse_time_range_is_relative_to_now_witness :
  _parse_time_range " 7d " = Return ("now-7d", "now")
  /\ "now" = "now" /\ startswith "now-" "now-7d" = true.
Proof.
  split; [reflexivity|].
  apply (parse_time_range_is_relative_to_now " 7d " "now-7d" "now"). reflexivity.
Defined.

(** X5. A range that does not start with ["now"] and whose stripped text
    ends in a unit letter is passed on as ["now-" ++ stripped text]: the
    surrounding whitespace is dropped, and what stands before the unit
    letter is not checked to be a number. *)
Theorem parse_time_range_keeps_text_before_unit (time_range p : string) (u : ascii) :
  startswith "now" time_range = false ->
  strip time_range = p ++ String u "" -> is_unit u = true ->
  _parse_time_range time_range = Return ("now-" ++ p ++ String u "", "now").
Proof.
  intros Hn Hs Hu. unfold _parse_time_range. rewrite Hn, Hs.
  rewrite str_getitem_last. cbn [bind].
  rewrite lookup_range_units, Hu.
  unfold is_unit, unit_seconds in Hu.
  cbn [lookup]. rewrite !eqb_single.
  destruct (Ascii.eqb u "s"); [reflexivity|].
  destruct (Ascii.eqb u "m"); [reflexivity|].
  destruct (Ascii.eqb u "h"); [reflexivity|].
  destruct (Ascii.eqb u "d"); [reflexivity|].
  destruct (Ascii.eqb u "w"); [reflexivity | discriminate].
Qed.

Lemma parse_time_range_keeps_text_before_unit_witness :
  _parse_time_range " last 2 hours " = Return ("now-last 2 hours", "now").
Proof.
  apply (parse_time_range_keeps_text_before_unit " last 2 hours " "last 2 hour" "s");
    reflexivity.
Defined.

End RangeFacts.

(** ** The window [query] asks for *)

Module Windows.
Import Py PyVal PyInt Net GrafanaQueryHelper StringFacts IntFacts Dispatch.
Local Open Scope py_scope.

Section Query.

Variable max_digits : nat.
Variables fromisoformat_timestamp strptime_timestamp : string -> option Z.

Let query_ := query max_digits fromisoformat_timestamp strptime_timestamp.
Let absolute_ :=
  _parse_absolute_time max_digits fromisoformat_timestamp strptime_timestamp.

(** [not (start_time and end_time)]: one of the two is missing or empty. *)
Definition lacks_a_bound (start_time end_time : option string) : Prop :=
  start_time = None \/ start_time = Some "" \/ end_time = None \/ end_time = Some "".

Lemma given_nonempty (s : string) : s <> "" -> given (Some s) = Some s.
Proof.
  intros H. unfold given. destruct (String.eqb s "") eqn:E; [|reflexivity].
  apply String.eqb_eq in E. contradiction.
Qed.

Lemma lacks_a_bound_given (start_time end_time : option string) :
  lacks_a_bound start_time end_time ->
  given start_time = None \/ given end_time = None.
Proof. intros [-> | [-> | [-> | ->]]]; cbn; tauto. Qed.

Lemma query_relative (self : helper) (name q time_range : string)
  (start_time end_time : option string) (step M : Z) (w : World) :
  lacks_a_bound start_time end_time ->
  query_ self name q time_range start_time end_time step M w
  = match _parse_duration_to_seconds max_digits time_range with
    | Return d => query_prometheus_direct self name q (clock w - d) (clock w) step M w
    | Raise e => (Raise e, w)
    end.
Proof.
  intros H. apply lacks_a_bound_given in H. unfold query_, query.
  assert (G : (now_ <~ now ;;
               duration_seconds <~ lift (_parse_duration_to_seconds max_digits time_range) ;;
               query_prometheus_direct self name q (now_ - duration_seconds) now_
                 step M) w
              = match _parse_duration_to_seconds max_digits time_range with
                | Return d =>
                    query_prometheus_direct self name q (clock w - d) (clock w) step M w
                | Raise e => (Raise e, w)
                end).
  { unfold io_bind, now, lift.
    now destruct (_parse_duration_to_seconds max_digits time_range). }
  destruct H as [H | H]; rewrite H.
  - exact G.
  - destruct (given start_time); exact G.
Qed.

Lemma query_absolute (self : helper) (name q time_range a b : string)
  (step M : Z) (w : World) :
  a <> "" -> b <> "" ->
  query_ self name q time_range (Some a) (Some b) step M w
  = match absolute_ a with
    | Return s =>
        match absolute_ b with
        | Return e => query_prometheus_direct self name q s e step M w
        | Raise err => (Raise err, w)
        end
    | Raise err => (Raise err, w)
    end.
Proof.
  intros Ha Hb. unfold query_, query, absolute_.
  rewrite (given_nonempty a Ha), (given_nonempty b Hb).
  unfold io_bind, lift.
  destruct (_parse_absolute_time _ _ _ a); [|reflexivity].
  now destruct (_parse_absolute_time _ _ _ b).
Qed.

Lemma is_digits_isdigit (ds : string) : is_digits ds = true -> isdigit ds = true.
Proof.
  unfold is_digits, isdigit. intros H. apply andb_true_iff in H as [H1 H2].
  rewrite H1. cbn. rewrite forallb_forall in *. intros c Hc.
  unfold isdigit_char. now rewrite (H2 c Hc).
Qed.

Lemma parse_absolute_time_digits (ds : string) :
  is_digits ds = true -> within_limit max_digits ds ->
  absolute_ ds = Return (decimal_value ds).
Proof.
  intros Hd Hl. unfold absolute_, _parse_absolute_time.
  rewrite (is_digits_isdigit ds Hd). now apply int_of_str_digits.
Qed.

(** X6. When [start_time] or [end_time] is missing or empty, [query] reads
    the clock once and asks the direct API for the window that ends now and
    starts the parsed duration earlier; the bound that was given is
    ignored. *)
Theorem query_relative_window (self : helper) (name q time_range : string)
  (start_time end_time : option string) (step M d : Z) (w : World) :
  lacks_a_bound start_time end_time ->
  _parse_duration_to_seconds max_digits time_range = Return d ->
  query max_digits fromisoformat_timestamp strptime_timestamp
    self name q time_range start_time end_time step M w
  = query_prometheus_direct self name q (clock w - d) (clock w) step M w.
Proof.
  intros H Hd. fold query_. rewrite (query_relative _ _ _ _ _ _ _ _ _ H).
  now rewrite Hd.
Qed.

(** X7. Two bounds written as Unix timestamps (non-empty strings of decimal
    digits within the interpreter's digit limit) go to the direct API as
    those integers: [time_range] is not read, and the two are not compared,
    so a start after the end is sent as it is. *)
Theorem query_absolute_timestamps (self : helper) (name q time_range a b : string)
  (step M : Z) (w : World) :
  is_digits a = true -> within_limit max_digits a ->
  is_digits b = true -> within_limit max_digits b ->
  query max_digits fromisoformat_timestamp strptime_timestamp
    self name q time_range (Some a) (Some b) step M w
  = query_prometheus_direct self name q (decimal_value a) (decimal_value b)
      step M w.
Proof.
  intros Ha La Hb Lb. fold query_.
  destruct (is_digits_inv a Ha) as [Na _]. destruct (is_digits_inv b Hb) as [Nb _].
  rewrite (query_absolute _ _ _ _ _ _ _ _ _ Na Nb).
  now rewrite (parse_absolute_time_digits a Ha La),
              (parse_absolute_time_digits b Hb Lb).
Qed.

(** X8. A time argument that cannot be parsed makes [query] raise the
    parser's exception before anything is sent: the world is left as it
    was, and the error comes before the datasource is looked up. *)
Theorem query_parse_errors_send_nothing (self : helper) (name q time_range : string)
  (step M : Z) (w : World) :
  (forall start_time end_time err,
      lacks_a_bound start_time end_time ->
      _parse_duration_to_seconds max_digits time_range = Raise err ->
      query max_digits fromisoformat_timestamp strptime_timestamp
        self name q time_range start_time end_time step M w
      = (Raise err, w))
  /\ (forall a b err,
         a <> "" -> b <> "" ->
         _parse_absolute_time max_digits fromisoformat_timestamp strptime_timestamp a
         = Raise err ->
         query max_digits fromisoformat_timestamp strptime_timestamp
           self name q time_range (Some a) (Some b) step M w
         = (Raise err, w))
  /\ (forall a b ts err,
         a <> "" -> b <> "" ->
         _parse_absolute_time max_digits fromisoformat_timestamp strptime_timestamp a
         = Return ts ->
         _parse_absolute_time max_digits fromisoformat_timestamp strptime_timestamp b
         = Raise err ->
         query max_digits fromisoformat_timestamp strptime_timestamp
           self name q time_range (Some a) (Some b) step M w
         = (Raise err, w)).
Proof.
  fold query_ absolute_. repeat split.
  - intros s e err H Hd. rewrite (query_relative _ _ _ _ _ _ _ _ _ H). now rewrite Hd.
  - intros a b err Ha Hb H. rewrite (query_absolute _ _ _ _ _ _ _ _ _ Ha Hb).
    now rewrite H.
  - intros a b ts err Ha Hb H1 H2. rewrite (query_absolute _ _ _ _ _ _ _ _ _ Ha Hb).
    now rewrite H1, H2.
Qed.



End Query.

Definition no_date_parser (_ : string) : option Z := None.

Lemma query_relative_window_witness :
  query 4300 no_date_parser no_date_parser one_datasource "Prometheus 1" "up"
    "2h" (Some "1769598000") None 15 3 (fresh third_time_lucky)
  = query_prometheus_direct one_datasource "Prometheus 1" "up"
      (1700000000 - 7200) 1700000000 15 3 (fresh third_time_lucky).
Proof.
  apply (query_relative_window 4300 no_date_parser no_date_parser one_datasource
           "Prometheus 1" "up" "2h" (Some "1769598000") None 15 3 7200
           (fresh third_time_lucky)).
  - right. right. left. reflexivity.
  - reflexivity.
Defined.

Lemma query_absolute_timestamps_witness :
  query 4300 no_date_parser no_date_parser one_datasource "Prometheus 1" "up"
    "not a range" (Some "1769599800") (Some "1769598000") 15 3
    (fresh third_time_lucky)
  = query_prometheus_direct one_datasource "Prometheus 1" "up"
      1769599800 1769598000 15 3 (fresh third_time_lucky).
Proof.
  apply (query_absolute_timestamps 4300 no_date_parser no_date_parser one_datasource
           "Prometheus 1" "up" "not a range" "1769599800" "1769598000" 15 3
           (fresh third_time_lucky));
    try reflexivity; right; cbn; lia.
Defined.

Lemma query_parse_errors_send_nothing_witness :
  query 4300 no_date_parser no_date_parser one_datasource "Missing" "up"
    "soon" None None 15 3 (fresh third_time_lucky)
  = (raise ValueError (invalid_literal "soon"), fresh third_time_lucky)
  /\ query 4300 no_date_parser no_date_parser one_datasource "Missing" "up"
       "1h" (Some "1769598000") (Some "tomorrow") 15 3 (fresh third_time_lucky)
     = (raise ValueError
          ("Cannot parse time string: tomorrow" ++ nl
           ++ "Supported formats: Unix timestamp, 'YYYY-MM-DD HH:MM:SS', or ISO format"),
        fresh third_time_lucky).
Proof.
  destruct (query_parse_errors_send_nothing 4300 no_date_parser no_date_parser
              one_datasource "Missing" "up" "soon" 15 3 (fresh third_time_lucky))
    as [R _].
  destruct (query_parse_errors_send_nothing 4300 no_date_parser no_date_parser
              one_datasource "Missing" "up" "1h" 15 3 (fresh third_time_lucky))
    as [_ [_ A]].
  split.
  - apply R; [left; reflexivity | reflexivity].
  - apply (A "1769598000" "tomorrow" 1769598000); try discriminate; reflexivity.
Defined.


End Windows.

(** ** The retry loop against an arbitrary server *)

Module Attempts.
Import Py PyVal PyInt Net GrafanaQueryHelper Dispatch.
Local Open Scope py_scope.

(** What the loop makes of the answer it stops at. *)
Definition final_result (r : Response) : result pyval :=
  match r with
  | Ok2xx loaded => loaded
  | HTTPError code reason (Some NotUtf8) =>
      raise UnicodeDecodeError "'utf-8' codec can't decode bytes"
  | HTTPError code reason (Some (Utf8 body)) =>
      Raise (Exn Exception (PStr (http_error_message code reason body)))
  | HTTPError code reason None =>
      Raise (Exn Exception (PStr (http_error_message code reason "")))
  | URLError reason => Raise (Exn Exception (PStr (connection_error_message reason)))
  | Failure e => Raise e
  end.

(** [run] is one of the three dispatch functions, called for a datasource
    whose entry is a dict, and [req] the request it builds. *)
Inductive dispatch (self : helper) : IO pyval -> Request -> Z -> Prop :=
| via_direct (name : string) (entry : list (string * pyval)) (q : string)
    (s e step M : Z) :
    lookup name (datasources self) = Some (PDict entry) ->
    dispatch self (query_prometheus_direct self name q s e step M)
      (direct_request self (entry_id entry) q s e step) M
| via_absolute (name : string) (entry : list (string * pyval)) (uid : pyval)
    (q : string) (from_ to : Z) (interval legend : string) (M : Z) :
    lookup name (datasources self) = Some (PDict entry) ->
    lookup "uid" entry = Some uid ->
    dispatch self (query_prometheus_absolute self name q from_ to interval legend M)
      (gateway_request self uid (entry_id entry) q interval legend
         (str_of_int from_) (str_of_int to)) M
| via_relative (name : string) (entry : list (string * pyval)) (uid : pyval)
    (q time_range from_ to interval legend : string) (M : Z) :
    lookup name (datasources self) = Some (PDict entry) ->
    lookup "uid" entry = Some uid ->
    _parse_time_range time_range = Return (from_, to) ->
    dispatch self (query_prometheus self name q time_range interval legend M)
      (gateway_request self uid (entry_id entry) q interval legend from_ to) M.

Lemma dispatch_runs_loop (self : helper) (run : IO pyval) (req : Request) (M : Z) :
  dispatch self run req M ->
  forall w, run w = attempt_loop req M (range M) w.
Proof.
  intros [name entry q s e step M' H | name entry uid q f t i l M' H U
          | name entry uid q tr f t i l M' H U P] w.
  - now apply query_prometheus_direct_configured.
  - now apply query_prometheus_absolute_configured.
  - now apply query_prometheus_configured with (time_range := tr).
Qed.

Lemma after_one (w : World) (req : Request) :
  mkWorld (server w) (clock w) (sent w ++ [req])%list (slept w)
  = after w req 1 [].
Proof.
  unfold after. cbn [total fold_right repeat]. f_equal; [lia | now rewrite app_nil_r].
Qed.

Lemma after_none (w : World) (req : Request) : after w req 0 [] = w.
Proof.
  destruct w as [srv c s sl]. unfold after. cbn.
  f_equal; [lia | apply app_nil_r | apply app_nil_r].
Qed.

(** The loop over what is left of [range(M)], from attempt [i] on: it
    stops at the first answer that is no retryable failure, or at the last
    attempt. *)
Lemma loop_stops (req : Request) (M : Z) :
  forall n i w,
    Z.of_nat (i + n) = M ->
    (n = 0%nat /\ attempt_loop req M (map Z.of_nat (seq i n)) w = (Return PNone, w))
    \/ exists j,
         (j < n)%nat
         /\ (forall k, (k < j)%nat -> is_failure (answer w req k) = true)
         /\ (is_failure (answer w req j) = true -> S j = n)
         /\ attempt_loop req M (map Z.of_nat (seq i n)) w
            = (final_result (answer w req j),
               after w req (S j) (map delay (seq i j))).
Proof.
  induction n as [|n IH]; intros i w HM; [left; now split|right].
  cbn [seq map]. rewrite attempt_loop_cons. cbv zeta.
  assert (Last : (Z.of_nat i =? M - 1) = true -> n = 0%nat).
  { intros E. apply Z.eqb_eq in E. lia. }
  assert (Stop : forall r,
             answer w req 0 = r ->
             (is_failure r = true -> n = 0%nat) ->
             exists j,
               (j < S n)%nat
               /\ (forall k, (k < j)%nat -> is_failure (answer w req k) = true)
               /\ (is_failure (answer w req j) = true -> S j = S n)
               /\ (final_result r,
                   mkWorld (server w) (clock w) (sent w ++ [req])%list (slept w))
                  = (final_result (answer w req j),
                     after w req (S j) (map delay (seq i j)))).
  { intros r A F. exists 0%nat. rewrite A. repeat split.
    - lia.
    - intros k Hk. lia.
    - intros H. now rewrite (F H).
    - cbn [seq map]. now rewrite after_one. }
  assert (Go : forall r,
             answer w req 0 = r -> is_failure r = true ->
             (Z.of_nat i =? M - 1) = false ->
             exists j,
               (j < S n)%nat
               /\ (forall k, (k < j)%nat -> is_failure (answer w req k) = true)
               /\ (is_failure (answer w req j) = true -> S j = S n)
               /\ attempt_loop req M (map Z.of_nat (seq (S i) n))
                    (mkWorld (server w) (clock w + 1 * (Z.of_nat i + 1))
                       (sent w ++ [req])%list
                       (slept w ++ [1 * (Z.of_nat i + 1)])%list)
                  = (final_result (answer w req j),
                     after w req (S j) (map delay (seq i j)))).
  { intros r A F E.
    destruct (IH (S i)
                (mkWorld (server w) (clock w + 1 * (Z.of_nat i + 1))
                   (sent w ++ [req])%list (slept w ++ [1 * (Z.of_nat i + 1)])%list))
      as [[N _] | [j [Hj [Hf [Hl R]]]]]; [lia | |].
    - apply Z.eqb_neq in E. lia.
    - exists (S j). rewrite answer_step in *. repeat split.
      + lia.
      + intros [|k] Hk; [now rewrite A|].
        specialize (Hf k ltac:(lia)). now rewrite answer_step in Hf.
      + intros H. now rewrite (Hl H).
      + rewrite R, after_step. reflexivity. }
  destruct (answer w req 0) as [loaded | code reason fp | reason | e] eqn:A.
  - apply (Stop (Ok2xx loaded) eq_refl). discriminate.
  - destruct (Z.of_nat i =? M - 1) eqn:E.
    + destruct (Stop (HTTPError code reason fp) eq_refl (fun _ => Last eq_refl))
        as [j [H1 [H2 [H3 H4]]]].
      exists j. repeat split; try assumption.
      rewrite <- H4. now destruct fp as [[body|]|].
    + now apply (Go (HTTPError code reason fp)).
  - destruct (Z.of_nat i =? M - 1) eqn:E.
    + apply (Stop (URLError reason) eq_refl (fun _ => Last eq_refl)).
    + now apply (Go (URLError reason)).
  - apply (Stop (Failure e) eq_refl). discriminate.
Qed.

(** The same for the three dispatch functions. *)
Lemma dispatch_stops (self : helper) (run : IO pyval) (req : Request) (M : Z)
  (w : World) :
  dispatch self run req M ->
  (M <= 0 /\ run w = (Return PNone, w))
  \/ exists j,
       Z.of_nat j < M
       /\ (forall k, (k < j)%nat -> is_failure (answer w req k) = true)
       /\ (is_failure (answer w req j) = true -> Z.of_nat (S j) = M)
       /\ run w = (final_result (answer w req j), after w req (S j) (backoff j)).
Proof.
  intros D. rewrite (dispatch_runs_loop self run req M D w).
  destruct (Z.le_gt_cases M 0) as [H | H].
  - left. split; [exact H | now apply attempt_loop_no_attempts].
  - right. unfold range.
    destruct (loop_stops req M (Z.to_nat M) 0 w ltac:(lia))
      as [[N _] | [j [Hj [Hf [Hl R]]]]]; [lia|].
    exists j. repeat split; try assumption; try lia.
    intros F. specialize (Hl F). lia.
Qed.

(** Where the loop stops is determined by the answers. *)
Lemma dispatch_stops_at (self : helper) (run : IO pyval) (req : Request) (M : Z)
  (w : World) (j : nat) :
  dispatch self run req M ->
  Z.of_nat j < M ->
  (forall k, (k < j)%nat -> is_failure (answer w req k) = true) ->
  (is_failure (answer w req j) = false \/ Z.of_nat (S j) = M) ->
  run w = (final_result (answer w req j), after w req (S j) (backoff j)).
Proof.
  intros D Hj Hf Hend.
  destruct (dispatch_stops self run req M w D) as [[N _] | [j' [Hj' [Hf' [Hl' R]]]]];
    [lia|].
  assert (j' = j) as ->; [|exact R].
  destruct (Nat.lt_trichotomy j' j) as [L | [E | L]]; [|exact E|].
  - specialize (Hl' (Hf j' L)). lia.
  - specialize (Hf' j L). destruct Hend as [H | H]; [congruence | lia].
Qed.

Lemma total_backoff (j : nat) :
  2 * total (backoff j) = Z.of_nat j * (Z.of_nat j + 1).
Proof.
  unfold backoff, total. induction j as [|j IH]; [reflexivity|].
  rewrite seq_S, map_app, fold_right_app. cbn [map fold_right Nat.add].
  assert (G : forall l a, fold_right Z.add a l = fold_right Z.add 0 l + a).
  { induction l as [|x l IHl]; intros a; cbn; [lia|]. rewrite IHl. lia. }
  rewrite G. unfold delay in *. rewrite Nat2Z.inj_succ. cbn [Nat.add]. nia.
Qed.

(** X10. What one call of a dispatch function does to the world, whatever
    the server answers: it sends the same request [k] times, with [k] at
    most [max_retries] (and at least one when [max_retries] is positive),
    sleeps 1, 2, ..., [k - 1] seconds between them and never after the
    last, so it blocks for [k (k - 1) / 2] seconds of sleep in all. *)
Theorem dispatch_footprint (self : helper) (run : IO pyval) (req : Request)
  (M : Z) (w : World) :
  dispatch self run req M ->
  exists k : nat,
    Z.of_nat k <= Z.max 0 M
    /\ (0 < M -> (1 <= k)%nat)
    /\ server (snd (run w)) = server w
    /\ sent (snd (run w)) = (sent w ++ repeat req k)%list
    /\ slept (snd (run w)) = (slept w ++ backoff (k - 1))%list
    /\ clock (snd (run w)) = clock w + Z.of_nat k * (Z.of_nat k - 1) / 2.
Proof.
  intros D.
  destruct (dispatch_stops self run req M w D) as [[N R] | [j [Hj [_ [_ R]]]]];
    rewrite R; cbn [snd].
  - exists 0%nat. cbn. rewrite !app_nil_r. repeat split; lia.
  - exists (S j). unfold after. cbn [server sent slept clock].
    replace (S j - 1)%nat with j by lia. repeat split; try lia.
    f_equal. apply Z.div_unique_exact; [lia|].
    rewrite total_backoff. lia.
Qed.

(** X11. A value a dispatch function returns is what the server sent: it
    is the decoded body of a 2xx answer that came after retryable failures
    only, unless [max_retries] is not positive, where it is [None] and
    nothing was sent. *)
Theorem returned_value_is_a_2xx_body (self : helper) (run : IO pyval)
  (req : Request) (M : Z) (w w' : World) (v : pyval) :
  dispatch self run req M ->
  run w = (Return v, w') ->
  (M <= 0 /\ v = PNone /\ w' = w)
  \/ exists j,
       Z.of_nat j < M
       /\ (forall k, (k < j)%nat -> is_failure (answer w req k) = true)
       /\ answer w req j = Ok2xx (Return v)
       /\ w' = after w req (S j) (backoff j).
Proof.
  intros D R.
  destruct (dispatch_stops self run req M w D) as [[N R'] | [j [Hj [Hf [_ R']]]]];
    rewrite R' in R.
  - left. injection R as <- <-. now repeat split.
  - right. exists j. injection R as Hv <-. repeat split; try assumption.
    destruct (answer w req j) as [loaded | code reason [[body|]|] | reason | e];
      cbn in Hv; try discriminate.
    now subst loaded.
Qed.

(** X12. An exception that is neither [HTTPError] nor [URLError] is not
    retried: when [urlopen] raises one, or the body of a 2xx answer does
    not load as JSON, the dispatch function raises it at once, without
    sleeping and with the attempts that remain unused. *)
Theorem other_exceptions_are_not_retried (self : helper) (run : IO pyval)
  (req : Request) (M : Z) (w : World) (j : nat) (e : exn) :
  dispatch self run req M ->
  Z.of_nat j < M ->
  (forall k, (k < j)%nat -> is_failure (answer w req k) = true) ->
  answer w req j = Failure e \/ answer w req j = Ok2xx (Raise e) ->
  run w = (Raise e, after w req (S j) (backoff j)).
Proof.
  intros D Hj Hf A.
  rewrite (dispatch_stops_at self run req M w j D Hj Hf).
  - now destruct A as [-> | ->].
  - left. now destruct A as [-> | ->].
Qed.

(** X13. When the last attempt fails with an HTTP error whose body is not
    UTF-8, the dispatch function raises [UnicodeDecodeError] from decoding
    the body: the status code and the reason are not reported. *)
Theorem undecodable_error_body_hides_the_status (self : helper) (run : IO pyval)
  (req : Request) (M : Z) (w : World) (n : nat) (code : Z) (reason : string) :
  dispatch self run req M ->
  Z.of_nat (S n) = M ->
  (forall k, (k < n)%nat -> is_failure (answer w req k) = true) ->
  answer w req n = HTTPError code reason (Some NotUtf8) ->
  run w = (raise UnicodeDecodeError "'utf-8' codec can't decode bytes",
           after w req (S n) (backoff n)).
Proof.
  intros D HM Hf A.
  rewrite (dispatch_stops_at self run req M w n D ltac:(lia) Hf (or_intror HM)).
  now rewrite A.
Qed.

Definition configured_entry : list (string * pyval) :=
  [("uid", PStr "abc"); ("id", PInt 7)].

Definition breaks_on_second (n : nat) (_ : Request) : Response :=
  match n with
  | 0%nat => URLError "Connection refused"
  | _ => Failure (Exn OtherError (PStr "timed out"))
  end.

Definition garbled (_ : nat) (_ : Request) : Response :=
  HTTPError 500 "Internal Server Error" (Some NotUtf8).

Lemma dispatch_footprint_witness :
  exists k : nat,
    Z.of_nat k <= Z.max 0 3
    /\ (0 < 3 -> (1 <= k)%nat)
    /\ server (snd (query_prometheus one_datasource "Prometheus 1" "up" "1h" "" "" 3
                      (fresh always_unavailable)))
       = server (fresh always_unavailable)
    /\ sent (snd (query_prometheus one_datasource "Prometheus 1" "up" "1h" "" "" 3
                    (fresh always_unavailable)))
       = (sent (fresh always_unavailable)
          ++ repeat (gateway_request one_datasource (PStr "abc")
                       (entry_id configured_entry) "up" "" "" "now-1h" "now") k)%list
    /\ slept (snd (query_prometheus one_datasource "Prometheus 1" "up" "1h" "" "" 3
                     (fresh always_unavailable)))
       = (slept (fresh always_unavailable) ++ backoff (k - 1))%list
    /\ clock (snd (query_prometheus one_datasource "Prometheus 1" "up" "1h" "" "" 3
                     (fresh always_unavailable)))
       = clock (fresh always_unavailable) + Z.of_nat k * (Z.of_nat k - 1) / 2.
Proof.
  apply (dispatch_footprint one_datasource).
  apply (via_relative one_datasource "Prometheus 1" configured_entry (PStr "abc")
           "up" "1h" "now-1h" "now" "" "" 3); reflexivity.
Defined.

Lemma returned_value_is_a_2xx_body_witness :
  (3 <= 0 /\ up_result = PNone
   /\ after (fresh third_time_lucky)
        (direct_request one_datasource (entry_id configured_entry) "up" 0 60 15)
        3 [1; 2]
      = fresh third_time_lucky)
  \/ exists j,
       Z.of_nat j < 3
       /\ (forall k, (k < j)%nat ->
             is_failure
               (answer (fresh third_time_lucky)
                  (direct_request one_datasource (entry_id configured_entry)
                     "up" 0 60 15) k) = true)
       /\ answer (fresh third_time_lucky)
            (direct_request one_datasource (entry_id configured_entry) "up" 0 60 15)
            j
          = Ok2xx (Return up_result)
       /\ after (fresh third_time_lucky)
            (direct_request one_datasource (entry_id configured_entry) "up" 0 60 15)
            3 [1; 2]
          = after (fresh third_time_lucky)
              (direct_request one_datasource (entry_id configured_entry)
                 "up" 0 60 15)
              (S j) (backoff j).
Proof.
  apply (returned_value_is_a_2xx_body one_datasource
           (query_prometheus_direct one_datasource "Prometheus 1" "up" 0 60 15 3)).
  - apply (via_direct one_datasource "Prometheus 1" configured_entry). reflexivity.
  - reflexivity.
Defined.

Lemma other_exceptions_are_not_retried_witness :
  query_prometheus_absolute one_datasource "Prometheus 1" "up" 0 60000 "15s" "" 3
    (fresh breaks_on_second)
  = (Raise (Exn OtherError (PStr "timed out")),
     after (fresh breaks_on_second)
       (gateway_request one_datasource (PStr "abc") (entry_id configured_entry)
          "up" "15s" "" "0" "60000")
       2 [1]).
Proof.
  apply (other_exceptions_are_not_retried one_datasource
           (query_prometheus_absolute one_datasource "Prometheus 1" "up" 0 60000
              "15s" "" 3)
           (gateway_request one_datasource (PStr "abc") (entry_id configured_entry)
              "up" "15s" "" "0" "60000")
           3 (fresh breaks_on_second) 1).
  - apply (via_absolute one_datasource "Prometheus 1" configured_entry (PStr "abc")
             "up" 0 60000 "15s" "" 3); reflexivity.
  - lia.
  - intros [|k] Hk; [reflexivity | lia].
  - left. reflexivity.
Defined.

Lemma undecodable_error_body_hides_the_status_witness :
  query_prometheus_direct one_datasource "Prometheus 1" "up" 0 60 15 2
    (fresh garbled)
  = (raise UnicodeDecodeError "'utf-8' codec can't decode bytes",
     after (fresh garbled)
       (direct_request one_datasource (entry_id configured_entry) "up" 0 60 15)
       2 [1]).
Proof.
  apply (undecodable_error_body_hides_the_status one_datasource
           (query_prometheus_direct one_datasource "Prometheus 1" "up" 0 60 15 2)
           (direct_request one_datasource (entry_id configured_entry) "up" 0 60 15)
           2 (fresh garbled) 1 500 "Internal Server Error").
  - apply (via_direct one_datasource "Prometheus 1" configured_entry). reflexivity.
  - reflexivity.
  - intros [|k] Hk; [reflexivity | lia].
  - reflexivity.
Defined.

End Attempts.

(** ** The URL of the direct request *)

Module Urls.
Import Py PyVal Net GrafanaQueryHelper StringFacts.

(** The characters a quoted string is made of: letters, digits and
    [_ . - ~ / %]. *)
Definition url_safe (c : ascii) : bool :=
  let n := code c in
  ((48 <=? n) && (n <=? 57)) || ((65 <=? n) && (n <=? 90))
  || ((97 <=? n) && (n <=? 122))
  || (n =? 95) || (n =? 46) || (n =? 45) || (n =? 126) || (n =? 47) || (n =? 37).

Lemma quote_char_safe (c : ascii) : forallb url_safe (chars (quote_char c)) = true.
Proof. destruct c as [[] [] [] [] [] [] [] []]; vm_compute; reflexivity. Qed.

Lemma concat_empty_cons (x : string) (l : list string) :
  String.concat "" (x :: l) = x ++ String.concat "" l.
Proof.
  destruct l as [|y l]; cbn [String.concat].
  - clear. induction x as [|c x IH]; cbn; [reflexivity | now rewrite <- IH].
  - reflexivity.
Qed.

Lemma quote_safe (s : string) : forallb url_safe (chars (quote s)) = true.
Proof.
  unfold quote. induction s as [|c s IH]; [reflexivity|].
  cbn [chars list_ascii_of_string map]. rewrite concat_empty_cons.
  rewrite chars_app, forallb_app, quote_char_safe. exact IH.
Qed.

(** X14. The PromQL expression enters the URL of the direct request
    percent-quoted: the URL is the proxy path of the datasource followed by
    [query=], the quoted expression and the three numeric parameters, and
    the quoted expression holds only letters, digits and [_ . - ~ / %], so
    no character of the expression can end or add a parameter. *)
Theorem direct_request_quotes_the_query (self : helper) (datasource_id : pyval)
  (q : string) (s e step : Z) :
  direct_request self datasource_id q s e step
  = GET (grafana_url self ++ "/api/datasources/proxy/" ++ str datasource_id
         ++ "/api/v1/query_range?query=" ++ quote q
         ++ "&start=" ++ str_of_int s ++ "&end=" ++ str_of_int e
         ++ "&step=" ++ str_of_int step)
        [("Authorization", "Bearer " ++ api_token self);
         ("Accept", "application/json")]
  /\ forallb url_safe (chars (quote q)) = true
  /\ has_char "&" (quote q) = false
  /\ has_char "=" (quote q) = false
  /\ has_char "#" (quote q) = false
  /\ has_char " " (quote q) = false.
Proof.
  assert (No : forall c, url_safe c = false -> has_char c (quote q) = false).
  { intros c Hc. unfold has_char.
    destruct (existsb (Ascii.eqb c) (chars (quote q))) eqn:E; [|reflexivity].
    apply existsb_exists in E as [x [Hx Ex]]. apply Ascii.eqb_eq in Ex. subst x.
    pose proof (quote_safe q) as S. rewrite forallb_forall in S.
    rewrite (S c Hx) in Hc. discriminate. }
  split; [|split; [apply quote_safe | repeat split; apply No; reflexivity]].
  reflexivity.
Qed.

End Urls.

(** ** The simple and the json format *)

Module Render.
Import Py PyVal PyInt PyTime GrafanaQueryHelper StringFacts FormatFacts TableFormat.
Local Open Scope py_scope.

Lemma except_key_index_class {A : Type} (m : result A) (handler : exn -> result A)
  (e : exn) :
  (forall e', exists a, handler e' = Return a) ->
  except_key_index m handler = Raise e ->
  exn_class_of e <> KeyError /\ exn_class_of e <> IndexError.
Proof.
  intros H. destruct m as [a | e']; cbn [except_key_index]; [discriminate|].
  destruct (exn_class_of e') eqn:C; intros R;
    try (destruct (H e') as [a Ha]; rewrite Ha in R; discriminate);
    injection R as <-; rewrite C; split; discriminate.
Qed.

Lemma contains_raises_type_error (k : string) (v : pyval) (e : exn) :
  contains k v = Raise e -> exn_class_of e = TypeError.
Proof.
  destruct v; cbn [contains]; unfold raise; intros H;
    try discriminate; now injection H as <-.
Qed.

(** The one line of the simple format for a frame: its name and the last
    entry of its value column. *)
Definition frame_simple_line (d : frame) : list string :=
  match rev (fr_vals d) with
  | latest :: _ => [str (frame_name d) ++ ": " ++ str latest]
  | [] => []
  end.

(** The one line of the simple format for a legacy series: its name and the
    value of its last point. *)
Definition legacy_simple_line (d : legacy_series) : list string :=
  match rev (ls_points d) with
  | (latest, _) :: _ => [ls_name d ++ ": " ++ str latest]
  | [] => []
  end.


Definition has_points (d : native_series) : bool :=
  match ns_points d with [] => false | _ => true end.

Lemma frames_simple_step_encoded (lines : list string) (f : pyval) (d : frame) :
  encodes_frame f d ->
  frames_simple_step lines f = Return (lines ++ frame_simple_line d)%list.
Proof.
  intros E. destruct (frame_name_and_values_encoded f d E) as [more Hn].
  unfold frames_simple_step. rewrite Hn. cbn [bind PyVal.length List.length].
  replace (2 <=? Z.of_nat (S (S (List.length more)))) with true
    by (symmetry; apply Z.leb_le; lia).
  rewrite getitem_1. cbn [bind]. unfold frame_simple_line, append.
  destruct (fr_vals d) as [|v vs _] using rev_ind.
  - cbn [truthy rev]. now rewrite app_nil_r.
  - rewrite truthy_list_snoc, getitem_last, rev_app_distr. reflexivity.
Qed.

Lemma series_simple_step_encoded (lines : list string) (s : pyval)
  (d : legacy_series) :
  encodes_legacy s d ->
  series_simple_step lines s = Return (lines ++ legacy_simple_line d)%list.
Proof.
  intros (items & -> & Hn & Hp). unfold series_simple_step, label in *.
  cbn [get bind]. rewrite Hn, Hp. unfold legacy_simple_line, append.
  destruct (ls_points d) as [|[v t] ps _] using rev_ind.
  - cbn [map truthy rev]. now rewrite app_nil_r.
  - rewrite map_app, rev_app_distr. cbn [map rev app].
    rewrite truthy_list_snoc, getitem_last. cbn [bind].
    reflexivity.
Qed.


Lemma simple_lines_filtered (ds : list native_series) :
  List.concat (map simple_line ds) = map line_of (filter has_points ds).
Proof.
  induction ds as [|d ds IH]; [reflexivity|].
  cbn [map List.concat filter]. rewrite IH. unfold has_points.
  destruct (ns_points d) as [|p ps] eqn:E.
  - unfold simple_line. now rewrite E.
  - rewrite (simple_line_with_points d) by (rewrite E; discriminate).
    reflexivity.
Qed.

Section Formats.

Variable max_digits : nat.
Variable utcoffset : Z -> Z.

(** X15. [format_series_data] never raises [KeyError] or [IndexError],
    whatever the payload and the format: inside its [try] both are turned
    into the "Error formatting data" text, and what comes before the [try]
    raises neither.  Exceptions of other classes do pass through. *)
Theorem format_series_data_never_raises_key_or_index
  (result : pyval) (format_type : string) (e : exn) :
  format_series_data utcoffset result format_type = Raise e ->
  exn_class_of e <> KeyError /\ exn_class_of e <> IndexError.
Proof.
  unfold format_series_data.
  destruct (truthy result); cbn [negb]; [|discriminate].
  destruct (contains "results" result) as [[|]|e'] eqn:C; cbn [bind negb].
  - destruct (String.eqb format_type "json"); [discriminate|].
    apply except_key_index_class. intros e'. eexists. reflexivity.
  - discriminate.
  - intros H. injection H as <-.
    rewrite (contains_raises_type_error _ _ _ C). split; discriminate.
Qed.

(** X16. The json format prints the payload as it came, all of it:
    [max_series] and [max_points] do not apply.  A native payload is
    printed when its result list is not empty, and gives "No data points"
    when it is; a payload whose status is not "success" and that has a
    [results] key is printed whatever is under that key. *)
Theorem json_format_prints_the_payload :
  (forall result series max_series max_points,
      native_envelope result series -> series <> [] ->
      format_prometheus_result max_digits utcoffset result "json" max_series
        max_points
      = Return (dumps_indent 0 result))
  /\ (forall result max_series max_points,
         native_envelope result [] ->
         format_prometheus_result max_digits utcoffset result "json" max_series
           max_points
         = Return "No data points")
  /\ (forall top max_series max_points,
         eq_str (label "status" top PNone) "success" = false ->
         lookup "results" top <> None ->
         format_prometheus_result max_digits utcoffset (PDict top) "json" max_series
           max_points
         = Return (dumps_indent 0 (PDict top))).
Proof.
  repeat split.
  - intros result series ms mp (top & data & -> & Hs & Hd & Hr) Hne.
    unfold format_prometheus_result.
    rewrite (truthy_dict "status" top _ Hs). cbn [negb get bind].
    rewrite Hs. cbn [eq_str String.eqb Ascii.eqb Bool.eqb]. cbv iota.
    rewrite Hd. cbn [get bind]. rewrite Hr. cbn [bind].
    destruct series; [congruence | reflexivity].
  - intros result ms mp (top & data & -> & Hs & Hd & Hr).
    unfold format_prometheus_result.
    rewrite (truthy_dict "status" top _ Hs). cbn [negb get bind].
    rewrite Hs. cbn [eq_str String.eqb Ascii.eqb Bool.eqb]. cbv iota.
    rewrite Hd. cbn [get bind]. rewrite Hr. reflexivity.
  - intros top ms mp Hs Hr. unfold format_prometheus_result, label in *.
    destruct (lookup "results" top) as [r|] eqn:R; [clear Hr | congruence].
    rewrite (truthy_dict "results" top _ R). cbn [negb get bind].
    rewrite Hs. unfold format_series_data.
    rewrite (truthy_dict "results" top _ R). cbn [negb contains bind].
    now rewrite R.
Qed.

Lemma frames_simple_lines
  (result : pyval) (a : list (string * pyval)) (frames : list pyval)
  (descs : list frame) :
  gateway_payload result a ->
  lookup "frames" a = Some (PList frames) -> frames <> [] ->
  Forall2 encodes_frame frames descs ->
  format_series_data utcoffset result "simple"
  = Return (join nl (List.concat (map frame_simple_line descs))).
Proof.
  intros P Hf Hne F.
  destruct (gateway_payload_truthy result a P) as [T C].
  destruct P as (top & res & -> & Hr & Ha).
  unfold format_series_data. rewrite T, C. cbn [negb bind getitem_str String.eqb].
  rewrite Hr. cbn [bind getitem_str]. rewrite Ha. cbn [bind contains getitem_str].
  rewrite Hf. cbn [bind].
  assert (Tf : truthy (PList frames) = true)
    by (destruct frames; [congruence | reflexivity]).
  rewrite Tf. cbn [negb iter bind].
  rewrite (for_each_described _ frames_simple_step frame_simple_line
             (fun acc x d H => frames_simple_step_encoded acc x d H) _ _ F).
  reflexivity.
Qed.

Lemma series_simple_lines
  (result : pyval) (a : list (string * pyval)) (series : list pyval)
  (descs : list legacy_series) :
  gateway_payload result a ->
  lookup "frames" a = None ->
  lookup "series" a = Some (PList series) -> series <> [] ->
  Forall2 encodes_legacy series descs ->
  format_series_data utcoffset result "simple"
  = Return
      (join nl
         (List.concat (map legacy_simple_line (firstn 20 descs))
          ++ (if 20 <? Z.of_nat (List.length series)
              then [more_series_line (Z.of_nat (List.length series) - 20)]
              else []))%list).
Proof.
  intros P Hf Hse Hne F.
  destruct (gateway_payload_truthy result a P) as [T C].
  destruct P as (top & res & -> & Hr & Ha).
  unfold format_series_data. rewrite T, C. cbn [negb bind getitem_str String.eqb].
  rewrite Hr. cbn [bind getitem_str]. rewrite Ha. cbn [bind contains getitem_str].
  rewrite Hf, Hse. cbn [bind].
  assert (Ts : truthy (PList series) = true)
    by (destruct series; [congruence | reflexivity]).
  rewrite Ts. cbn [negb getslice iter bind PyVal.length].
  rewrite (slice_first 20) by lia. change (Z.to_nat 20) with 20%nat.
  rewrite (for_each_described _ series_simple_step legacy_simple_line
             (fun acc x d H => series_simple_step_encoded acc x d H) _ _
             (Forall2_firstn _ 20 _ _ F)).
  cbn [bind app]. unfold append.
  destruct (20 <? Z.of_nat (List.length series)); [reflexivity|].
  now rewrite app_nil_r.
Qed.


(** X17. Simple format of a frames payload: one line per frame, the
    frame's name and the last entry of its value column, in the order of the
    payload; a frame with an empty value column gives no line.  Every frame
    is shown: there is no limit on their number and no summary line. *)
Theorem frames_simple_output
  (result : pyval) (a : list (string * pyval)) (frames : list pyval)
  (descs : list frame) :
  gateway_payload result a ->
  lookup "frames" a = Some (PList frames) -> frames <> [] ->
  Forall2 encodes_frame frames descs ->
  format_series_data utcoffset result "simple"
  = Return (join nl (List.concat (map frame_simple_line descs))).
Proof. exact (frames_simple_lines result a frames descs). Qed.

(** X18. Simple format of a legacy series payload: one line for each of
    the first 20 series that has points, its name and the value of its last
    point; when there are more than 20 series, a last line
    "... and n more series" counts the others. *)
Theorem series_simple_output
  (result : pyval) (a : list (string * pyval)) (series : list pyval)
  (descs : list legacy_series) :
  gateway_payload result a ->
  lookup "frames" a = None ->
  lookup "series" a = Some (PList series) -> series <> [] ->
  Forall2 encodes_legacy series descs ->
  format_series_data utcoffset result "simple"
  = Return
      (join nl
         (List.concat (map legacy_simple_line (firstn 20 descs))
          ++ (if 20 <? Z.of_nat (List.length series)
              then [more_series_line (Z.of_nat (List.length series) - 20)]
              else []))%list).
Proof. exact (series_simple_lines result a series descs). Qed.


(** X20. Simple format of a native payload in general: among the first
    [max_series] series, those that have points give a line each and those
    without points give none, but the latter still count towards
    [max_series] and are not part of the summary line. *)
Theorem native_simple_skips_series_without_points
  (result : pyval) (series : list pyval) (descs : list native_series)
  (max_series max_points : Z) :
  native_envelope result series ->
  Forall2 encodes_native series descs ->
  series <> [] -> 0 <= max_series ->
  format_prometheus_result max_digits utcoffset result "simple" max_series max_points
  = Return
      (join nl
         (map line_of (filter has_points (firstn (Z.to_nat max_series) descs))
          ++ (if max_series <? Z.of_nat (List.length series)
              then [more_series_line (Z.of_nat (List.length series) - max_series)]
              else []))%list).
Proof.
  intros E F Hne Hm.
  rewrite (native_simple_output max_digits utcoffset result series descs
             max_series max_points E F Hne Hm).
  now rewrite simple_lines_filtered.
Qed.

End Formats.

Definition idle : native_series := NativeSeries [("instance", PStr "idle:9100")] [].

Lemma format_series_data_never_raises_key_or_index_witness :
  format_series_data utc (PInt 5) "table"
  = raise TypeError "argument of type 'int' is not iterable"
  /\ TypeError <> KeyError /\ TypeError <> IndexError.
Proof.
  split; [reflexivity|].
  apply (format_series_data_never_raises_key_or_index utc (PInt 5) "table"
           (Exn TypeError (PStr "argument of type 'int' is not iterable"))).
  reflexivity.
Defined.

Lemma json_format_prints_the_payload_witness :
  format_prometheus_result 4300 utc (envelope (map encode_native nodes25)) "json" 20 10
  = Return (dumps_indent 0 (envelope (map encode_native nodes25)))
  /\ format_prometheus_result 4300 utc (envelope []) "json" 20 10
     = Return "No data points"
  /\ format_prometheus_result 4300 utc (gateway [("frames", PList [])]) "json" 20 10
     = Return (dumps_indent 0 (gateway [("frames", PList [])])).
Proof.
  destruct (json_format_prints_the_payload 4300 utc) as [A [B C]].
  split; [|split].
  - apply (A _ (map encode_native nodes25)); [apply envelope_is_native | discriminate].
  - apply B. apply envelope_is_native.
  - apply C; [reflexivity | discriminate].
Defined.

Lemma frames_simple_output_witness :
  format_series_data utc (gateway [("frames", PList [encode_frame long_frame])])
    "simple"
  = Return (long_name ++ ": n/a").
Proof.
  apply (frames_simple_output utc _ [("frames", PList [encode_frame long_frame])]
           [encode_frame long_frame] [long_frame]).
  - apply gateway_is_payload.
  - reflexivity.
  - discriminate.
  - constructor; [apply encode_frame_encodes | constructor].
Defined.

Lemma series_simple_output_witness :
  format_series_data utc (gateway [("series", PList [encode_legacy long_legacy])])
    "simple"
  = Return (long_name ++ ": n/a").
Proof.
  apply (series_simple_output utc _ [("series", PList [encode_legacy long_legacy])]
           [encode_legacy long_legacy] [long_legacy]).
  - apply gateway_is_payload.
  - reflexivity.
  - reflexivity.
  - discriminate.
  - apply (encode_legacy_encodes [long_legacy]).
Defined.


Lemma native_simple_skips_series_without_points_witness :
  format_prometheus_result 4300 utc
    (envelope (map encode_native [idle; node 1; node 2])) "simple" 2 10
  = Return ("node1:9100: 1" ++ nl ++ "... and 1 more series").
Proof.
  apply (native_simple_skips_series_without_points 4300 utc _
           (map encode_native [idle; node 1; node 2]) [idle; node 1; node 2] 2 10).
  - apply envelope_is_native.
  - apply encode_native_encodes.
  - discriminate.
  - lia.
Defined.

End Render.

(** ** What [query] sends *)

Module Traffic.
Import Py PyVal PyInt Net GrafanaQueryHelper StringFacts Dispatch Windows Attempts.
Local Open Scope py_scope.

Lemma prefix_app (p s : string) : String.prefix p (p ++ s) = true.
Proof.
  induction p as [|c p IH]; cbn.
  - now destruct s.
  - destruct (ascii_dec c c) as [_ | N]; [exact IH | now elim N].
Qed.

Lemma loop_world (req : Request) (M : Z) (w : World) :
  exists k : nat,
    Z.of_nat k <= Z.max 0 M
    /\ sent (snd (attempt_loop req M (range M) w)) = (sent w ++ repeat req k)%list.
Proof.
  destruct (Z.le_gt_cases M 0) as [H | H].
  - exists 0%nat. rewrite (attempt_loop_no_attempts req M w H). cbn.
    rewrite app_nil_r. split; [lia | reflexivity].
  - unfold range.
    destruct (loop_stops req M (Z.to_nat M) 0 w ltac:(lia))
      as [[N _] | [j [Hj [_ [_ R]]]]]; [lia|].
    exists (S j). rewrite R. split; [lia | reflexivity].
Qed.

(** The requests a run adds are [k] copies of one GET under the proxy path,
    with [k] at most [max_retries]. *)
Definition only_proxy_gets (self : helper) (M : Z) (w w' : World) : Prop :=
  exists (k : nat) (url : string) (headers : list (string * string)),
    sent w' = (sent w ++ repeat (GET url headers) k)%list
    /\ startswith (grafana_url self ++ "/api/datasources/proxy/") url = true
    /\ Z.of_nat k <= Z.max 0 M.

Lemma nothing_sent (self : helper) (M : Z) (w : World) : only_proxy_gets self M w w.
Proof.
  exists 0%nat, ((grafana_url self ++ "/api/datasources/proxy/") ++ ""), [].
  cbn [repeat]. rewrite app_nil_r. repeat split; [apply prefix_app | lia].
Qed.

Lemma direct_only_proxy_gets (self : helper) (name q : string) (s e step M : Z)
  (w : World) :
  only_proxy_gets self M w (snd (query_prometheus_direct self name q s e step M w)).
Proof.
  unfold query_prometheus_direct, io_bind, lift.
  destruct (datasources_getitem self name) as [entry | err];
    [|apply nothing_sent].
  destruct (get entry "id" PNone) as [id | err]; [|apply nothing_sent].
  destruct (loop_world (direct_request self id q s e step) M w) as [k [Hk Hs]].
  unfold direct_request in *. cbv zeta in *.
  eexists k, _, _. split; [exact Hs | split; [|exact Hk]].
  rewrite <- str_app_assoc. apply prefix_app.
Qed.

(** X21. Whatever its arguments and whatever the server answers, [query]
    only talks to the datasource proxy: the requests it adds are copies of
    one GET whose URL starts with the Grafana URL followed by
    [/api/datasources/proxy/], at most [max_retries] of them; it never
    posts to the query gateway. *)
Theorem query_only_gets_through_the_proxy (max_digits : nat)
  (fromisoformat_timestamp strptime_timestamp : string -> option Z)
  (self : helper) (name q time_range : string) (start_time end_time : option string)
  (step M : Z) (w : World) :
  exists (k : nat) (url : string) (headers : list (string * string)),
    sent (snd (query max_digits fromisoformat_timestamp strptime_timestamp
                 self name q time_range start_time end_time step M w))
    = (sent w ++ repeat (GET url headers) k)%list
    /\ startswith (grafana_url self ++ "/api/datasources/proxy/") url = true
    /\ Z.of_nat k <= Z.max 0 M.
Proof.
  change (only_proxy_gets self M w
            (snd (query max_digits fromisoformat_timestamp strptime_timestamp
                    self name q time_range start_time end_time step M w))).
  unfold query.
  assert (R : only_proxy_gets self M w
                (snd ((now_ <~ now ;;
                       duration_seconds <~
                         lift (_parse_duration_to_seconds max_digits time_range) ;;
                       query_prometheus_direct self name q
                         (now_ - duration_seconds) now_ step M) w))).
  { unfold io_bind, now, lift.
    destruct (_parse_duration_to_seconds max_digits time_range);
      [apply direct_only_proxy_gets | apply nothing_sent]. }
  destruct (given start_time) as [a|]; [|exact R].
  destruct (given end_time) as [b|]; [|exact R].
  unfold io_bind, lift.
  destruct (_parse_absolute_time _ _ _ a); [|apply nothing_sent].
  destruct (_parse_absolute_time _ _ _ b);
    [apply direct_only_proxy_gets | apply nothing_sent].
Qed.

End Traffic.

(** ** The command line *)

Module CliFacts.
Import Py PyVal PyInt PyTime Net GrafanaQueryHelper Dispatch TableFormat Windows
  Attempts Cli.
Local Open Scope py_scope.

(** The lines [main] prints before it queries with a relative range. *)
Definition relative_header (datasource query_ time_range : string) : list string :=
  ["Query: " ++ query_; "Datasource: " ++ datasource;
   "Time range: " ++ time_range; ""].

Section Main.

Variable max_digits : nat.
Variable utcoffset : Z -> Z.
Variables fromisoformat_timestamp strptime_timestamp : string -> option Z.

Let main_ := main max_digits utcoffset fromisoformat_timestamp strptime_timestamp.

(** [main] with at most one option: the relative range, "1h" when there
    is none. *)
Lemma main_relative (prog name q : string) (options : list string) (self : helper)
  (w : World) :
  (List.length options <= 1)%nat ->
  main_ (prog :: name :: q :: options) (Return self) w
  = match query max_digits fromisoformat_timestamp strptime_timestamp self name q
            (hd "1h" options) None None default_step default_max_retries w with
    | (Return result, w') =>
        match format_prometheus_result max_digits utcoffset result "table"
                default_max_series default_max_points with
        | Return text =>
            (Process (relative_header name q (hd "1h" options) ++ [text]) []
               Returned, w')
        | Raise e =>
            (Process (relative_header name q (hd "1h" options))
               ["Error: " ++ exn_str e] (Exited 1), w')
        end
    | (Raise e, w') =>
        (Process (relative_header name q (hd "1h" options))
           ["Error: " ++ exn_str e] (Exited 1), w')
    end.
Proof.
  intros L. destruct options as [|t [|t' rest]]; [reflexivity | reflexivity|].
  cbn in L. lia.
Qed.

(** X22. With a datasource name that is not configured, the command line
    prints its four header lines, then reports the bare [KeyError] of the
    direct path on the error stream, which reads as the name between
    quotes, and exits with status 1; nothing is sent. *)
Theorem main_reports_unknown_datasource (prog name q : string)
  (options : list string) (self : helper) (w : World) (d : Z) :
  lookup name (datasources self) = None ->
  (List.length options <= 1)%nat ->
  _parse_duration_to_seconds max_digits (hd "1h" options) = Return d ->
  main max_digits utcoffset fromisoformat_timestamp strptime_timestamp
    (prog :: name :: q :: options) (Return self) w
  = (Process ["Query: " ++ q; "Datasource: " ++ name;
              "Time range: " ++ hd "1h" options; ""]
       ["Error: " ++ repr_str name] (Exited 1), w).
Proof.
  intros Hn L Hd. fold main_. rewrite (main_relative _ _ _ _ _ _ L).
  rewrite (query_relative max_digits fromisoformat_timestamp strptime_timestamp
             self name q (hd "1h" options) None None default_step
             default_max_retries w (or_introl eq_refl)).
  rewrite Hd, (direct_path_unknown_datasource self name q _ _ _ _ w Hn).
  reflexivity.
Qed.



End Main.


Lemma main_reports_unknown_datasource_witness :
  main 4300 utc no_date_parser no_date_parser ["query_helper.py"; "Missing"; "up"]
    (Return one_datasource) (fresh always_unavailable)
  = (Process ["Query: up"; "Datasource: Missing"; "Time range: 1h"; ""]
       ["Error: 'Missing'"] (Exited 1),
     fresh always_unavailable).
Proof.
  apply (main_reports_unknown_datasource 4300 utc no_date_parser no_date_parser
           "query_helper.py" "Missing" "up" [] one_datasource
           (fresh always_unavailable) 3600);
    [reflexivity | cbn; lia | reflexivity].
Defined.



End CliFacts.
